(** * A shallow embedding of the Reddit -> graph pipeline

    Three leaf scripts are modelled, each in its own module:
    - [Enricher]   : [llm.py]       ([analyze_post], [enrich_posts]);
    - [Collector]  : [scrp.py]      ([iso_day], [safe_author],
                                     [fetch_user_meta], [main]);
    - [SchemaInit] : [setuo-neo.py] ([CATEGORIES], [seed_categories]).

    [EnricherSummary] adds the counters of [enrich_posts], [SchemaScript]
    the control flow of the schema script ([run_batch], [wipe_all],
    [verify], [main]), and [Pipeline] the posts file as it passes from the
    Collector to the Enricher.

    External services (the classification client, the content source, the
    JSON codec, the graph database) are parameters of the development or
    are given the semantics their documentation states; everything the
    scripts themselves do is translated line by line. *)

From Stdlib Require Import ZArith List String Ascii Lia Floats.
From stdpp Require Import gmap strings list fin_maps.

Local Open Scope string_scope.
Local Open Scope list_scope.
#[local] Set Warnings "-register-all".

(** ** Python values and exceptions shared by the scripts *)

(** The exception classes that the modelled code can meet.  All of them
    derive from [Exception]. *)
Inductive exn : Type :=
| AttributeError
| TypeError
| ValueError
| JSONDecodeError
| OverflowError
| ServiceError (msg : string).

(** Result of a fallible pure computation. *)
Inductive result (A : Type) : Type :=
| Ok (a : A)
| Raise (e : exn).
Arguments Ok {A} a.
Arguments Raise {A} e.

(** How a procedure ends: it returns, or an exception leaves it. *)
Inductive outcome : Type :=
| Returned
| Raised (e : exn).

(** Values produced by [json.loads]: [None], [bool], [int], [float],
    [str], [list] and [dict].  A [dict] keeps insertion order, so it is an
    association list read and updated through [dict_get] / [dict_set]. *)
Inductive json : Type :=
| JNull
| JBool (b : bool)
| JInt (z : Z)
| JFloat (f : float)
| JStr (s : string)
| JArr (l : list json)
| JObj (d : list (string * json)).

Abbreviation dict := (list (string * json)).

(** Python truth value of a JSON value ([if v], [v or d]). *)
Definition truthy (v : json) : bool :=
  match v with
  | JNull => false
  | JBool b => b
  | JInt z => negb (z =? 0)%Z
  | JFloat f => negb (PrimFloat.eqb f 0%float)
  | JStr s => negb (String.eqb s "")
  | JArr l => match l with [] => false | _ => true end
  | JObj d => match d with [] => false | _ => true end
  end.

(** [d.get(k)] : the value bound to [k], if any. *)
Fixpoint dict_get (k : string) (d : dict) : option json :=
  match d with
  | [] => None
  | (k', v) :: r => if String.eqb k k' then Some v else dict_get k r
  end.

(** [d.get(k, dflt)]. *)
Definition dict_get_default (k : string) (dflt : json) (d : dict) : json :=
  match dict_get k d with
  | Some v => v
  | None => dflt
  end.

(** [d[k] = v] : an existing key keeps its position, a new key goes last. *)
Fixpoint dict_set (k : string) (v : json) (d : dict) : dict :=
  match d with
  | [] => [(k, v)]
  | (k', v') :: r =>
      if String.eqb k k' then (k, v) :: r else (k', v') :: dict_set k v r
  end.

(** [list(d.keys())]. *)
Definition dict_keys (d : dict) : list string := map fst d.

(** [x in [s1, s2, ...]] for a list of string literals: only a [str] equal
    to one of them is a member. *)
Definition in_str_list (v : json) (l : list string) : bool :=
  match v with
  | JStr s => existsb (String.eqb s) l
  | _ => false
  end.

(** [isinstance(v, list)]. *)
Definition is_list (v : json) : bool :=
  match v with
  | JArr _ => true
  | _ => false
  end.

(** [isinstance(v, str)]. *)
Definition is_str (v : json) : bool :=
  match v with
  | JStr _ => true
  | _ => false
  end.

(** ** Text read from and written to files

    A Python [str] read from a UTF-8 file is a sequence of code points. *)
Abbreviation text := (list N).

(** [str.isspace] on one code point: the Unicode white space that
    [str.strip()] removes. *)
Definition isspace (c : N) : bool :=
  ((9 <=? c) && (c <=? 13) || (28 <=? c) && (c <=? 32)
   || (c =? 133) || (c =? 160) || (c =? 5760)
   || (8192 <=? c) && (c <=? 8202)
   || (c =? 8232) || (c =? 8233) || (c =? 8239) || (c =? 8287)
   || (c =? 12288))%N.

(** [s.lstrip()]. *)
Fixpoint lstrip (s : text) : text :=
  match s with
  | [] => []
  | c :: r => if isspace c then lstrip r else s
  end.

(** [s.rstrip()]. *)
Definition rstrip (s : text) : text := rev (lstrip (rev s)).

(** [s.strip()]. *)
Definition strip (s : text) : text := rstrip (lstrip s).

(** Truth value of a [str]: non-empty. *)
Definition text_truthy (s : text) : bool :=
  match s with
  | [] => false
  | _ => true
  end.

(** A line is blank when all its characters are white space. *)
Definition nonblank (l : text) : bool := negb (forallb isspace l).

(** ** The Enricher ([llm.py]) *)

Module Enricher.

(** [INPUT_FILE] and [OUTPUT_FILE], both under [DATA_DIR]. *)
Definition INPUT_FILE : string := "data/posts.jsonl".
Definition OUTPUT_FILE : string := "data/posts_enriched.jsonl".

(** What [client.responses.parse(...)] followed by
    [response.output_parsed] can give: the call raises; the call returns
    with nothing parsed ([output_parsed] is [None], so reading
    [parsed.category] raises [AttributeError]); or a parsed object with
    its four attributes. *)
Inductive response : Type :=
| CallRaises (e : exn)
| NoOutput
| Output (category sentiment keywords description : json).

(** The dictionary built by [analyze_post]; it always has these four
    keys, so [if "description" in analysis] is always taken. *)
Record analysis : Type := Analysis {
  category : json;
  sentiment : json;
  keywords : json;
  description : json
}.

(** The state the script acts on: the files by path (a file is the list of
    its lines), the number of classification requests issued so far and
    the number of one-second pauses taken.  Console messages are
    diagnostics and are not part of the state. *)
Record world : Type := World {
  files : gmap string (list text);
  calls : nat;
  slept : nat
}.

Definition valid_categories : list string :=
  ["campus_life"; "academics"; "admissions"].
Definition valid_sentiments : list string :=
  ["positive"; "negative"; "neutral"].

(** The dictionary returned by the [except Exception] branch. *)
Definition default_analysis : analysis :=
  {| category := JStr "campus_life";
     sentiment := JStr "neutral";
     keywords := JArr [];
     description := JStr "Error during analysis" |}.

(** The two values interpolated into the prompt:
    [title] and [body if body else '[No body text]']. *)
Definition content (title body : json) : json * json :=
  (title, if truthy body then body else JStr "[No body text]").

(** [path.exists()]. *)
Definition file_exists (p : string) (fs : gmap string (list text)) : bool :=
  match fs !! p with
  | Some _ => true
  | None => false
  end.

(** [open(p, "a").write(l)] : creates the file when it is absent. *)
Definition append_line (p : string) (l : text)
    (fs : gmap string (list text)) : gmap string (list text) :=
  <[p := default [] (fs !! p) ++ [l]]> fs.

(** [title[:50]] raises [TypeError] unless [title] is a [str] or a
    [list]. *)
Definition sliceable (v : json) : bool :=
  match v with
  | JStr _ | JArr _ => true
  | _ => false
  end.

(** [', '.join(kws[:3])] raises [TypeError] when one of the first three
    items is not a [str]; on a value that is not a list the slice itself
    is not modelled (validation has made it a list). *)
Definition joinable (kws : json) : bool :=
  match kws with
  | JArr l => forallb is_str (firstn 3 l)
  | _ => false
  end.

(** [analysis.get("description") == "Error during analysis"], the test
    that selects the message printed after the record is written. *)
Definition is_error_description (v : json) : bool :=
  match v with
  | JStr s => String.eqb s "Error during analysis"
  | _ => false
  end.

(** The lines of a file, none when it is absent. *)
Definition lines_of (p : string) (fs : gmap string (list text)) : list text :=
  default [] (fs !! p).

(** A post the loop body can handle: a [dict] whose title can be sliced. *)
Definition well_formed_post (p : json) : bool :=
  match p with
  | JObj d => sliceable (dict_get_default "title" (JStr "") d)
  | _ => false
  end.

(** An answer whose keywords, when they are a list, start with strings
    (the service's schema promises [list[str]]). *)
Definition printable (r : response) : bool :=
  match r with
  | Output _ _ k _ => negb (is_list k) || joinable k
  | _ => true
  end.

(** A record with labels inside the two enumerations and a list of
    keywords. *)
Definition labelled (d : dict) : Prop :=
  (exists s, dict_get "category" d = Some (JStr s) /\ In s valid_categories) /\
  (exists s, dict_get "sentiment" d = Some (JStr s) /\ In s valid_sentiments) /\
  (exists l, dict_get "keywords" d = Some (JArr l)).

(** The four keys the Enricher assigns. *)
Definition label_keys : list string :=
  ["category"; "sentiment"; "keywords"; "llm_description"].

Section WithServices.

(** The classification service: the answer to the request number [n] of
    the run for the given prompt content. *)
Variable classify : nat -> json * json -> response.

(** [json.loads] on one line, and [json.dumps(_, ensure_ascii=False)]. *)
Variable loads : text -> result json.
Variable dumps : json -> text.

(** [analyze_post(title, body, post_id)], as request number [n]. *)
Definition analyze_post (n : nat) (title body : json) : analysis :=
  match classify n (content title body) with
  | CallRaises _ => default_analysis
  | NoOutput => default_analysis
  | Output c s k d =>
      {| category := if in_str_list c valid_categories then c
                     else JStr "campus_life";
         sentiment := if in_str_list s valid_sentiments then s
                      else JStr "neutral";
         keywords := if is_list k then k else JArr [];
         description := d |}
  end.

(** The loop that fills [posts]:
    [for line in f: if line.strip(): posts.append(json.loads(line))]. *)
Fixpoint read_posts (ls : list text) : result (list json) :=
  match ls with
  | [] => Ok []
  | l :: r =>
      if text_truthy (strip l) then
        match loads l with
        | Raise e => Raise e
        | Ok p =>
            match read_posts r with
            | Raise e => Raise e
            | Ok ps => Ok (p :: ps)
            end
        end
      else read_posts r
  end.

(** The four assignments that add the analysis to the post. *)
Definition add_analysis (a : analysis) (d : dict) : dict :=
  dict_set "llm_description" (description a)
    (dict_set "keywords" (keywords a)
       (dict_set "sentiment" (sentiment a)
          (dict_set "category" (category a) d))).

(** The line appended for a record:
    [json.dumps(post, ensure_ascii=False) + "\n"]. *)
Definition line_of (d : dict) : text := dumps (JObj d) ++ [10%N].

(** One iteration of [for i, post in enumerate(posts, 1)], where [total]
    is [len(posts)]. *)
Definition process_post (total i : nat) (post : json) (w : world)
    : world * outcome :=
  match post with
  | JObj d =>
      let title := dict_get_default "title" (JStr "") d in
      let body := dict_get_default "selftext" (JStr "") d in
      if sliceable title then
        let a := analyze_post (calls w) title body in
        let d' := add_analysis a d in
        let w1 := {| files := append_line OUTPUT_FILE (line_of d') (files w);
                     calls := S (calls w);
                     slept := slept w |} in
        let printed :=
          if is_error_description (description a) then true
          else joinable (keywords a) in
        if printed then
          if (i <? total)%nat
          then ({| files := files w1; calls := calls w1;
                   slept := S (slept w1) |}, Returned)
          else (w1, Returned)
        else (w1, Raised TypeError)
      else (w, Raised TypeError)
  | _ => (w, Raised AttributeError)
  end.

(** The whole [for] loop. *)
Fixpoint run_posts (total i : nat) (posts : list json) (w : world)
    : world * outcome :=
  match posts with
  | [] => (w, Returned)
  | p :: rest =>
      match process_post total i p w with
      | (w', Returned) => run_posts total (S i) rest w'
      | (w', Raised e) => (w', Raised e)
      end
  end.

(** [enrich_posts()]. *)
Definition enrich_posts (w : world) : world * outcome :=
  match files w !! INPUT_FILE with
  | None => (w, Returned)
  | Some ls =>
      match read_posts ls with
      | Raise e => (w, Raised e)
      | Ok posts =>
          let fs := if file_exists OUTPUT_FILE (files w)
                    then delete OUTPUT_FILE (files w)
                    else files w in
          run_posts (length posts) 1 posts
            {| files := fs; calls := calls w; slept := slept w |}
      end
  end.

(** The record the loop writes for the post [d] when its classification
    is request number [n]. *)
Definition enriched (n : nat) (d : dict) : dict :=
  add_analysis
    (analyze_post n
       (dict_get_default "title" (JStr "") d)
       (dict_get_default "selftext" (JStr "") d)) d.

(** The records of a whole run over posts that are dictionaries, in input
    order; the first request is number [n]. *)
Fixpoint enriched_records (n : nat) (posts : list json) : list dict :=
  match posts with
  | [] => []
  | JObj d :: rest => enriched n d :: enriched_records (S n) rest
  | _ :: _ => []
  end.

(** The output file once it has been rebuilt with the records [recs]:
    removed when there is none, otherwise one line per record. *)
Definition rebuilt (recs : list dict)
    (fs : gmap string (list text)) : gmap string (list text) :=
  match recs with
  | [] => delete OUTPUT_FILE fs
  | _ => <[OUTPUT_FILE := map line_of recs]> fs
  end.

(** Successive appends to the output file, one per record. *)
Definition appended (recs : list dict) (fs : gmap string (list text))
    : gmap string (list text) :=
  fold_left (fun fs d => append_line OUTPUT_FILE (line_of d) fs) recs fs.

End WithServices.

(** *** Sample services and data used in the examples *)

(** The example post of the specification. *)
Definition sample_post : dict :=
  [("id", JStr "abc123");
   ("title", JStr "Hostel food is terrible");
   ("selftext", JStr "");
   ("created_utc", JInt 1700000000)].

Definition sample_post2 : dict :=
  [("id", JStr "def456"); ("title", JStr "Merit list"); ("category", JStr "old")].

(** A service that fails on its first request, answers the second with
    labels outside the enumerations and a string for the keywords, and
    returns nothing parsed afterwards. *)
Definition sample_classify (n : nat) (c : json * json) : response :=
  match n with
  | O => CallRaises (ServiceError "503")
  | S O => Output (JStr "sports") (JInt 1) (JStr "exams") (JStr "about sport")
  | _ => NoOutput
  end.

(** A codec given by a table: the line ["A\n"] holds [sample_post] and
    the line ["B\n"] holds [sample_post2]. *)
Definition sample_loads (l : text) : result json :=
  match l with
  | [65; 10]%N => Ok (JObj sample_post)
  | [66; 10]%N => Ok (JObj sample_post2)
  | _ => Raise JSONDecodeError
  end.

Definition sample_dumps (v : json) : text :=
  match v with
  | JObj d => [123%N; N.of_nat (length d); 125%N]
  | _ => [63%N]
  end.

(** A data directory with both files present: two posts around a blank
    line, and a stale output. *)
Definition sample_world : world :=
  {| files := {[ INPUT_FILE := [[65; 10]; [32; 10]; [66; 10]]%N;
                 OUTPUT_FILE := [[111; 108; 100; 10]%N] ]};
     calls := 0;
     slept := 0 |}.

(** A data directory without the input file. *)
Definition sample_world_no_input : world :=
  {| files := {[ OUTPUT_FILE := [[111; 108; 100; 10]%N] ]};
     calls := 0;
     slept := 0 |}.

End Enricher.

(** *** The accounting of [enrich_posts]

    [enriched_count] and [failed_count] are local to [enrich_posts] and
    only shown in the final summary; they are modelled beside the loop of
    [Enricher], which they do not influence. *)

Module EnricherSummary.
Import Enricher.

Record counters : Type := Counters {
  enriched_count : nat;
  failed_count : nat
}.

(** The exception that ends the loop on a post it cannot handle:
    [post.get] on a value that is not a [dict], [title[:50]] on a title
    that cannot be sliced. *)
Definition abort_exception (p : json) : exn :=
  match p with
  | JObj _ => TypeError
  | _ => AttributeError
  end.

(** An answer after which [analyze_post] returns the sentinel
    description. *)
Definition flagged (r : response) : bool :=
  match r with
  | CallRaises _ => true
  | NoOutput => true
  | Output _ _ _ d => is_error_description d
  end.

Section WithServices.

Variable classify : nat -> json * json -> response.
Variable loads : text -> result json.
Variable dumps : json -> text.

(** [if analysis.get("description") != "Error during analysis":
    enriched_count += 1 else: failed_count += 1]. *)
Definition count_analysis (a : analysis) (c : counters) : counters :=
  if is_error_description (description a)
  then {| enriched_count := enriched_count c;
          failed_count := S (failed_count c) |}
  else {| enriched_count := S (enriched_count c);
          failed_count := failed_count c |}.

(** The counters after the iteration on [post]: they are updated once
    the record has been written, so not when the iteration raises before
    the request. *)
Definition count_post (post : json) (w : world) (c : counters) : counters :=
  match post with
  | JObj d =>
      let title := dict_get_default "title" (JStr "") d in
      let body := dict_get_default "selftext" (JStr "") d in
      if sliceable title
      then count_analysis (analyze_post classify (calls w) title body) c
      else c
  | _ => c
  end.

(** The [for] loop with its two counters. *)
Fixpoint run_posts_counting (total i : nat) (posts : list json) (w : world)
    (c : counters) : world * outcome * counters :=
  match posts with
  | [] => (w, Returned, c)
  | p :: rest =>
      match process_post classify dumps total i p w with
      | (w', Returned) =>
          run_posts_counting total (S i) rest w' (count_post p w c)
      | (w', Raised e) => (w', Raised e, count_post p w c)
      end
  end.

(** [enrich_posts()] with the three numbers of its summary (total,
    successfully analyzed, failed), which are printed only when the loop
    has come to its end. *)
Definition enrich_posts_summary (w : world)
    : world * outcome * option (nat * nat * nat) :=
  match files w !! INPUT_FILE with
  | None => (w, Returned, None)
  | Some ls =>
      match read_posts loads ls with
      | Raise e => (w, Raised e, None)
      | Ok posts =>
          let fs := if file_exists OUTPUT_FILE (files w)
                    then delete OUTPUT_FILE (files w)
                    else files w in
          match run_posts_counting (length posts) 1 posts
                  {| files := fs; calls := calls w; slept := slept w |}
                  {| enriched_count := 0; failed_count := 0 |} with
          | (w', Returned, c) =>
              (w', Returned,
               Some (length posts, enriched_count c, failed_count c))
          | (w', Raised e, _) => (w', Raised e, None)
          end
      end
  end.

(** The answers of the service to the requests of a run over posts that
    are dictionaries; the first request is number [n]. *)
Fixpoint responses_of (n : nat) (posts : list json) : list response :=
  match posts with
  | [] => []
  | JObj d :: rest =>
      classify n (content (dict_get_default "title" (JStr "") d)
                          (dict_get_default "selftext" (JStr "") d))
      :: responses_of (S n) rest
  | _ :: _ => []
  end.

End WithServices.

(** *** More sample data *)

(** A post whose title is [null]. *)
Definition sample_post_null_title : dict :=
  [("id", JStr "ghi789"); ("title", JNull)].

(** The table of [sample_loads] with one more line, ["C\n"], that holds
    [sample_post_null_title]. *)
Definition sample_loads_more (l : text) : result json :=
  match l with
  | [67; 10]%N => Ok (JObj sample_post_null_title)
  | _ => sample_loads l
  end.

(** A data directory whose input has a third post that the loop cannot
    handle. *)
Definition sample_world_ill_formed : world :=
  {| files := {[ INPUT_FILE := [[65; 10]; [66; 10]; [67; 10]]%N;
                 OUTPUT_FILE := [[111; 108; 100; 10]%N] ]};
     calls := 0;
     slept := 0 |}.

(** A data directory whose input has a line that does not parse. *)
Definition sample_world_malformed : world :=
  {| files := {[ INPUT_FILE := [[65; 10]; [88; 10]]%N;
                 OUTPUT_FILE := [[111; 108; 100; 10]%N] ]};
     calls := 0;
     slept := 0 |}.

(** A data directory whose input has only blank lines. *)
Definition sample_world_blank : world :=
  {| files := {[ INPUT_FILE := [[32; 10]; [9; 32; 10]; [10]]%N;
                 OUTPUT_FILE := [[111; 108; 100; 10]%N] ]};
     calls := 5;
     slept := 2 |}.

End EnricherSummary.

(** ** The Collector ([scrp.py]) *)

(** *** The calendar of [datetime]

    [datetime.fromtimestamp(ts, tz=timezone.utc).date().isoformat()] is
    modelled for a time stamp that is a whole number of seconds, which is
    what the content source reports in [created_utc]: the float that
    carries it is read as the integer it stands for.  The algorithm is the
    one of the [datetime] module ([_ord2ymd]). *)

Module Calendar.

Local Open Scope Z_scope.

Abbreviation date := (Z * Z * Z)%type.

Definition is_leap (y : Z) : bool :=
  (y mod 4 =? 0) && (negb (y mod 100 =? 0) || (y mod 400 =? 0)).

(** [_DAYS_IN_MONTH], for a month of a common year. *)
Definition DAYS_IN_MONTH (m : Z) : Z :=
  match m with
  | 1 => 31 | 2 => 28 | 3 => 31 | 4 => 30 | 5 => 31 | 6 => 30
  | 7 => 31 | 8 => 31 | 9 => 30 | 10 => 31 | 11 => 30 | 12 => 31
  | _ => 0
  end.

(** [_DAYS_BEFORE_MONTH], for a common year. *)
Definition DAYS_BEFORE_MONTH (m : Z) : Z :=
  match m with
  | 1 => 0 | 2 => 31 | 3 => 59 | 4 => 90 | 5 => 120 | 6 => 151
  | 7 => 181 | 8 => 212 | 9 => 243 | 10 => 273 | 11 => 304 | 12 => 334
  | _ => 0
  end.

Definition DI400Y : Z := 146097.
Definition DI100Y : Z := 36524.
Definition DI4Y : Z := 1461.

(** [_ord2ymd(n)] : the date whose proleptic Gregorian ordinal is [n]
    (ordinal 1 is 0001-01-01).  [divmod(a, b)] is [Z.div_eucl a b]. *)
Definition ord2ymd (n : Z) : date :=
  let n := n - 1 in
  let '(n400, n) := Z.div_eucl n DI400Y in
  let year := n400 * 400 + 1 in
  let '(n100, n) := Z.div_eucl n DI100Y in
  let '(n4, n) := Z.div_eucl n DI4Y in
  let '(n1, n) := Z.div_eucl n 365 in
  let year := year + n100 * 100 + n4 * 4 + n1 in
  if (n1 =? 4) || (n100 =? 4) then (year - 1, 12, 31)
  else
    let leapyear := (n1 =? 3) && (negb (n4 =? 24) || (n100 =? 3)) in
    let month := Z.shiftr (n + 50) 5 in
    let preceding :=
      DAYS_BEFORE_MONTH month
      + (if (month >? 2) && leapyear then 1 else 0) in
    if preceding >? n then
      let month := month - 1 in
      let preceding :=
        preceding
        - (DAYS_IN_MONTH month
           + (if (month =? 2) && leapyear then 1 else 0)) in
      (year, month, n - preceding + 1)
    else (year, month, n - preceding + 1).

(** The ordinal of 1970-01-01, and the largest ordinal [datetime]
    accepts (9999-12-31). *)
Definition EPOCH_ORDINAL : Z := 719163.
Definition MAX_ORDINAL : Z := 3652059.

Definition digit (n : Z) : ascii := ascii_of_nat (48 + Z.to_nat (n mod 10)).

Definition pad2 (n : Z) : string :=
  String (digit (n / 10)) (String (digit n) "").

Definition pad4 (n : Z) : string :=
  String (digit (n / 1000)) (String (digit (n / 100)) (pad2 n)).

(** [date.isoformat()] : ["%04d-%02d-%02d"]. *)
Definition isoformat (dt : date) : string :=
  let '(y, m, d) := dt in
  pad4 y +:+ "-" +:+ pad2 m +:+ "-" +:+ pad2 d.

(** Reading an ISO date: ten characters, the four digits of the year, a
    hyphen, the two digits of the month, a hyphen, the two digits of the
    day.  It is written without reference to [isoformat], to say what
    text a date stands for. *)
Definition digit_value (c : ascii) : option Z :=
  let n := Z.of_nat (nat_of_ascii c) in
  if (48 <=? n) && (n <=? 57) then Some (n - 48) else None.

Definition read_iso (s : string) : option date :=
  match list_ascii_of_string s with
  | [y1; y2; y3; y4; h1; m1; m2; h2; d1; d2] =>
      if Ascii.eqb h1 "-" && Ascii.eqb h2 "-" then
        match digit_value y1, digit_value y2, digit_value y3,
              digit_value y4, digit_value m1, digit_value m2,
              digit_value d1, digit_value d2 with
        | Some a, Some b, Some c, Some e, Some f, Some g, Some h, Some i =>
            Some (1000 * a + 100 * b + 10 * c + e, 10 * f + g, 10 * h + i)
        | _, _, _, _, _, _, _, _ => None
        end
      else None
  | _ => None
  end.

(** The calendar as it is counted: the length of each month, the day
    after and the day before a date, and the date that lies [k] days
    after (or before) 1 January 1970. *)
Definition days_in_month (y m : Z) : Z :=
  if m =? 2 then (if is_leap y then 29 else 28) else DAYS_IN_MONTH m.

Definition next_day (dt : date) : date :=
  let '(y, m, d) := dt in
  if d <? days_in_month y m then (y, m, d + 1)
  else if m <? 12 then (y, m + 1, 1)
  else (y + 1, 1, 1).

Definition prev_day (dt : date) : date :=
  let '(y, m, d) := dt in
  if 1 <? d then (y, m, d - 1)
  else if 1 <? m then (y, m - 1, days_in_month y (m - 1))
  else (y - 1, 12, 31).

Definition calendar_date (k : Z) : date :=
  match k with
  | Z0 => (1970, 1, 1)
  | Zpos p => Pos.iter next_day (1970, 1, 1) p
  | Zneg p => Pos.iter prev_day (1970, 1, 1) p
  end.

(** *** Vocabulary of the proof that [_ord2ymd] counts this calendar *)

(** The end of [_ord2ymd]: the month and the day of day number [n] (from
    0) of a year. *)
Definition month_day (leapyear : bool) (n : Z) : Z * Z :=
  let month := Z.shiftr (n + 50) 5 in
  let preceding :=
    DAYS_BEFORE_MONTH month
    + (if (month >? 2) && leapyear then 1 else 0) in
  if preceding >? n then
    let month := month - 1 in
    let preceding :=
      preceding
      - (DAYS_IN_MONTH month
         + (if (month =? 2) && leapyear then 1 else 0)) in
    (month, n - preceding + 1)
  else (month, n - preceding + 1).

(** The test [_ord2ymd] uses for a leap year, on the position of the
    year in its 400-year period. *)
Definition leap_flag (n100 n4 n1 : Z) : bool :=
  (n1 =? 3) && (negb (n4 =? 24) || (n100 =? 3)).

Definition month_length (leapyear : bool) (m : Z) : Z :=
  if m =? 2 then (if leapyear then 29 else 28) else DAYS_IN_MONTH m.

(** A date of the calendar. *)
Definition valid_date (dt : date) : Prop :=
  let '(y, m, d) := dt in 1 <= m <= 12 /\ 1 <= d <= days_in_month y m.

(** [n0], counted from 0, is day [r] of year [n1] of the 4-year cycle
    [n4] of century [n100] of the 400-year period [n400]: what the four
    [divmod] of [_ord2ymd] compute. *)
Definition position (n0 n400 n100 n4 n1 r : Z) : Prop :=
  n0 = 146097 * n400 + 36524 * n100 + 1461 * n4 + 365 * n1 + r /\
  0 <= r < 365 /\
  0 <= n1 /\ 365 * n1 + r < 1461 /\
  0 <= n4 /\ 1461 * n4 + 365 * n1 + r < 36524 /\
  0 <= n100 /\ 36524 * n100 + 1461 * n4 + 365 * n1 + r < 146097.

(** The integers [lo], [lo + 1], ..., [lo + len - 1]. *)
Definition zrange (lo : Z) (len : nat) : list Z :=
  map (fun i => lo + Z.of_nat i) (seq 0 len).

(** Day [n] of a year is a date of the calendar. *)
Definition day_valid (leapyear : bool) (n : Z) : bool :=
  let '(m, d) := month_day leapyear n in
  (1 <=? m) && (m <=? 12) && (1 <=? d) && (d <=? month_length leapyear m).

(** Day [n + 1] of a year is the day after day [n], in the same month or
    the first of the next. *)
Definition day_follows (leapyear : bool) (n : Z) : bool :=
  let '(m, d) := month_day leapyear n in
  let '(m', d') := month_day leapyear (n + 1) in
  if d <? month_length leapyear m then (m' =? m) && (d' =? d + 1)
  else (m <? 12) && (m' =? m + 1) && (d' =? 1).

(** [leap_flag] is the leap year test of the year at that position. *)
Definition leap_flag_agrees (n100 n4 n1 : Z) : bool :=
  Bool.eqb (is_leap (1 + n100 * 100 + n4 * 4 + n1)) (leap_flag n100 n4 n1).

End Calendar.

Module Collector.

Definition SUBREDDIT_NAME : string := "giki".
Definition POST_LIMIT : nat := 10.

(** *** What the content source hands over

    The listing, the submissions and their comment trees are taken as
    fetched: a request to the source that fails, which ends a run with
    the client's exception at that point, has no counterpart here.  A
    statement about what a run has written "however it ends" covers what
    such a run wrote before it stopped; a statement that a run returns
    does not. *)

(** [getattr(author, "name", None)] : reading the attribute raises, or it
    is missing or [None], or it is a string. *)
Inductive name_attr : Type :=
| NameRaises (e : exn)
| NameAbsent
| Name (s : string).

(** [x.author] : [None] or a Redditor object. *)
Inductive author : Type :=
| NoAuthor
| Redditor (name : name_attr).

(** A [created_utc] attribute read with [getattr(_, "created_utc", 0.0)]:
    missing, [None], or a number of seconds. *)
Inductive created_attr : Type :=
| CreatedAbsent
| CreatedNone
| CreatedAt (seconds : Z).

Module Comment.
Record t : Type := {
  id : string;
  parent_id : option string;
  body : string;
  created_utc : Z;
  score : option Z;
  depth : option Z;
  is_submitter : option bool;
  author : Collector.author
}.
End Comment.

(** An item of [submission.comments.list()]. *)
Inductive comment_node : Type :=
| MoreComments
| AComment (c : Comment.t).

Module Submission.
Record t : Type := {
  id : string;
  title : option string;
  selftext : option string;
  url : string;
  created_utc : Z;
  score : option Z;
  num_comments : option Z;
  author : Collector.author;
  comments : list comment_node
}.
End Submission.

Module Subreddit.
Record t : Type := {
  public_description : option string;
  subscribers : option Z;
  created_utc : created_attr;
  new : list Submission.t
}.
End Subreddit.

(** What [reddit.redditor(name)] gives when its attributes are read: an
    exception, or the two karma counters and the creation time. *)
Inductive redditor_info : Type :=
| LookupFails (e : exn)
| Info (link_karma comment_karma : option Z) (created_utc : created_attr).

(** *** The records written *)

Module PostRec.
Record t : Type := {
  type : string;
  id : string;
  subreddit : string;
  title : string;
  selftext : string;
  url : string;
  created_utc : Z;
  iso_day : string;
  score : option Z;
  num_comments : Z;
  author_id : option string;
  author_name : string
}.
End PostRec.

Module CommentRec.
Record t : Type := {
  type : string;
  id : string;
  parent_id : option string;
  link_id : string;
  body : string;
  created_utc : Z;
  iso_day : string;
  score : option Z;
  depth : Z;
  is_submitter : bool;
  author_id : option string;
  author_name : string
}.
End CommentRec.

Module UserRec.
Record t : Type := {
  type : string;
  id : string;
  name : string;
  total_karma : option Z;
  account_created : option Z
}.
End UserRec.

Module SubredditRec.
Record t : Type := {
  type : string;
  name : string;
  description : option string;
  subscriber_count : option Z;
  created_utc : option Z;
  fetched_at : string
}.
End SubredditRec.

(** The four append-only files, as the records appended so far, and the
    names for which the reputation of a Redditor has been requested. *)
Record world : Type := World {
  posts_file : list PostRec.t;
  comments_file : list CommentRec.t;
  users_file : list UserRec.t;
  subreddits_file : list SubredditRec.t;
  lookups : list string
}.

(** The state of [main]'s loops: the world and [seen_users]. *)
Record state : Type := State {
  now_world : world;
  seen_users : gset string
}.

(** *** Helpers *)

(** [iso_day(ts_utc)].  [fromtimestamp] raises outside the years 1 to
    9999; the class of its exception depends on how far outside the time
    stamp is ([ValueError] next to the range, [OverflowError] or
    [OSError] far from it), and [ValueError] stands here for all of
    them. *)
Definition iso_day (ts_utc : Z) : result string :=
  let ordinal := (Calendar.EPOCH_ORDINAL + ts_utc / 86400)%Z in
  if ((1 <=? ordinal) && (ordinal <=? Calendar.MAX_ORDINAL))%Z
  then Ok (Calendar.isoformat (Calendar.ord2ymd ordinal))
  else Raise ValueError.

(** [x or "[deleted]"] on a string. *)
Definition or_deleted (s : string) : string :=
  if String.eqb s "" then "[deleted]" else s.

(** [safe_author(author)]. *)
Definition safe_author (a : author) : option string * string :=
  match a with
  | NoAuthor => (None, "[deleted]")
  | Redditor (NameRaises _) => (None, "[deleted]")
  | Redditor NameAbsent => (None, "[deleted]")
  | Redditor (Name s) => (None, or_deleted s)
  end.

(** [s.split("_", 1)] : at most one split, at the first underscore. *)
Fixpoint split_underscore (s : string) : list string :=
  match s with
  | EmptyString => [EmptyString]
  | String c r =>
      if Ascii.eqb c "_" then [EmptyString; r]
      else match split_underscore r with
           | [a] => [String c a]
           | a :: rest => String c a :: rest
           | [] => []
           end
  end.

(** [l[-1]] on the result of a split, which is never empty. *)
Definition last_item (l : list string) : string := List.last l EmptyString.

(** [c.parent_id.split("_", 1)[-1] if c.parent_id else None]. *)
Definition stored_parent_id (p : option string) : option string :=
  match p with
  | None => None
  | Some s =>
      if String.eqb s "" then None else Some (last_item (split_underscore s))
  end.

(** [float(getattr(x, "created_utc", 0.0)) or None] : [float(None)]
    raises [TypeError]. *)
Definition created_or_none (c : created_attr) : result (option Z) :=
  match c with
  | CreatedAbsent => Ok None
  | CreatedNone => Raise TypeError
  | CreatedAt z => Ok (if (z =? 0)%Z then None else Some z)
  end.

(** [a_id or f"name:{a_name}"]. *)
Definition user_key (a_id : option string) (a_name : string) : string :=
  match a_id with
  | Some i => if String.eqb i "" then "name:" +:+ a_name else i
  | None => "name:" +:+ a_name
  end.

Definition post_rec (s : Submission.t) (day : string) : PostRec.t :=
  {| PostRec.type := "post";
     PostRec.id := Submission.id s;
     PostRec.subreddit := SUBREDDIT_NAME;
     PostRec.title := default "" (Submission.title s);
     PostRec.selftext := default "" (Submission.selftext s);
     PostRec.url := Submission.url s;
     PostRec.created_utc := Submission.created_utc s;
     PostRec.iso_day := day;
     PostRec.score := Submission.score s;
     PostRec.num_comments := default 0%Z (Submission.num_comments s);
     PostRec.author_id := fst (safe_author (Submission.author s));
     PostRec.author_name := snd (safe_author (Submission.author s)) |}.

Definition comment_rec (post_id : string) (c : Comment.t) (day : string)
    : CommentRec.t :=
  {| CommentRec.type := "comment";
     CommentRec.id := Comment.id c;
     CommentRec.parent_id := stored_parent_id (Comment.parent_id c);
     CommentRec.link_id := post_id;
     CommentRec.body := Comment.body c;
     CommentRec.created_utc := Comment.created_utc c;
     CommentRec.iso_day := day;
     CommentRec.score := Comment.score c;
     CommentRec.depth := default 0%Z (Comment.depth c);
     CommentRec.is_submitter := default false (Comment.is_submitter c);
     CommentRec.author_id := fst (safe_author (Comment.author c));
     CommentRec.author_name := snd (safe_author (Comment.author c)) |}.

Definition user_rec (a_id : option string) (a_name : string)
    (meta : option Z * option Z) : UserRec.t :=
  {| UserRec.type := "user";
     UserRec.id := user_key a_id a_name;
     UserRec.name := a_name;
     UserRec.total_karma := fst meta;
     UserRec.account_created := snd meta |}.

Section WithSource.

(** The content source's answer for a Redditor name. *)
Variable redditor : string -> redditor_info.

(** [fetch_user_meta(name, _rid_unused)] : the meta data and the names
    looked up so far. *)
Definition fetch_user_meta (name : string) (rid : option string)
    (looked : list string) : (option Z * option Z) * list string :=
  if String.eqb name "" || String.eqb name "[deleted]"
  then ((None, None), looked)
  else
    match redditor name with
    | LookupFails _ => ((None, None), looked ++ [name])
    | Info link_k comment_k created =>
        let total_karma :=
          match link_k, comment_k with
          | None, None => None
          | _, _ => Some (default 0 link_k + default 0 comment_k)%Z
          end in
        match created_or_none created with
        | Raise _ => ((None, None), looked ++ [name])
        | Ok created_utc => ((total_karma, created_utc), looked ++ [name])
        end
    end.

(** The block that writes a User record and remembers the name. *)
Definition emit_user (a_id : option string) (a_name : string) (st : state)
    : state :=
  let w := now_world st in
  let '(meta, looked) := fetch_user_meta a_name a_id (lookups w) in
  {| now_world :=
       {| posts_file := posts_file w;
          comments_file := comments_file w;
          users_file := users_file w ++ [user_rec a_id a_name meta];
          subreddits_file := subreddits_file w;
          lookups := looked |};
     seen_users := seen_users st ∪ {[a_name]} |}.

(** One iteration of [for c in submission.comments.list()]. *)
Definition process_comment (post_id : string) (node : comment_node)
    (st : state) : state * outcome :=
  match node with
  | MoreComments => (st, Returned)
  | AComment c =>
      let '(ca_id, ca_name) := safe_author (Comment.author c) in
      match iso_day (Comment.created_utc c) with
      | Raise e => (st, Raised e)
      | Ok day =>
          let w := now_world st in
          let st1 :=
            {| now_world :=
                 {| posts_file := posts_file w;
                    comments_file :=
                      comments_file w ++ [comment_rec post_id c day];
                    users_file := users_file w;
                    subreddits_file := subreddits_file w;
                    lookups := lookups w |};
               seen_users := seen_users st |} in
          if negb (String.eqb ca_name "")
             && negb (bool_decide (ca_name ∈ seen_users st))
             && negb (String.eqb ca_name "[deleted]")
          then (emit_user ca_id ca_name st1, Returned)
          else (st1, Returned)
      end
  end.

Fixpoint process_comments (post_id : string) (nodes : list comment_node)
    (st : state) : state * outcome :=
  match nodes with
  | [] => (st, Returned)
  | node :: rest =>
      match process_comment post_id node st with
      | (st', Returned) => process_comments post_id rest st'
      | (st', Raised e) => (st', Raised e)
      end
  end.

(** One iteration of [for submission in sr.new(limit=POST_LIMIT)]. *)
Definition process_submission (s : Submission.t) (st : state)
    : state * outcome :=
  let '(a_id, a_name) := safe_author (Submission.author s) in
  match iso_day (Submission.created_utc s) with
  | Raise e => (st, Raised e)
  | Ok day =>
      let w := now_world st in
      let st1 :=
        {| now_world :=
             {| posts_file := posts_file w ++ [post_rec s day];
                comments_file := comments_file w;
                users_file := users_file w;
                subreddits_file := subreddits_file w;
                lookups := lookups w |};
           seen_users := seen_users st |} in
      let st2 :=
        if negb (String.eqb a_name "")
           && negb (bool_decide (a_name ∈ seen_users st))
        then emit_user a_id a_name st1
        else st1 in
      process_comments (Submission.id s) (Submission.comments s) st2
  end.

Fixpoint process_submissions (subs : list Submission.t) (st : state)
    : state * outcome :=
  match subs with
  | [] => (st, Returned)
  | s :: rest =>
      match process_submission s st with
      | (st', Returned) => process_submissions rest st'
      | (st', Raised e) => (st', Raised e)
      end
  end.

(** [main()], for the subreddit object [sr] and the clock reading
    [fetched_at]. *)
Definition main (sr : Subreddit.t) (fetched_at : string) (w : world)
    : world * outcome :=
  match created_or_none (Subreddit.created_utc sr) with
  | Raise e => (w, Raised e)
  | Ok created =>
      let sub_meta :=
        {| SubredditRec.type := "subreddit";
           SubredditRec.name := SUBREDDIT_NAME;
           SubredditRec.description := Subreddit.public_description sr;
           SubredditRec.subscriber_count := Subreddit.subscribers sr;
           SubredditRec.created_utc := created;
           SubredditRec.fetched_at := fetched_at |} in
      let w1 :=
        {| posts_file := posts_file w;
           comments_file := comments_file w;
           users_file := users_file w;
           subreddits_file := subreddits_file w ++ [sub_meta];
           lookups := lookups w |} in
      let '(st, o) :=
        process_submissions (firstn POST_LIMIT (Subreddit.new sr))
          {| now_world := w1; seen_users := ∅ |} in
      (now_world st, o)
  end.

End WithSource.

(** *** Vocabulary of the statements about a run *)

(** [s] contains an underscore. *)
Fixpoint has_underscore (s : string) : bool :=
  match s with
  | EmptyString => false
  | String c r => Ascii.eqb c "_" || has_underscore r
  end.

(** A Post record built from a submission of the feed, and a Comment
    record built from a comment of such a submission. *)
Definition post_built (feed : list Submission.t) (r : PostRec.t) : Prop :=
  exists s day,
    s ∈ feed /\ iso_day (Submission.created_utc s) = Ok day /\
    r = post_rec s day.

Definition comment_built (feed : list Submission.t) (r : CommentRec.t)
    : Prop :=
  exists s c day,
    s ∈ feed /\ AComment c ∈ Submission.comments s /\
    iso_day (Comment.created_utc c) = Ok day /\
    r = comment_rec (Submission.id s) c day.

(** A User record written with no resolved identifier. *)
Definition user_built (r : UserRec.t) : Prop :=
  exists name meta, r = user_rec None name meta.

(** The names for which a User record triggers a reputation request. *)
Definition requested (names : list string) : list string :=
  List.filter (fun n => negb (String.eqb n "[deleted]")) names.

(** [st'] is reached from [st] by steps of the run over [feed]: the files
    only grow, by records built from the feed; the User records added
    have distinct names, none of which had been seen, and all of which
    are now seen; the reputation requests added are those of the User
    records added. *)
Definition extends (feed : list Submission.t) (st st' : state) : Prop :=
  (exists ps,
     posts_file (now_world st') = posts_file (now_world st) ++ ps /\
     Forall (post_built feed) ps) /\
  (exists cs,
     comments_file (now_world st') = comments_file (now_world st) ++ cs /\
     Forall (comment_built feed) cs) /\
  (exists us,
     users_file (now_world st') = users_file (now_world st) ++ us /\
     Forall user_built us /\
     NoDup (UserRec.name <$> us) /\
     (forall n, n ∈ (UserRec.name <$> us) ->
                (n ∉ seen_users st) /\ (n ∈ seen_users st')) /\
     lookups (now_world st') =
       lookups (now_world st) ++ requested (UserRec.name <$> us)) /\
  seen_users st ⊆ seen_users st' /\
  subreddits_file (now_world st') = subreddits_file (now_world st).

(** *** Sample feed used in the examples *)

Definition sample_comments : list comment_node :=
  [ AComment {| Comment.id := "c1"; Comment.parent_id := Some "t3_p1";
                Comment.body := "first"; Comment.created_utc := 1700000100;
                Comment.score := Some 2%Z; Comment.depth := Some 0%Z;
                Comment.is_submitter := Some false;
                Comment.author := NoAuthor |};
    MoreComments;
    AComment {| Comment.id := "c2"; Comment.parent_id := Some "t1_c1";
                Comment.body := "reply"; Comment.created_utc := 1700086400;
                Comment.score := None; Comment.depth := Some 1%Z;
                Comment.is_submitter := None;
                Comment.author := Redditor (Name "bob") |};
    AComment {| Comment.id := "c3"; Comment.parent_id := None;
                Comment.body := "again"; Comment.created_utc := 1700086500;
                Comment.score := Some 1%Z; Comment.depth := None;
                Comment.is_submitter := Some true;
                Comment.author := Redditor (Name "alice") |} ].

Definition sample_feed : list Submission.t :=
  [ {| Submission.id := "p1"; Submission.title := Some "Hostel food";
       Submission.selftext := None; Submission.url := "https://r/p1";
       Submission.created_utc := 1700000000;
       Submission.score := Some 5%Z; Submission.num_comments := Some 3%Z;
       Submission.author := Redditor (Name "alice");
       Submission.comments := sample_comments |};
    {| Submission.id := "p2"; Submission.title := Some "Merit list";
       Submission.selftext := Some "when?"; Submission.url := "https://r/p2";
       Submission.created_utc := 1699999000;
       Submission.score := None; Submission.num_comments := None;
       Submission.author := NoAuthor;
       Submission.comments := [] |} ].

Definition sample_sr : Subreddit.t :=
  {| Subreddit.public_description := Some "GIKI";
     Subreddit.subscribers := Some 1000%Z;
     Subreddit.created_utc := CreatedAt 1300000000;
     Subreddit.new := sample_feed |}.

Definition sample_redditor (name : string) : redditor_info :=
  if String.eqb name "alice" then Info (Some 10%Z) None (CreatedAt 1500000000)
  else LookupFails (ServiceError "404").

Definition empty_world : world :=
  {| posts_file := []; comments_file := []; users_file := [];
     subreddits_file := []; lookups := [] |}.

(** The files after a run over the sample feed, started with empty
    files. *)
Definition sample_run_world : world :=
  Eval vm_compute in
    fst (main sample_redditor sample_sr "2023-11-16T00:00:00+00:00"
           empty_world).

End Collector.

(** *** What a run of the Collector adds to the files *)

Module CollectorOutput.
Import Collector.

(** The files [w] followed, file by file, by what [d] holds. *)
Definition append_world (w d : world) : world :=
  {| posts_file := posts_file w ++ posts_file d;
     comments_file := comments_file w ++ comments_file d;
     users_file := users_file w ++ users_file d;
     subreddits_file := subreddits_file w ++ subreddits_file d;
     lookups := lookups w ++ lookups d |}.

(** The state [st] of the loops with [w] in front of its files. *)
Definition lift (w : world) (st : state) : state :=
  {| now_world := append_world w (now_world st);
     seen_users := seen_users st |}.

(** The time stamps for which [iso_day] returns: the years 1 to 9999. *)
Definition in_range (ts : Z) : bool :=
  ((-62135596800 <=? ts) && (ts <=? 253402300799))%Z.

(** The day [iso_day] gives for a time stamp in range. *)
Definition day_of (ts : Z) : string :=
  Calendar.isoformat (Calendar.calendar_date (ts / 86400)).

(** The comments of a listing, without the [MoreComments] the loop
    skips. *)
Fixpoint materialized (nodes : list comment_node) : list Comment.t :=
  match nodes with
  | [] => []
  | MoreComments :: rest => materialized rest
  | AComment c :: rest => c :: materialized rest
  end.

Definition expected_post (s : Submission.t) : PostRec.t :=
  post_rec s (day_of (Submission.created_utc s)).

Definition expected_comments (s : Submission.t) : list CommentRec.t :=
  map (fun c => comment_rec (Submission.id s) c
                  (day_of (Comment.created_utc c)))
    (materialized (Submission.comments s)).

(** The snapshot record [sub_meta]. *)
Definition snapshot (sr : Subreddit.t) (fetched_at : string)
    (created : option Z) : SubredditRec.t :=
  {| SubredditRec.type := "subreddit";
     SubredditRec.name := SUBREDDIT_NAME;
     SubredditRec.description := Subreddit.public_description sr;
     SubredditRec.subscriber_count := Subreddit.subscribers sr;
     SubredditRec.created_utc := created;
     SubredditRec.fetched_at := fetched_at |}.

(** All the time stamps of a submission and of its comments are in
    range. *)
Definition dated (s : Submission.t) : bool :=
  in_range (Submission.created_utc s)
  && forallb (fun c => in_range (Comment.created_utc c))
       (materialized (Submission.comments s)).

(** Every comment of [cs] carries the identifier of a post of [ps]. *)
Definition linked (ps : list PostRec.t) (cs : list CommentRec.t) : Prop :=
  Forall (fun c => CommentRec.link_id c ∈ (PostRec.id <$> ps)) cs.

(** Every author named in [ps], and every author named in [cs] other
    than "[deleted]", has a User record in [us]. *)
Definition credited (ps : list PostRec.t) (cs : list CommentRec.t)
    (us : list UserRec.t) : Prop :=
  Forall (fun r => PostRec.author_name r ∈ (UserRec.name <$> us)) ps /\
  Forall (fun r => CommentRec.author_name r <> "[deleted]" ->
                   CommentRec.author_name r ∈ (UserRec.name <$> us)) cs.

(** [st'] is reached from [st] by writing the posts [ps], the comments
    [cs] and the users [us]; the names seen are those seen before and
    those of [us], and they include the authors of [ps] and the authors
    of [cs] other than "[deleted]". *)
Definition wrote (st st' : state) (ps : list PostRec.t)
    (cs : list CommentRec.t) (us : list UserRec.t) : Prop :=
  posts_file (now_world st') = posts_file (now_world st) ++ ps /\
  comments_file (now_world st') = comments_file (now_world st) ++ cs /\
  users_file (now_world st') = users_file (now_world st) ++ us /\
  seen_users st' = seen_users st ∪ list_to_set (UserRec.name <$> us) /\
  Forall (fun r => PostRec.author_name r ∈ seen_users st') ps /\
  Forall (fun r => CommentRec.author_name r <> "[deleted]" ->
                   CommentRec.author_name r ∈ seen_users st') cs.

(** A submission whose time stamp [datetime] rejects (the first second
    of the year 10000), and a feed that has it in second place. *)
Definition sample_undated : Submission.t :=
  {| Submission.id := "q2"; Submission.title := None;
     Submission.selftext := None; Submission.url := "https://r/q2";
     Submission.created_utc := 253402300800;
     Submission.score := None; Submission.num_comments := None;
     Submission.author := Redditor (Name "dave");
     Submission.comments := [] |}.

Definition sample_sr_undated : Subreddit.t :=
  {| Subreddit.public_description := None;
     Subreddit.subscribers := None;
     Subreddit.created_utc := CreatedAbsent;
     Subreddit.new :=
       [ {| Submission.id := "q1"; Submission.title := Some "first";
            Submission.selftext := None; Submission.url := "https://r/q1";
            Submission.created_utc := 1700000000;
            Submission.score := Some 1%Z;
            Submission.num_comments := Some 0%Z;
            Submission.author := Redditor (Name "carol");
            Submission.comments := [] |};
         sample_undated ] |}.

(** The meta data a User record carries, given what the content source
    answers for its name: nothing for "[deleted]", for a lookup that
    fails or for a creation time that cannot be read; otherwise the sum
    of the karma counters that are there and the creation time. *)
Definition carries_meta (redditor : string -> redditor_info)
    (u : UserRec.t) : Prop :=
  if String.eqb (UserRec.name u) "[deleted]"
  then UserRec.total_karma u = None /\ UserRec.account_created u = None
  else
    match redditor (UserRec.name u) with
    | LookupFails _ =>
        UserRec.total_karma u = None /\ UserRec.account_created u = None
    | Info l c created =>
        match created_or_none created with
        | Raise _ =>
            UserRec.total_karma u = None /\ UserRec.account_created u = None
        | Ok a =>
            UserRec.total_karma u
            = match l, c with
              | None, None => None
              | _, _ => Some (default 0 l + default 0 c)%Z
              end /\
            UserRec.account_created u = a
        end
    end.

(** [st'] has the User records of [st] followed by [us], which carry
    their meta data. *)
Definition added (redditor : string -> redditor_info) (st st' : state)
    (us : list UserRec.t) : Prop :=
  users_file (now_world st') = users_file (now_world st) ++ us /\
  Forall (carries_meta redditor) us.

End CollectorOutput.

(** ** The schema initializer ([setuo-neo.py]) *)

Module SchemaInit.

Definition CATEGORIES : list (string * string) :=
  [ ("campus_life",
     "Student life, events, hostel/food, facilities, clubs, sports, social activities");
    ("academics",
     "Courses, exams, professors, assignments, grades, GPA, schedules");
    ("admissions",
     "Applications, entrance tests, merit lists, scholarships, program selection") ].

(** *** The part of the graph database that seeding acts on

    A node has labels and properties; a property that is not set reads as
    null.  The database is the list of its nodes, in creation order. *)

Inductive pvalue : Type :=
| PStr (s : string)
| PInt (z : Z)
| PBool (b : bool).

#[global] Instance pvalue_eq_dec : EqDecision pvalue.
Proof. solve_decision. Defined.

Record node : Type := Node {
  labels : list string;
  props : gmap string pvalue
}.

(** The pattern [(c:Category {name: $name})]. *)
Definition is_category (name : string) (n : node) : bool :=
  bool_decide ("Category" ∈ labels n)
  && bool_decide (props n !! "name" = Some (PStr name)).

(** [coalesce(c.description, $desc)]. *)
Definition coalesce (v : option pvalue) (d : pvalue) : pvalue :=
  match v with
  | Some x => x
  | None => d
  end.

(** [ON MATCH SET c.description = coalesce(c.description, $desc)] on the
    nodes the pattern matches. *)
Definition on_match (name desc : string) (n : node) : node :=
  if is_category name n
  then {| labels := labels n;
          props := <["description" :=
                       coalesce (props n !! "description") (PStr desc)]>
                     (props n) |}
  else n.

(** The node made by [ON CREATE SET c.description = $desc]. *)
Definition created (name desc : string) : node :=
  {| labels := ["Category"];
     props := {[ "name" := PStr name; "description" := PStr desc ]} |}.

(** The [MERGE] statement of [seed_categories], run with [$name] and
    [$desc]: when no node matches the pattern one is created, otherwise
    every matching node is updated. *)
Definition merge_category (name desc : string) (db : list node) : list node :=
  if existsb (is_category name) db
  then map (on_match name desc) db
  else db ++ [created name desc].

(** [seed_categories(session)]. *)
Definition seed_categories (db : list node) : list node :=
  fold_left (fun db '(name, desc) => merge_category name desc db)
    CATEGORIES db.

(** The pattern of [name] is matched and every match has a description. *)
Definition settled (name : string) (db : list node) : Prop :=
  existsb (is_category name) db = true /\
  Forall (fun n => is_category name n = true ->
                   props n !! "description" <> None) db.

(** The number of nodes labelled [Category]. *)
Definition count_categories (db : list node) : nat :=
  length (List.filter (fun n => bool_decide ("Category" ∈ labels n)) db).

(** What seeding with the rows [cats] does to a node that was already
    there (the description of a matched category is filled in when it is
    null), and the nodes it creates (one for each row that no node
    matches). *)
Definition filled_with (cats : list (string * string)) (n : node) : node :=
  fold_left (fun n '(name, desc) => on_match name desc n) cats n.

Definition missing_with (cats : list (string * string)) (db : list node)
    : list node :=
  map (fun '(name, desc) => created name desc)
    (List.filter (fun '(name, _) => negb (existsb (is_category name) db))
       cats).

Definition filled : node -> node := filled_with CATEGORIES.
Definition missing : list node -> list node := missing_with CATEGORIES.

(** A database with an [academics] node that has its own description, an
    [admissions] node without one, and a node of another kind. *)
Definition sample_db : list node :=
  [ {| labels := ["Category"];
       props := {[ "name" := PStr "academics";
                   "description" := PStr "my own words" ]} |};
    {| labels := ["Category"]; props := {[ "name" := PStr "admissions" ]} |};
    {| labels := ["User"]; props := {[ "name" := PStr "campus_life" ]} |} ].

(** The description of the first row of [cats] whose pattern matches
    [n]. *)
Definition row_description (cats : list (string * string)) (n : node)
    : option pvalue :=
  match List.find (fun '(name, _) => is_category name n) cats with
  | Some (_, desc) => Some (PStr desc)
  | None => None
  end.

End SchemaInit.

(** ** The schema script as a whole ([setuo-neo.py], [main])

    The script talks to the server through one session.  What matters of
    a run is the statements it sent, in order, what they did to the nodes
    of the database, and its exit status.  The server may refuse any
    statement ([session.run] raises); a refused statement changes
    nothing.  The driver object itself, created before the [try] and
    closed in the [finally], is not part of the model. *)

Module SchemaScript.

Definition CONSTRAINTS : list string :=
  [ "CREATE CONSTRAINT user_id IF NOT EXISTS FOR (u:User) REQUIRE u.id IS UNIQUE";
    "CREATE CONSTRAINT post_id IF NOT EXISTS FOR (p:Post) REQUIRE p.id IS UNIQUE";
    "CREATE CONSTRAINT comment_id IF NOT EXISTS FOR (c:Comment) REQUIRE c.id IS UNIQUE";
    "CREATE CONSTRAINT subreddit_name IF NOT EXISTS FOR (s:Subreddit) REQUIRE s.name IS UNIQUE";
    "CREATE CONSTRAINT category_name IF NOT EXISTS FOR (c:Category) REQUIRE c.name IS UNIQUE";
    "CREATE CONSTRAINT keyword_name IF NOT EXISTS FOR (k:Keyword) REQUIRE k.name IS UNIQUE" ].

Definition INDEXES : list string :=
  [ "CREATE INDEX post_created IF NOT EXISTS FOR (p:Post) ON (p.created_utc)";
    "CREATE INDEX post_iso_day IF NOT EXISTS FOR (p:Post) ON (p.iso_day)";
    "CREATE INDEX post_category IF NOT EXISTS FOR (p:Post) ON (p.category)";
    "CREATE INDEX comment_created IF NOT EXISTS FOR (c:Comment) ON (c.created_utc)";
    "CREATE INDEX user_name IF NOT EXISTS FOR (u:User) ON (u.name)" ].

(** The four queries of [verify]. *)
Definition REPORTS : list string :=
  [ "SHOW CONSTRAINTS";
    "SHOW INDEXES";
    "MATCH (n) RETURN labels(n)[0] AS label, count(*) AS cnt ORDER BY cnt DESC";
    "MATCH ()-[r]->() RETURN type(r) AS rel, count(*) AS cnt ORDER BY cnt DESC" ].

(** The statements the script sends. *)
Inductive statement : Type :=
| Ping                                   (* RETURN 1 AS ok *)
| DetachDeleteAll                        (* MATCH (n) DETACH DELETE n *)
| Create (q : string)                    (* CREATE CONSTRAINT / INDEX ... *)
| MergeCategory (name desc : string)     (* the MERGE of seed_categories *)
| Report (q : string).                   (* a query of verify *)

#[global] Instance statement_eq_dec : EqDecision statement.
Proof. solve_decision. Defined.

(** What an accepted statement does to the nodes. *)
Definition effect (q : statement) (db : list SchemaInit.node)
    : list SchemaInit.node :=
  match q with
  | DetachDeleteAll => []
  | MergeCategory name desc => SchemaInit.merge_category name desc db
  | Ping | Create _ | Report _ => db
  end.

Definition effects (qs : list statement) (db : list SchemaInit.node)
    : list SchemaInit.node :=
  fold_left (fun db q => effect q db) qs db.

Record session : Type := Session {
  sent : list statement;
  db : list SchemaInit.node
}.

(** The end of a run of the script. *)
Record finish : Type := Finish {
  last : session;
  status : Z
}.

(** The statements of a run in which nothing goes wrong. *)
Definition plan (wipe : bool) : list statement :=
  [Ping]
  ++ (if wipe then [DetachDeleteAll] else [])
  ++ map Create CONSTRAINTS
  ++ map Create INDEXES
  ++ map (fun '(name, desc) => MergeCategory name desc) SchemaInit.CATEGORIES
  ++ map Report REPORTS.

Section WithServer.

(** [refuses sent q]: after the statements [sent], the server answers [q]
    with an error. *)
Variable refuses : list statement -> statement -> bool.

(** The [ok] column of the record the ping returns, [None] when it
    returns no record. *)
Variable ping : option Z.

(** [session.run(q)]; the flag tells whether it returned. *)
Definition run (q : statement) (s : session) : session * bool :=
  if refuses (sent s) q
  then ({| sent := sent s ++ [q]; db := db s |}, false)
  else ({| sent := sent s ++ [q]; db := effect q (db s) |}, true).

(** Sequencing: an exception skips what follows. *)
Definition and_then (r : session * bool) (k : session -> session * bool)
    : session * bool :=
  if snd r then k (fst r) else r.

(** [for q in queries: session.run(q)]. *)
Fixpoint run_each (qs : list statement) (s : session) : session * bool :=
  match qs with
  | [] => (s, true)
  | q :: rest => and_then (run q s) (run_each rest)
  end.

Definition run_batch (queries : list string) : session -> session * bool :=
  run_each (map Create queries).

Definition seed_categories : session -> session * bool :=
  run_each (map (fun '(name, desc) => MergeCategory name desc)
              SchemaInit.CATEGORIES).

Definition wipe_all : session -> session * bool := run DetachDeleteAll.

Definition verify : session -> session * bool :=
  run_each (map Report REPORTS).

(** [assert ok and ok["ok"] == 1]. *)
Definition assert_ping (s : session) : session * bool :=
  (s, bool_decide (ping = Some 1%Z)).

(** The body of the [try] of [main]. *)
Definition setup (wipe : bool) (s : session) : session * bool :=
  and_then (run Ping s) (fun s =>
  and_then (assert_ping s) (fun s =>
  and_then (if wipe then wipe_all s else (s, true)) (fun s =>
  and_then (run_batch CONSTRAINTS s) (fun s =>
  and_then (run_batch INDEXES s) (fun s =>
  and_then (seed_categories s) (fun s =>
  verify s)))))).

(** [main()], called with or without [--wipe] on a server whose database
    holds the nodes [db0]: an exception ends the run through
    [sys.exit(1)]. *)
Definition main (wipe : bool) (db0 : list SchemaInit.node) : finish :=
  let '(s, ok) := setup wipe {| sent := []; db := db0 |} in
  {| last := s; status := if ok then 0%Z else 1%Z |}.

End WithServer.

(** A server that accepts everything, and one that refuses the index on
    [p.category]. *)
Definition accepts_all (_ : list statement) (_ : statement) : bool := false.

Definition refuses_category_index (_ : list statement) (q : statement)
    : bool :=
  bool_decide
    (q = Create
           "CREATE INDEX post_category IF NOT EXISTS FOR (p:Post) ON (p.category)").

End SchemaScript.

(** ** From the Collector to the Enricher

    The Collector appends its post records to [data/posts.jsonl], the file
    the Enricher reads.  [post_dict] is the dictionary [post_rec] of the
    Collector's [main] as [json.dumps] receives it: the twelve keys in the
    order of the literal. *)

Module Pipeline.
Import Collector.

(** [float(z)] for a timestamp of whole seconds. *)
Definition float_of_Z (z : Z) : float :=
  if (z <? 0)%Z
  then PrimFloat.opp (PrimFloat.of_uint63 (Uint63.of_Z (- z)))
  else PrimFloat.of_uint63 (Uint63.of_Z z).

Definition str_or_null (o : option string) : json :=
  match o with
  | Some s => JStr s
  | None => JNull
  end.

Definition int_or_null (o : option Z) : json :=
  match o with
  | Some z => JInt z
  | None => JNull
  end.

Definition post_dict (r : PostRec.t) : dict :=
  [ ("type", JStr (PostRec.type r));
    ("id", JStr (PostRec.id r));
    ("subreddit", JStr (PostRec.subreddit r));
    ("title", JStr (PostRec.title r));
    ("selftext", JStr (PostRec.selftext r));
    ("url", JStr (PostRec.url r));
    ("created_utc", JFloat (float_of_Z (PostRec.created_utc r)));
    ("iso_day", JStr (PostRec.iso_day r));
    ("score", int_or_null (PostRec.score r));
    ("num_comments", JInt (PostRec.num_comments r));
    ("author_id", str_or_null (PostRec.author_id r));
    ("author_name", JStr (PostRec.author_name r)) ].

(** The four entries the Enricher adds, in the order it assigns them. *)
Definition labels_of (a : Enricher.analysis) : dict :=
  [ ("category", Enricher.category a);
    ("sentiment", Enricher.sentiment a);
    ("keywords", Enricher.keywords a);
    ("llm_description", Enricher.description a) ].

(** A codec for the examples: a record is written as its id between
    braces, and a line is read back by looking it up among known
    records. *)
Definition id_dumps (v : json) : text :=
  match v with
  | JObj d =>
      match dict_get "id" d with
      | Some (JStr s) =>
          123%N :: map (fun c => N.of_nat (nat_of_ascii c))
                     (list_ascii_of_string s) ++ [125%N]
      | _ => [63%N]
      end
  | _ => [63%N]
  end.

Definition table_loads (known : list dict) (l : text) : result json :=
  match List.find (fun d => bool_decide (id_dumps (JObj d) ++ [10%N] = l))
          known with
  | Some d => Ok (JObj d)
  | None => Raise JSONDecodeError
  end.

(** The posts of the sample run of the Collector, as the Enricher finds
    them. *)
Definition sample_posts : list PostRec.t := posts_file sample_run_world.

Definition sample_input : Enricher.world :=
  {| Enricher.files :=
       {[ Enricher.INPUT_FILE :=
            map (fun r => Enricher.line_of id_dumps (post_dict r))
              sample_posts ]};
     Enricher.calls := 0;
     Enricher.slept := 0 |}.

End Pipeline.

(** * Properties *)

(** ** Dictionaries *)

Lemma dict_get_set_eq (k : string) (v : json) (d : dict) :
  dict_get k (dict_set k v d) = Some v.
Proof.
  induction d as [|[k' v'] r IH]; simpl.
  - now rewrite String.eqb_refl.
  - destruct (String.eqb k k') eqn:E; simpl.
    + now rewrite String.eqb_refl.
    + now rewrite E.
Qed.

Lemma dict_get_set_ne (k k' : string) (v : json) (d : dict) :
  k <> k' -> dict_get k' (dict_set k v d) = dict_get k' d.
Proof.
  intros Hne. induction d as [|[k0 v0] r IH]; simpl.
  - destruct (String.eqb_spec k' k); congruence.
  - destruct (String.eqb_spec k k0) as [->|Hk]; simpl.
    + destruct (String.eqb_spec k' k0); congruence.
    + destruct (String.eqb_spec k' k0); congruence.
Qed.

(** Setting a key never moves or removes a key: the keys already there
    stay in place, and a key that was absent is added last. *)
Lemma dict_keys_set (k : string) (v : json) (d : dict) :
  dict_keys (dict_set k v d) =
  if dict_get k d is Some _ then dict_keys d else dict_keys d ++ [k].
Proof.
  unfold dict_keys.
  induction d as [|[k' v'] r IH]; simpl; [reflexivity|].
  destruct (String.eqb_spec k k') as [->|Hk]; simpl; [reflexivity|].
  rewrite IH. now destruct (dict_get k r).
Qed.

Lemma dict_get_in_keys (k : string) (d : dict) :
  In k (dict_keys d) <-> dict_get k d <> None.
Proof.
  induction d as [|[k' v'] r IH]; simpl; [tauto|].
  destruct (String.eqb_spec k k') as [->|Hk].
  - split; [discriminate|auto].
  - rewrite <- IH. split; [intros [?|?]; congruence|auto].
Qed.

(** ** Blank lines *)

Lemma lstrip_all_space (s : text) :
  forallb isspace (lstrip s) = forallb isspace s.
Proof.
  induction s as [|c r IH]; simpl; [reflexivity|].
  destruct (isspace c) eqn:E; simpl; [exact IH|].
  now rewrite E.
Qed.

Lemma lstrip_nil (s : text) :
  text_truthy (lstrip s) = negb (forallb isspace s).
Proof.
  induction s as [|c r IH]; simpl; [reflexivity|].
  destruct (isspace c) eqn:E; simpl; [exact IH|reflexivity].
Qed.

Lemma forallb_rev {A} (f : A -> bool) (l : list A) :
  forallb f (rev l) = forallb f l.
Proof.
  induction l as [|a l IH]; simpl; [reflexivity|].
  rewrite forallb_app, IH. simpl.
  destruct (f a), (forallb f l); reflexivity.
Qed.

Lemma text_truthy_rev (s : text) : text_truthy (rev s) = text_truthy s.
Proof.
  destruct s as [|c r]; simpl; [reflexivity|].
  destruct (rev r); reflexivity.
Qed.

(** [if line.strip()] keeps exactly the lines that are not blank. *)
Lemma strip_truthy (l : text) : text_truthy (strip l) = nonblank l.
Proof.
  unfold strip, rstrip, nonblank.
  rewrite text_truthy_rev, lstrip_nil, forallb_rev, lstrip_all_space.
  reflexivity.
Qed.


(** ** The Enricher *)

Module EnricherSpec.
Import Enricher.

Lemma in_str_list_true (v : json) (l : list string) :
  in_str_list v l = true -> exists s, v = JStr s /\ In s l.
Proof.
  destruct v; simpl; try discriminate.
  intros H. apply existsb_exists in H as (x & Hx & E).
  apply String.eqb_eq in E. subst. eauto.
Qed.

Lemma in_str_list_false (v : json) (l : list string) :
  in_str_list v l = false -> ~ (exists s, v = JStr s /\ In s l).
Proof.
  intros H (s & -> & Hs). simpl in H.
  apply Bool.not_true_iff_false in H. apply H.
  apply existsb_exists. exists s. split; [exact Hs|apply String.eqb_refl].
Qed.

Lemma is_list_true (v : json) : is_list v = true -> exists l, v = JArr l.
Proof. destruct v; simpl; try discriminate. eauto. Qed.

Lemma get_category a d :
  dict_get "category" (add_analysis a d) = Some (category a).
Proof.
  unfold add_analysis.
  rewrite !dict_get_set_ne by discriminate. apply dict_get_set_eq.
Qed.

Lemma get_sentiment a d :
  dict_get "sentiment" (add_analysis a d) = Some (sentiment a).
Proof.
  unfold add_analysis.
  rewrite !dict_get_set_ne by discriminate. apply dict_get_set_eq.
Qed.

Lemma get_keywords a d :
  dict_get "keywords" (add_analysis a d) = Some (keywords a).
Proof.
  unfold add_analysis.
  rewrite !dict_get_set_ne by discriminate. apply dict_get_set_eq.
Qed.

Lemma get_llm_description a d :
  dict_get "llm_description" (add_analysis a d) = Some (description a).
Proof. unfold add_analysis. apply dict_get_set_eq. Qed.

Lemma get_other a d k :
  ~ In k label_keys -> dict_get k (add_analysis a d) = dict_get k d.
Proof.
  intros Hk. unfold add_analysis, label_keys in *. simpl in Hk.
  rewrite !dict_get_set_ne; [reflexivity|intros <-; tauto..].
Qed.

(** The keys of the enriched record: those of the post, in place,
    followed by the label keys the post did not have yet. *)
Lemma keys_add_analysis a d :
  exists new, dict_keys (add_analysis a d) = dict_keys d ++ new /\
              incl new label_keys.
Proof.
  unfold add_analysis.
  assert (step : forall k v d0, In k label_keys ->
            exists n, dict_keys (dict_set k v d0) = dict_keys d0 ++ n /\
                      incl n label_keys).
  { intros k v d0 Hk. rewrite dict_keys_set. destruct (dict_get k d0).
    - exists []. rewrite app_nil_r. split; [reflexivity|intros ? []].
    - exists [k]. split; [reflexivity|]. intros x [<-|[]]. exact Hk. }
  pose (d1 := dict_set "category" (category a) d).
  pose (d2 := dict_set "sentiment" (sentiment a) d1).
  pose (d3 := dict_set "keywords" (keywords a) d2).
  destruct (step "category" (category a) d) as (n1 & E1 & I1);
    [simpl; tauto|].
  destruct (step "sentiment" (sentiment a) d1) as (n2 & E2 & I2);
    [simpl; tauto|].
  destruct (step "keywords" (keywords a) d2) as (n3 & E3 & I3);
    [simpl; tauto|].
  destruct (step "llm_description" (description a) d3) as (n4 & E4 & I4);
    [simpl; tauto|].
  exists (n1 ++ n2 ++ n3 ++ n4). split.
  - subst d1 d2 d3. rewrite E4, E3, E2, E1.
    now rewrite <- !app_assoc.
  - repeat apply incl_app; assumption.
Qed.

Section WithServices.

Variable classify : nat -> json * json -> response.
Variable loads : text -> result json.
Variable dumps : json -> text.

#[local] Abbreviation analyze_post := (analyze_post classify).
#[local] Abbreviation process_post := (process_post classify dumps).
#[local] Abbreviation run_posts := (run_posts classify dumps).
#[local] Abbreviation enrich_posts := (enrich_posts classify loads dumps).
#[local] Abbreviation enriched := (enriched classify).
#[local] Abbreviation enriched_records := (enriched_records classify).
#[local] Abbreviation line_of := (line_of dumps).
#[local] Abbreviation appended := (appended dumps).
#[local] Abbreviation rebuilt := (rebuilt dumps).
#[local] Abbreviation read_posts := (read_posts loads).

(** [analyze_post] never raises and its labels are always in range. *)
Lemma analyze_post_labels n t b :
  (exists s, category (analyze_post n t b) = JStr s /\ In s valid_categories) /\
  (exists s, sentiment (analyze_post n t b) = JStr s /\ In s valid_sentiments) /\
  (exists l, keywords (analyze_post n t b) = JArr l).
Proof.
  unfold Enricher.analyze_post.
  destruct (classify n (content t b)) as [e| |c s k d];
    cbn [category sentiment keywords default_analysis].
  1,2: repeat split; eexists; (split; [reflexivity|simpl; tauto])
                               || reflexivity.
  repeat split.
  - destruct (in_str_list c valid_categories) eqn:E.
    + now apply in_str_list_true.
    + eexists; split; [reflexivity|simpl; tauto].
  - destruct (in_str_list s valid_sentiments) eqn:E.
    + now apply in_str_list_true.
    + eexists; split; [reflexivity|simpl; tauto].
  - destruct (is_list k) eqn:E.
    + now apply is_list_true.
    + eexists; reflexivity.
Qed.

Lemma enriched_labelled n d : labelled (enriched n d).
Proof.
  unfold labelled, Enricher.enriched.
  rewrite get_category, get_sentiment, get_keywords.
  destruct (analyze_post_labels n
              (dict_get_default "title" (JStr "") d)
              (dict_get_default "selftext" (JStr "") d))
    as ((s1 & E1 & I1) & (s2 & E2 & I2) & (l & E3)).
  rewrite E1, E2, E3. eauto 8.
Qed.

(** What one iteration does to the files: nothing when it raises before
    the request, otherwise one appended record. *)
Lemma process_post_written total i p w w' o :
  process_post total i p w = (w', o) ->
  (w' = w /\ o <> Returned) \/
  (exists d, p = JObj d /\
     files w' =
       append_line OUTPUT_FILE (line_of (enriched (calls w) d)) (files w) /\
     calls w' = S (calls w)).
Proof.
  unfold Enricher.process_post.
  destruct p as [| | | | | |d];
    try (intros [= <- <-]; left; split; [reflexivity|discriminate]).
  destruct (sliceable _);
    [|intros [= <- <-]; left; split; [reflexivity|discriminate]].
  cbv zeta.
  destruct (if is_error_description _ then true else _);
    [destruct (i <? total)%nat|]; intros [= <- <-]; right; eauto.
Qed.

(** With a sliceable title the record is written, however the iteration
    ends. *)
Lemma process_post_sliceable total i d w :
  sliceable (dict_get_default "title" (JStr "") d) = true ->
  exists w' o,
    process_post total i (JObj d) w = (w', o) /\
    files w' =
      append_line OUTPUT_FILE (line_of (enriched (calls w) d)) (files w).
Proof.
  intros Hs. unfold Enricher.process_post. rewrite Hs. cbv zeta.
  destruct (if is_error_description _ then true else _);
    [destruct (i <? total)%nat|]; eauto.
Qed.

(** With a sliceable title and a printable answer the iteration returns. *)
Lemma process_post_returns total i d w :
  sliceable (dict_get_default "title" (JStr "") d) = true ->
  printable (classify (calls w)
               (content (dict_get_default "title" (JStr "") d)
                        (dict_get_default "selftext" (JStr "") d))) = true ->
  exists w',
    process_post total i (JObj d) w = (w', Returned) /\
    files w' =
      append_line OUTPUT_FILE (line_of (enriched (calls w) d)) (files w) /\
    calls w' = S (calls w).
Proof.
  intros Hs Hp. unfold Enricher.process_post. rewrite Hs. cbv zeta.
  assert (Hj : (if is_error_description
                     (description (analyze_post (calls w)
                        (dict_get_default "title" (JStr "") d)
                        (dict_get_default "selftext" (JStr "") d)))
                then true
                else joinable (keywords (analyze_post (calls w)
                        (dict_get_default "title" (JStr "") d)
                        (dict_get_default "selftext" (JStr "") d)))) = true).
  { unfold Enricher.analyze_post.
    destruct (classify _ _) as [e| |c s k dd]; try reflexivity.
    cbn [description keywords]. destruct (is_error_description dd);
      [reflexivity|].
    unfold printable in Hp. destruct (is_list k); [exact Hp|reflexivity]. }
  rewrite Hj. destruct (i <? total)%nat; eexists; eauto.
Qed.

Lemma run_posts_written total posts : forall i w w' o,
  run_posts total i posts w = (w', o) ->
  exists recs, files w' = appended recs (files w) /\ Forall labelled recs.
Proof.
  induction posts as [|p rest IH]; intros i w w' o; simpl.
  - intros [= <- <-]. exists []. split; [reflexivity|constructor].
  - destruct (process_post total i p w) as [w1 o1] eqn:E.
    apply process_post_written in E as [[-> Ho]|(d & -> & Hf & Hc)].
    + destruct o1; [congruence|]. intros [= <- <-].
      exists []. split; [reflexivity|constructor].
    + destruct o1.
      * intros H. apply IH in H as (recs & Hr & Hl).
        exists (enriched (calls w) d :: recs). split.
        -- rewrite Hr, Hf. reflexivity.
        -- constructor; [apply enriched_labelled|exact Hl].
      * intros [= <- <-]. exists [enriched (calls w) d]. split.
        -- rewrite Hf. reflexivity.
        -- constructor; [apply enriched_labelled|constructor].
Qed.

Lemma run_posts_complete total posts : forall i w,
  Forall (fun p => well_formed_post p = true) posts ->
  (forall n c, printable (classify n c) = true) ->
  exists w',
    run_posts total i posts w = (w', Returned) /\
    files w' = appended (enriched_records (calls w) posts) (files w) /\
    calls w' = (calls w + length posts)%nat.
Proof.
  induction posts as [|p rest IH]; intros i w Hwf Hp; simpl.
  - exists w. repeat split. lia.
  - inversion Hwf as [|? ? Hp1 Hrest]; subst.
    destruct p as [| | | | | |d]; try discriminate.
    destruct (process_post_returns total i d w Hp1 (Hp _ _))
      as (w1 & E & Hf & Hc).
    rewrite E.
    destruct (IH (S i) w1 Hrest Hp) as (w' & E' & Hf' & Hc').
    exists w'. split; [exact E'|]. split.
    + rewrite Hf', Hf, Hc. reflexivity.
    + rewrite Hc', Hc. lia.
Qed.

Lemma lines_of_append p l fs :
  lines_of p (append_line p l fs) = lines_of p fs ++ [l].
Proof. unfold lines_of, append_line. now rewrite lookup_insert_eq. Qed.

Lemma appended_lines recs : forall fs,
  recs <> [] ->
  appended recs fs =
  <[OUTPUT_FILE := lines_of OUTPUT_FILE fs ++ map line_of recs]> fs.
Proof.
  induction recs as [|r rest IH]; intros fs Hne; [congruence|].
  destruct rest as [|r' rest'].
  - reflexivity.
  - change (appended (r :: r' :: rest') fs)
      with (appended (r' :: rest')
              (append_line OUTPUT_FILE (line_of r) fs)).
    rewrite IH by discriminate.
    rewrite lines_of_append. unfold append_line at 1.
    rewrite insert_insert_eq. f_equal.
    rewrite <- app_assoc. reflexivity.
Qed.

Lemma appended_after_delete recs fs :
  appended recs (delete OUTPUT_FILE fs) = rebuilt recs fs.
Proof.
  destruct recs as [|r rest]; [reflexivity|].
  rewrite appended_lines by discriminate.
  unfold lines_of. rewrite lookup_delete_eq. simpl.
  now rewrite insert_delete_eq.
Qed.

Lemma lines_of_rebuilt recs fs :
  lines_of OUTPUT_FILE (rebuilt recs fs) = map line_of recs.
Proof.
  unfold lines_of, Enricher.rebuilt. destruct recs as [|r rest].
  - now rewrite lookup_delete_eq.
  - now rewrite lookup_insert_eq.
Qed.

(** [read_posts] parses the non-blank lines, in order. *)
Lemma read_posts_nonblank ls : forall posts,
  Forall2 (fun l p => loads l = Ok p) (List.filter nonblank ls) posts ->
  read_posts ls = Ok posts.
Proof.
  induction ls as [|l r IH]; intros posts H; simpl in *.
  - inversion H. reflexivity.
  - rewrite strip_truthy. destruct (nonblank l).
    + inversion H as [|? ? ? ? Hl Hr]; subst.
      rewrite Hl, (IH _ Hr). reflexivity.
    + apply IH, H.
Qed.

Lemma enriched_records_lookup posts : forall n i d,
  Forall (fun p => well_formed_post p = true) posts ->
  posts !! i = Some (JObj d) ->
  enriched_records n posts !! i = Some (enriched (n + i) d).
Proof.
  induction posts as [|p rest IH]; intros n i d Hwf Hi; [discriminate|].
  inversion Hwf as [|? ? Hp Hrest]; subst.
  destruct p as [| | | | | |d0]; try discriminate.
  destruct i as [|i]; simpl in *.
  - injection Hi as ->. now rewrite Nat.add_0_r.
  - rewrite (IH (S n) i d Hrest Hi). f_equal. f_equal. lia.
Qed.

Lemma enriched_records_length posts : forall n,
  Forall (fun p => well_formed_post p = true) posts ->
  length (enriched_records n posts) = length posts.
Proof.
  induction posts as [|p rest IH]; intros n Hwf; [reflexivity|].
  inversion Hwf as [|? ? Hp Hrest]; subst.
  destruct p as [| | | | | |d0]; try discriminate.
  simpl. now rewrite IH.
Qed.

(** C1.  When the classification request for a post raises, whatever the
    exception, the record appended for that post is the post with exactly
    the default label ([category = "campus_life"], [sentiment =
    "neutral"], [keywords = []], [llm_description = "Error during
    analysis"]), the iteration returns, and the loop goes on with the
    next post. *)
Theorem C1_error_default_label total i d w rest e :
  sliceable (dict_get_default "title" (JStr "") d) = true ->
  classify (calls w)
    (content (dict_get_default "title" (JStr "") d)
             (dict_get_default "selftext" (JStr "") d)) = CallRaises e ->
  exists w',
    process_post total i (JObj d) w = (w', Returned) /\
    files w' =
      append_line OUTPUT_FILE (line_of (add_analysis default_analysis d))
        (files w) /\
    dict_get "category" (add_analysis default_analysis d)
      = Some (JStr "campus_life") /\
    dict_get "sentiment" (add_analysis default_analysis d)
      = Some (JStr "neutral") /\
    dict_get "keywords" (add_analysis default_analysis d)
      = Some (JArr []) /\
    dict_get "llm_description" (add_analysis default_analysis d)
      = Some (JStr "Error during analysis") /\
    run_posts total i (JObj d :: rest) w = run_posts total (S i) rest w'.
Proof.
  intros Hs Hc.
  assert (Ha : analyze_post (calls w)
                 (dict_get_default "title" (JStr "") d)
                 (dict_get_default "selftext" (JStr "") d)
               = default_analysis).
  { unfold Enricher.analyze_post. now rewrite Hc. }
  destruct (process_post_returns total i d w Hs) as (w' & E & Hf & _).
  { now rewrite Hc. }
  exists w'. split; [exact E|]. split.
  { rewrite Hf. unfold Enricher.enriched. now rewrite Ha. }
  rewrite get_category, get_sentiment, get_keywords, get_llm_description.
  repeat (split; [reflexivity|]).
  cbn [Enricher.run_posts]. now rewrite E.
Qed.

(** C2.  Whatever the service answers, [analyze_post] keeps a category or
    sentiment of the enumeration and replaces any other by "campus_life" /
    "neutral", keeps a list of keywords and replaces any other value by
    the empty list; such an answer is not an error (the iteration writes
    the record and returns); and every record a run writes has its
    category and sentiment inside the enumerations. *)
Theorem C2_labels_in_range :
  (forall n t b c s k dd,
     classify n (content t b) = Output c s k dd ->
     (category (analyze_post n t b) = c /\
        (exists x, c = JStr x /\ In x valid_categories) \/
      category (analyze_post n t b) = JStr "campus_life" /\
        ~ (exists x, c = JStr x /\ In x valid_categories)) /\
     (sentiment (analyze_post n t b) = s /\
        (exists x, s = JStr x /\ In x valid_sentiments) \/
      sentiment (analyze_post n t b) = JStr "neutral" /\
        ~ (exists x, s = JStr x /\ In x valid_sentiments)) /\
     (keywords (analyze_post n t b) = k /\ (exists l, k = JArr l) \/
      keywords (analyze_post n t b) = JArr [] /\ ~ (exists l, k = JArr l))) /\
  (forall total i d w c s k dd,
     sliceable (dict_get_default "title" (JStr "") d) = true ->
     classify (calls w)
       (content (dict_get_default "title" (JStr "") d)
                (dict_get_default "selftext" (JStr "") d)) = Output c s k dd ->
     is_list k = false ->
     exists w',
       process_post total i (JObj d) w = (w', Returned) /\
       files w' =
         append_line OUTPUT_FILE (line_of (enriched (calls w) d)) (files w)) /\
  (forall w w' o,
     enrich_posts w = (w', o) ->
     files w' = files w \/
     exists recs, files w' = rebuilt recs (files w) /\ Forall labelled recs).
Proof.
  split; [|split].
  - intros n t b c s k dd E. unfold Enricher.analyze_post. rewrite E.
    cbn [category sentiment keywords]. repeat split.
    + destruct (in_str_list c valid_categories) eqn:H.
      * left. split; [reflexivity|now apply in_str_list_true].
      * right. split; [reflexivity|now apply in_str_list_false].
    + destruct (in_str_list s valid_sentiments) eqn:H.
      * left. split; [reflexivity|now apply in_str_list_true].
      * right. split; [reflexivity|now apply in_str_list_false].
    + destruct (is_list k) eqn:H.
      * left. split; [reflexivity|now apply is_list_true].
      * right. split; [reflexivity|]. intros (l & ->). discriminate.
  - intros total i d w c s k dd Hs E Hk.
    destruct (process_post_returns total i d w Hs) as (w' & E' & Hf & _).
    { rewrite E. unfold printable. now rewrite Hk. }
    eauto.
  - intros w w' o. unfold Enricher.enrich_posts.
    destruct (files w !! INPUT_FILE) as [ls|]; [|intros [= <- <-]; now left].
    destruct (read_posts ls) as [posts|e]; [|intros [= <- <-]; now left].
    intros H. apply run_posts_written in H as (recs & Hr & Hl).
    right. exists recs. split; [|exact Hl]. rewrite Hr.
    cbn [files]. unfold file_exists.
    destruct (files w !! OUTPUT_FILE) eqn:Ho.
    + apply appended_after_delete.
    + rewrite <- (delete_id (files w) OUTPUT_FILE Ho) at 1.
      apply appended_after_delete.
Qed.

(** C3.  When the input file exists, every non-blank line parses to a
    well-formed post and the service's answers are printable, the run
    returns; the output file then holds exactly the enriched records of
    this run, whatever it held before: one line per non-blank input
    line, the i-th line being the enrichment of the i-th post. *)
Theorem C3_output_rebuilt w ls posts :
  files w !! INPUT_FILE = Some ls ->
  Forall2 (fun l p => loads l = Ok p) (List.filter nonblank ls) posts ->
  Forall (fun p => well_formed_post p = true) posts ->
  (forall n c, printable (classify n c) = true) ->
  exists w',
    enrich_posts w = (w', Returned) /\
    files w' = rebuilt (enriched_records (calls w) posts) (files w) /\
    lines_of OUTPUT_FILE (files w')
      = map line_of (enriched_records (calls w) posts) /\
    length (lines_of OUTPUT_FILE (files w'))
      = length (List.filter nonblank ls) /\
    length (lines_of OUTPUT_FILE (files w')) = length posts /\
    (forall i d, posts !! i = Some (JObj d) ->
       lines_of OUTPUT_FILE (files w') !! i
         = Some (line_of (enriched (calls w + i) d))).
Proof.
  intros Hin Hparse Hwf Hp. unfold Enricher.enrich_posts.
  rewrite Hin, (read_posts_nonblank _ _ Hparse).
  destruct (run_posts_complete (length posts) posts 1
              {| files := if file_exists OUTPUT_FILE (files w)
                          then delete OUTPUT_FILE (files w) else files w;
                 calls := calls w; slept := slept w |} Hwf Hp)
    as (w' & E & Hf & Hc).
  cbn [files calls] in Hf.
  assert (Hfiles : files w'
                   = rebuilt (enriched_records (calls w) posts) (files w)).
  { rewrite Hf. unfold file_exists.
    destruct (files w !! OUTPUT_FILE) eqn:Ho.
    - apply appended_after_delete.
    - rewrite <- (delete_id (files w) OUTPUT_FILE Ho) at 1.
      apply appended_after_delete. }
  assert (Hlines : lines_of OUTPUT_FILE (files w')
                   = map line_of (enriched_records (calls w) posts)).
  { rewrite Hfiles. apply lines_of_rebuilt. }
  exists w'. split; [exact E|]. split; [exact Hfiles|].
  split; [exact Hlines|].
  rewrite Hlines, length_map, (enriched_records_length _ _ Hwf).
  split; [symmetry; eapply Forall2_length; exact Hparse|].
  split; [reflexivity|].
  intros i d Hi.
  change (map line_of (enriched_records (calls w) posts))
    with (line_of <$> enriched_records (calls w) posts).
  rewrite list_lookup_fmap, (enriched_records_lookup _ _ _ _ Hwf Hi).
  reflexivity.
Qed.

(** C4.  For a post the loop reaches the request for, the record written
    is the post with the four label keys assigned: every key of the post
    is still there, at its place (no field is deleted, renamed or moved);
    the keys added are among [category], [sentiment], [keywords] and
    [llm_description]; every other field has the value it had; and a post
    that has none of these four keys keeps every one of its fields with
    its value. *)
Theorem C4_fields_preserved total i d w :
  sliceable (dict_get_default "title" (JStr "") d) = true ->
  exists w' o d',
    process_post total i (JObj d) w = (w', o) /\
    files w' = append_line OUTPUT_FILE (line_of d') (files w) /\
    (exists new, dict_keys d' = dict_keys d ++ new /\ incl new label_keys) /\
    (forall k, ~ In k label_keys -> dict_get k d' = dict_get k d) /\
    ((forall k, In k label_keys -> dict_get k d = None) ->
     forall k v, dict_get k d = Some v -> dict_get k d' = Some v).
Proof.
  intros Hs.
  destruct (process_post_sliceable total i d w Hs) as (w' & o & E & Hf).
  exists w', o, (enriched (calls w) d).
  split; [exact E|]. split; [exact Hf|].
  unfold Enricher.enriched. split; [apply keys_add_analysis|].
  split; [intros k Hk; now apply get_other|].
  intros Hnone k v Hk. rewrite get_other; [exact Hk|].
  intros Hin. rewrite (Hnone k Hin) in Hk. discriminate.
Qed.

(** C10.  When the input file does not exist, [enrich_posts] returns
    normally and leaves the whole state as it was: no file is created,
    deleted or changed (so a stale output file stays as it is), no request
    is sent and no pause is taken. *)
Theorem C10_missing_input_no_effect w :
  files w !! INPUT_FILE = None ->
  enrich_posts w = (w, Returned) /\
  files (fst (enrich_posts w)) !! OUTPUT_FILE = files w !! OUTPUT_FILE.
Proof.
  intros H. unfold Enricher.enrich_posts. rewrite H. split; reflexivity.
Qed.

End WithServices.

(** *** The theorems at the sample data *)

Lemma C1_error_default_label_witness :
  exists w',
    process_post sample_classify sample_dumps 2 1 (JObj sample_post)
      sample_world = (w', Returned) /\
    lines_of OUTPUT_FILE (files w') =
      [ [111; 108; 100; 10]%N;
        line_of sample_dumps
          [("id", JStr "abc123");
           ("title", JStr "Hostel food is terrible");
           ("selftext", JStr "");
           ("created_utc", JInt 1700000000);
           ("category", JStr "campus_life");
           ("sentiment", JStr "neutral");
           ("keywords", JArr []);
           ("llm_description", JStr "Error during analysis")] ].
Proof.
  destruct (C1_error_default_label sample_classify sample_dumps
              2 1 sample_post sample_world [JObj sample_post2]
              (ServiceError "503") eq_refl eq_refl)
    as (w' & E & Hf & _).
  exists w'. split; [exact E|]. rewrite Hf. vm_compute. reflexivity.
Defined.

Lemma C2_labels_in_range_witness :
  exists w',
    process_post sample_classify sample_dumps 2 2 (JObj sample_post2)
      {| files := files sample_world; calls := 1; slept := 0 |}
    = (w', Returned) /\
    files w' =
      append_line OUTPUT_FILE
        (line_of sample_dumps
           [("id", JStr "def456"); ("title", JStr "Merit list");
            ("category", JStr "campus_life"); ("sentiment", JStr "neutral");
            ("keywords", JArr []);
            ("llm_description", JStr "about sport")])
        (files sample_world).
Proof.
  destruct (C2_labels_in_range sample_classify sample_loads sample_dumps)
    as (_ & H & _).
  exact (H 2%nat 2%nat sample_post2
           {| files := files sample_world; calls := 1; slept := 0 |}
           (JStr "sports") (JInt 1) (JStr "exams") (JStr "about sport")
           eq_refl eq_refl eq_refl).
Defined.

Lemma C3_output_rebuilt_witness :
  exists w',
    enrich_posts sample_classify sample_loads sample_dumps sample_world
      = (w', Returned) /\
    lines_of OUTPUT_FILE (files w') = [[123; 8; 125; 10]; [123; 6; 125; 10]]%N.
Proof.
  destruct (C3_output_rebuilt sample_classify sample_loads sample_dumps
              sample_world [[65; 10]; [32; 10]; [66; 10]]%N
              [JObj sample_post; JObj sample_post2])
    as (w' & E & _ & Hl & _).
  - reflexivity.
  - vm_compute. repeat constructor.
  - repeat constructor.
  - intros [|[|n]] c; reflexivity.
  - exists w'. split; [exact E|]. rewrite Hl. reflexivity.
Defined.

Lemma C4_fields_preserved_witness :
  exists w' o d',
    process_post sample_classify sample_dumps 2 1 (JObj sample_post)
      sample_world = (w', o) /\
    files w' = append_line OUTPUT_FILE (line_of sample_dumps d')
                 (files sample_world) /\
    dict_get "id" d' = Some (JStr "abc123") /\
    dict_get "title" d' = Some (JStr "Hostel food is terrible") /\
    dict_get "selftext" d' = Some (JStr "") /\
    dict_get "created_utc" d' = Some (JInt 1700000000).
Proof.
  destruct (C4_fields_preserved sample_classify sample_dumps 2 1
              sample_post sample_world eq_refl)
    as (w' & o & d' & E & Hf & _ & _ & Hall).
  exists w', o, d'. split; [exact E|]. split; [exact Hf|].
  assert (Hnone : forall k, In k label_keys -> dict_get k sample_post = None).
  { intros k [<-|[<-|[<-|[<-|[]]]]]; reflexivity. }
  repeat split; apply (Hall Hnone); reflexivity.
Defined.

Lemma C10_missing_input_no_effect_witness :
  files sample_world_no_input !! INPUT_FILE = None /\
  enrich_posts sample_classify sample_loads sample_dumps
    sample_world_no_input = (sample_world_no_input, Returned).
Proof.
  split; [reflexivity|].
  apply (C10_missing_input_no_effect sample_classify sample_loads
           sample_dumps sample_world_no_input).
  reflexivity.
Defined.

(** C3 does not hold of every run.  A run that meets a line that does
    not parse ends with the parser's exception before the output is
    touched: the old output file is still there, with its one line,
    where the input has two non-blank lines.  A run that meets a post the
    loop cannot handle ends there: the output is rebuilt, but with two
    records where the input has three non-blank lines. *)
Lemma C3_output_rebuilt_counterexample :
  (exists ls,
     files EnricherSummary.sample_world_malformed !! INPUT_FILE = Some ls /\
     length (List.filter nonblank ls) = 2%nat /\
     enrich_posts sample_classify sample_loads sample_dumps
       EnricherSummary.sample_world_malformed
     = (EnricherSummary.sample_world_malformed, Raised JSONDecodeError) /\
     lines_of OUTPUT_FILE (files EnricherSummary.sample_world_malformed)
     = [[111; 108; 100; 10]%N]) /\
  (exists ls w',
     files EnricherSummary.sample_world_ill_formed !! INPUT_FILE = Some ls /\
     length (List.filter nonblank ls) = 3%nat /\
     enrich_posts sample_classify EnricherSummary.sample_loads_more
       sample_dumps EnricherSummary.sample_world_ill_formed
     = (w', Raised TypeError) /\
     length (lines_of OUTPUT_FILE (files w')) = 2%nat).
Proof.
  split.
  - eexists. split; [reflexivity|]. split; [reflexivity|].
    split; reflexivity.
  - eexists. eexists. split; [reflexivity|]. split; [reflexivity|].
    split; [vm_compute; reflexivity|reflexivity].
Qed.

(** A line that does not parse ends the run before the output is touched:
    the stale output stays. *)
Example malformed_line_aborts :
  enrich_posts sample_classify sample_loads sample_dumps
    {| files := {[ INPUT_FILE := [[65; 10]; [88; 10]]%N;
                   OUTPUT_FILE := [[111; 108; 100; 10]%N] ]};
       calls := 0; slept := 0 |}
  = ({| files := {[ INPUT_FILE := [[65; 10]; [88; 10]]%N;
                    OUTPUT_FILE := [[111; 108; 100; 10]%N] ]};
        calls := 0; slept := 0 |}, Raised JSONDecodeError).
Proof. reflexivity. Qed.

(** A post whose title is [null] ends the run at [title[:50]], before any
    request. *)
Example null_title_aborts :
  process_post sample_classify sample_dumps 1 1
    (JObj [("id", JStr "x"); ("title", JNull)]) sample_world
  = (sample_world, Raised TypeError).
Proof. reflexivity. Qed.

End EnricherSpec.

(** ** Whole runs of the Enricher *)

Module EnricherRuns.
Import Enricher EnricherSummary EnricherSpec.

Lemma append_line_other (p q : string) (l : text)
    (fs : gmap string (list text)) :
  p <> q -> append_line p l fs !! q = fs !! q.
Proof. intros H. unfold append_line. now rewrite lookup_insert_ne. Qed.

(** Clearing the output file is deleting it, whether it was there or
    not. *)
Lemma cleared_output (fs : gmap string (list text)) :
  (if file_exists OUTPUT_FILE fs then delete OUTPUT_FILE fs else fs)
  = delete OUTPUT_FILE fs.
Proof.
  unfold file_exists. destruct (fs !! OUTPUT_FILE) eqn:E; [reflexivity|].
  symmetry. now apply delete_id.
Qed.

Lemma filter_all_blank (ls : list text) :
  Forall (fun l => nonblank l = false) ls -> List.filter nonblank ls = [].
Proof.
  induction 1 as [|l r Hl Hr IH]; simpl; [reflexivity|]. now rewrite Hl.
Qed.

Section WithServices.

Variable classify : nat -> json * json -> response.
Variable loads : text -> result json.
Variable dumps : json -> text.

#[local] Abbreviation analyze_post := (analyze_post classify).
#[local] Abbreviation process_post := (process_post classify dumps).
#[local] Abbreviation run_posts := (run_posts classify dumps).
#[local] Abbreviation enrich_posts := (enrich_posts classify loads dumps).
#[local] Abbreviation enriched := (enriched classify).
#[local] Abbreviation enriched_records := (enriched_records classify).
#[local] Abbreviation line_of := (line_of dumps).
#[local] Abbreviation appended := (appended dumps).
#[local] Abbreviation rebuilt := (rebuilt dumps).
#[local] Abbreviation read_posts := (read_posts loads).
#[local] Abbreviation count_post := (count_post classify).
#[local] Abbreviation run_posts_counting :=
  (run_posts_counting classify dumps).
#[local] Abbreviation enrich_posts_summary :=
  (enrich_posts_summary classify loads dumps).
#[local] Abbreviation responses_of := (responses_of classify).

Lemma rebuilt_other recs fs q :
  q <> OUTPUT_FILE -> rebuilt recs fs !! q = fs !! q.
Proof.
  intros H. unfold Enricher.rebuilt. destruct recs.
  - now rewrite lookup_delete_ne.
  - now rewrite lookup_insert_ne.
Qed.

Lemma rebuilt_again recs recs' fs :
  rebuilt recs (rebuilt recs' fs) = rebuilt recs fs.
Proof.
  unfold Enricher.rebuilt. destruct recs, recs'.
  - apply delete_id, lookup_delete_eq.
  - apply delete_insert_eq.
  - apply insert_delete_eq.
  - apply insert_insert_eq.
Qed.

(** What a run leaves in the files: what was there, or the output
    rebuilt with the records written. *)
Lemma enrich_posts_files w w' o :
  enrich_posts w = (w', o) ->
  files w' = files w \/ exists recs, files w' = rebuilt recs (files w).
Proof.
  unfold Enricher.enrich_posts.
  destruct (files w !! INPUT_FILE) as [ls|]; [|intros [= <- <-]; now left].
  destruct (read_posts ls) as [posts|e]; [|intros [= <- <-]; now left].
  rewrite cleared_output. intros H.
  apply (run_posts_written classify loads dumps) in H as (recs & Hr & _).
  right. exists recs. rewrite Hr. apply appended_after_delete.
Qed.

Lemma process_post_pause total i p w w' :
  process_post total i p w = (w', Returned) ->
  slept w' = (slept w + if (i <? total)%nat then 1 else 0)%nat.
Proof.
  unfold Enricher.process_post.
  destruct p as [| | | | | |d]; try discriminate.
  destruct (sliceable _); [|discriminate]. cbv zeta.
  destruct (if is_error_description _ then true else _); [|discriminate].
  destruct (i <? total)%nat; intros [= <-]; cbn [slept]; lia.
Qed.

Lemma run_posts_pauses total posts : forall i w w',
  (i + length posts = S total)%nat ->
  run_posts total i posts w = (w', Returned) ->
  slept w' = (slept w + (length posts - 1))%nat.
Proof.
  induction posts as [|p rest IH]; intros i w w' Hi; simpl.
  - intros [= <-]. lia.
  - destruct (process_post total i p w) as [w1 o1] eqn:E.
    destruct o1; [|discriminate]. intros H.
    apply process_post_pause in E.
    apply IH in H; [|simpl in Hi; lia]. rewrite H, E.
    simpl in Hi. destruct (Nat.ltb_spec i total); destruct rest; simpl in *;
      lia.
Qed.

(** A run over well-formed posts with printable answers comes to its
    end. *)
Lemma enrich_posts_completes w ls posts :
  files w !! INPUT_FILE = Some ls ->
  Forall2 (fun l p => loads l = Ok p) (List.filter nonblank ls) posts ->
  Forall (fun p => well_formed_post p = true) posts ->
  (forall n c, printable (classify n c) = true) ->
  exists w',
    enrich_posts w = (w', Returned) /\
    files w' = rebuilt (enriched_records (calls w) posts) (files w) /\
    calls w' = (calls w + length posts)%nat /\
    slept w' = (slept w + (length posts - 1))%nat.
Proof.
  intros Hin Hparse Hwf Hp. unfold Enricher.enrich_posts.
  rewrite Hin, (read_posts_nonblank _ _ _ Hparse), cleared_output.
  destruct (run_posts_complete classify dumps (length posts) posts 1
              {| files := delete OUTPUT_FILE (files w);
                 calls := calls w; slept := slept w |} Hwf Hp)
    as (w' & E & Hf & Hc).
  exists w'. split; [exact E|]. cbn [files calls] in Hf, Hc.
  split; [rewrite Hf; apply appended_after_delete|].
  split; [exact Hc|].
  apply run_posts_pauses in E; [exact E|lia].
Qed.

Lemma read_posts_fails pre l post e :
  Forall (fun x => nonblank x = true -> exists p, loads x = Ok p) pre ->
  nonblank l = true -> loads l = Raise e ->
  read_posts (pre ++ l :: post) = Raise e.
Proof.
  intros Hpre Hl He. induction Hpre as [|x r Hx Hr IH]; simpl.
  - now rewrite strip_truthy, Hl, He.
  - rewrite strip_truthy. destruct (nonblank x) eqn:Ex; [|exact IH].
    destruct (Hx eq_refl) as (p & ->). now rewrite IH.
Qed.

Lemma process_post_ill_formed total i p w :
  well_formed_post p = false ->
  process_post total i p w = (w, Raised (abort_exception p)).
Proof.
  unfold well_formed_post, Enricher.process_post.
  destruct p as [| | | | | |d]; try reflexivity.
  intros ->. reflexivity.
Qed.

Lemma run_posts_until_ill_formed total good bad rest : forall i w,
  Forall (fun p => well_formed_post p = true) good ->
  well_formed_post bad = false ->
  (forall n c, printable (classify n c) = true) ->
  exists w',
    run_posts total i (good ++ bad :: rest) w
      = (w', Raised (abort_exception bad)) /\
    files w' = appended (enriched_records (calls w) good) (files w) /\
    calls w' = (calls w + length good)%nat.
Proof.
  induction good as [|p r IH]; intros i w Hwf Hbad Hp; simpl.
  - rewrite (process_post_ill_formed _ _ _ _ Hbad).
    exists w. repeat split; lia.
  - inversion Hwf as [|? ? Hp1 Hrest]; subst.
    destruct p as [| | | | | |d]; try discriminate.
    destruct (process_post_returns classify dumps total i d w Hp1 (Hp _ _))
      as (w1 & E & Hf & Hc).
    rewrite E.
    destruct (IH (S i) w1 Hrest Hbad Hp) as (w' & E' & Hf' & Hc').
    exists w'. split; [exact E'|]. split.
    + rewrite Hf', Hf, Hc. reflexivity.
    + rewrite Hc', Hc. lia.
Qed.

Lemma process_post_returned total i p w w' :
  process_post total i p w = (w', Returned) ->
  exists d, p = JObj d /\
            sliceable (dict_get_default "title" (JStr "") d) = true /\
            calls w' = S (calls w).
Proof.
  unfold Enricher.process_post.
  destruct p as [| | | | | |d]; try discriminate.
  destruct (sliceable _) eqn:Hs; [|discriminate]. cbv zeta.
  destruct (if is_error_description _ then true else _); [|discriminate].
  destruct (i <? total)%nat; intros [= <-]; exists d; auto.
Qed.

(** The sentinel description is returned exactly after a flagged
    answer. *)
Lemma analysis_flagged n t b :
  is_error_description (description (analyze_post n t b))
  = flagged (classify n (content t b)).
Proof.
  unfold Enricher.analyze_post.
  now destruct (classify n (content t b)).
Qed.

Lemma run_posts_counting_agrees total posts : forall i w c,
  fst (run_posts_counting total i posts w c) = run_posts total i posts w.
Proof.
  induction posts as [|p rest IH]; intros i w c; simpl; [reflexivity|].
  destruct (process_post total i p w) as [w1 [|e]]; [apply IH|reflexivity].
Qed.

Lemma run_posts_counting_returned total posts : forall i w c w' c',
  run_posts_counting total i posts w c = (w', Returned, c') ->
  (enriched_count c' + failed_count c'
   = enriched_count c + failed_count c + length posts)%nat /\
  failed_count c'
  = (failed_count c
     + length (List.filter flagged (responses_of (calls w) posts)))%nat.
Proof.
  induction posts as [|p rest IH]; intros i w c w' c'; simpl.
  - intros [= <- <-]. simpl. lia.
  - destruct (process_post total i p w) as [w1 [|e]] eqn:E; [|discriminate].
    apply process_post_returned in E as (d & -> & Hs & Hc).
    intros H. apply IH in H as [H1 H2]. rewrite Hc in H2.
    unfold EnricherSummary.count_post, count_analysis in H1, H2.
    rewrite Hs, analysis_flagged in H1, H2.
    cbn [EnricherSummary.responses_of List.filter].
    destruct (flagged _); cbn [enriched_count failed_count length] in *; lia.
Qed.

(** X1.  Whatever its outcome, a run of [enrich_posts] leaves every file
    other than the output file as it was; in particular it never changes
    its input. *)
Theorem X1_only_output_file_changes w w' o q :
  enrich_posts w = (w', o) ->
  q <> OUTPUT_FILE ->
  files w' !! q = files w !! q.
Proof.
  intros H Hq. apply enrich_posts_files in H as [->|(recs & ->)];
    [reflexivity|now apply rebuilt_other].
Qed.

(** X2.  When a non-blank line of the input does not parse, and the
    non-blank lines before it do, [enrich_posts] ends with the parser's
    exception and the state is exactly what it was: the stale output is
    still there, no request was sent, no pause taken. *)
Theorem X2_parse_error_changes_nothing w pre l post e :
  files w !! INPUT_FILE = Some (pre ++ l :: post) ->
  Forall (fun x => nonblank x = true -> exists p, loads x = Ok p) pre ->
  nonblank l = true ->
  loads l = Raise e ->
  enrich_posts w = (w, Raised e).
Proof.
  intros Hin Hpre Hl He. unfold Enricher.enrich_posts.
  now rewrite Hin, (read_posts_fails _ _ _ _ Hpre Hl He).
Qed.

(** X3.  A run that comes to its end over [n] posts sends exactly [n]
    classification requests and takes exactly [n - 1] pauses (none for an
    empty input): one after each post but the last. *)
Theorem X3_requests_and_pauses w ls posts :
  files w !! INPUT_FILE = Some ls ->
  Forall2 (fun l p => loads l = Ok p) (List.filter nonblank ls) posts ->
  Forall (fun p => well_formed_post p = true) posts ->
  (forall n c, printable (classify n c) = true) ->
  exists w',
    enrich_posts w = (w', Returned) /\
    calls w' = (calls w + length posts)%nat /\
    slept w' = (slept w + (length posts - 1))%nat.
Proof.
  intros Hin Hparse Hwf Hp.
  destruct (enrich_posts_completes w ls posts Hin Hparse Hwf Hp)
    as (w' & E & _ & Hc & Hs).
  eauto.
Qed.

(** X4.  When the input holds a post that the loop cannot handle (not a
    dictionary, or with a title that cannot be sliced) after [k] posts
    that it can, the run ends with [AttributeError] or [TypeError] at that
    post: the old output is gone, the output holds exactly the records of
    the [k] posts before, and [k] requests were sent. *)
Theorem X4_ill_formed_post_aborts w ls good bad rest :
  files w !! INPUT_FILE = Some ls ->
  Forall2 (fun l p => loads l = Ok p) (List.filter nonblank ls)
    (good ++ bad :: rest) ->
  Forall (fun p => well_formed_post p = true) good ->
  well_formed_post bad = false ->
  (forall n c, printable (classify n c) = true) ->
  exists w',
    enrich_posts w = (w', Raised (abort_exception bad)) /\
    files w' = rebuilt (enriched_records (calls w) good) (files w) /\
    lines_of OUTPUT_FILE (files w')
      = map line_of (enriched_records (calls w) good) /\
    length (lines_of OUTPUT_FILE (files w')) = length good /\
    calls w' = (calls w + length good)%nat.
Proof.
  intros Hin Hparse Hwf Hbad Hp. unfold Enricher.enrich_posts.
  rewrite Hin, (read_posts_nonblank _ _ _ Hparse), cleared_output.
  destruct (run_posts_until_ill_formed
              (length (good ++ bad :: rest)) good bad rest 1
              {| files := delete OUTPUT_FILE (files w);
                 calls := calls w; slept := slept w |} Hwf Hbad Hp)
    as (w' & E & Hf & Hc).
  cbn [files calls] in Hf, Hc. rewrite appended_after_delete in Hf.
  exists w'. split; [exact E|]. split; [exact Hf|].
  rewrite Hf, lines_of_rebuilt, length_map,
    (enriched_records_length _ _ _ Hwf).
  auto.
Qed.

(** X5.  The summary of a run is printed only when the loop has come to
    its end, and then its numbers add up: total = successfully analyzed +
    failed = number of posts, and "failed" counts exactly the posts whose
    request raised, returned nothing parsed, or returned the sentinel
    text "Error during analysis" as its description. *)
Theorem X5_summary_accounting w ls posts w' o s :
  files w !! INPUT_FILE = Some ls ->
  read_posts ls = Ok posts ->
  enrich_posts_summary w = (w', o, s) ->
  enrich_posts w = (w', o) /\
  match s with
  | Some (total, enriched, failed) =>
      o = Returned /\ total = length posts /\
      (enriched + failed = total)%nat /\
      failed
      = length (List.filter flagged (responses_of (calls w) posts))
  | None => o <> Returned
  end.
Proof.
  intros Hin Hread.
  unfold EnricherSummary.enrich_posts_summary, Enricher.enrich_posts.
  rewrite Hin, Hread.
  pose proof (run_posts_counting_agrees (length posts) posts 1
                {| files := if file_exists OUTPUT_FILE (files w)
                            then delete OUTPUT_FILE (files w)
                            else files w;
                   calls := calls w; slept := slept w |}
                {| enriched_count := 0; failed_count := 0 |}) as Hag.
  destruct (run_posts_counting _ _ _ _ _) as [[w1 o1] c1] eqn:E.
  simpl in Hag. rewrite <- Hag.
  destruct o1 as [|e]; intros [= <- <- <-].
  - split; [reflexivity|].
    apply run_posts_counting_returned in E as [H1 H2].
    cbn [enriched_count failed_count calls] in H1, H2.
    repeat split; [lia|exact H2].
  - split; [reflexivity|discriminate].
Qed.

(** X6.  When the input file exists and has no line other than blank
    ones, the run returns at once: the output file is removed if it was
    there, and no request is sent. *)
Theorem X6_blank_input_clears_output w ls :
  files w !! INPUT_FILE = Some ls ->
  Forall (fun l => nonblank l = false) ls ->
  enrich_posts w
  = ({| files := delete OUTPUT_FILE (files w);
        calls := calls w; slept := slept w |}, Returned).
Proof.
  intros Hin Hblank. unfold Enricher.enrich_posts.
  rewrite Hin, (read_posts_nonblank loads ls []), cleared_output.
  - reflexivity.
  - rewrite (filter_all_blank _ Hblank). constructor.
Qed.

End WithServices.

Lemma enriched_records_same classify1 classify2 posts : forall n1 n2,
  (forall i c, classify2 (n2 + i)%nat c = classify1 (n1 + i)%nat c) ->
  enriched_records classify2 n2 posts = enriched_records classify1 n1 posts.
Proof.
  induction posts as [|p rest IH]; intros n1 n2 H; [reflexivity|].
  destruct p as [| | | | | |d]; try reflexivity.
  cbn [enriched_records]. f_equal.
  - unfold enriched, analyze_post.
    specialize (H 0%nat). rewrite !Nat.add_0_r in H. now rewrite H.
  - apply IH. intros i c. specialize (H (S i) c).
    now rewrite !Nat.add_succ_r in H.
Qed.

(** X7.  Running the Enricher again over the same input, after a run
    that came to its end, gives an output with the same number of lines,
    whatever the service answers this time; and when the service gives
    the same answers as in the first run, the files after the second run
    are exactly the files after the first. *)
Theorem X7_second_run_rebuilds_output classify1 classify2 loads dumps
    w ls posts :
  files w !! INPUT_FILE = Some ls ->
  Forall2 (fun l p => loads l = Ok p) (List.filter nonblank ls) posts ->
  Forall (fun p => well_formed_post p = true) posts ->
  (forall n c, printable (classify1 n c) = true) ->
  (forall n c, printable (classify2 n c) = true) ->
  exists w1 w2,
    enrich_posts classify1 loads dumps w = (w1, Returned) /\
    enrich_posts classify2 loads dumps w1 = (w2, Returned) /\
    length (lines_of OUTPUT_FILE (files w2))
    = length (lines_of OUTPUT_FILE (files w1)) /\
    ((forall i c,
        classify2 (calls w1 + i)%nat c = classify1 (calls w + i)%nat c) ->
     files w2 = files w1).
Proof.
  intros Hin Hparse Hwf Hp1 Hp2.
  destruct (enrich_posts_completes classify1 loads dumps w ls posts
              Hin Hparse Hwf Hp1) as (w1 & E1 & Hf1 & _).
  assert (Hin1 : files w1 !! INPUT_FILE = Some ls).
  { rewrite Hf1, rebuilt_other by discriminate. exact Hin. }
  destruct (enrich_posts_completes classify2 loads dumps w1 ls posts
              Hin1 Hparse Hwf Hp2) as (w2 & E2 & Hf2 & _).
  rewrite Hf1, rebuilt_again in Hf2.
  exists w1, w2. split; [exact E1|]. split; [exact E2|]. split.
  - rewrite Hf1, Hf2, !lines_of_rebuilt, !length_map.
    now rewrite !(enriched_records_length _ _ _ Hwf).
  - intros Hsame. rewrite Hf1, Hf2.
    now rewrite (enriched_records_same classify1 classify2 posts _ _ Hsame).
Qed.

(** *** The theorems at the sample data *)

Lemma X1_only_output_file_changes_witness :
  files (fst (enrich_posts sample_classify sample_loads sample_dumps
                sample_world)) !! INPUT_FILE
  = files sample_world !! INPUT_FILE.
Proof.
  apply (X1_only_output_file_changes sample_classify sample_loads
           sample_dumps sample_world _
           (snd (enrich_posts sample_classify sample_loads sample_dumps
                   sample_world))).
  - vm_compute. reflexivity.
  - discriminate.
Defined.

Lemma X2_parse_error_changes_nothing_witness :
  enrich_posts sample_classify sample_loads sample_dumps
    sample_world_malformed
  = (sample_world_malformed, Raised JSONDecodeError).
Proof.
  apply (X2_parse_error_changes_nothing sample_classify sample_loads
           sample_dumps sample_world_malformed [[65; 10]%N] [88; 10]%N []).
  - reflexivity.
  - repeat constructor. intros _. eexists. reflexivity.
  - reflexivity.
  - reflexivity.
Defined.

Lemma X3_requests_and_pauses_witness :
  exists w',
    enrich_posts sample_classify sample_loads sample_dumps sample_world
      = (w', Returned) /\
    calls w' = 2%nat /\ slept w' = 1%nat.
Proof.
  apply (X3_requests_and_pauses sample_classify sample_loads sample_dumps
           sample_world [[65; 10]; [32; 10]; [66; 10]]%N
           [JObj sample_post; JObj sample_post2]).
  - reflexivity.
  - vm_compute. repeat constructor.
  - repeat constructor.
  - intros [|[|n]] c; reflexivity.
Defined.

Lemma X4_ill_formed_post_aborts_witness :
  exists w',
    enrich_posts sample_classify sample_loads_more sample_dumps
      sample_world_ill_formed = (w', Raised TypeError) /\
    length (lines_of OUTPUT_FILE (files w')) = 2%nat /\
    calls w' = 2%nat.
Proof.
  destruct (X4_ill_formed_post_aborts sample_classify sample_loads_more
              sample_dumps sample_world_ill_formed
              [[65; 10]; [66; 10]; [67; 10]]%N
              [JObj sample_post; JObj sample_post2]
              (JObj sample_post_null_title) [])
    as (w' & E & _ & _ & Hn & Hc).
  - reflexivity.
  - vm_compute. repeat constructor.
  - repeat constructor.
  - reflexivity.
  - intros [|[|n]] c; reflexivity.
  - exists w'. split; [exact E|]. split; [exact Hn|exact Hc].
Defined.

Lemma X5_summary_accounting_witness :
  enrich_posts sample_classify sample_loads sample_dumps sample_world
  = (fst (enrich_posts sample_classify sample_loads sample_dumps
            sample_world), Returned) /\
  (1 + 1 = 2)%nat /\
  1%nat = length (List.filter flagged
                    (responses_of sample_classify 0
                       [JObj sample_post; JObj sample_post2])).
Proof.
  destruct (X5_summary_accounting sample_classify sample_loads sample_dumps
              sample_world [[65; 10]; [32; 10]; [66; 10]]%N
              [JObj sample_post; JObj sample_post2]
              (fst (enrich_posts sample_classify sample_loads sample_dumps
                      sample_world))
              Returned (Some (2, 1, 1)%nat))
    as (E & _ & _ & Hsum & Hfailed).
  - reflexivity.
  - reflexivity.
  - vm_compute. reflexivity.
  - split; [exact E|]. split; [exact Hsum|exact Hfailed].
Defined.

Lemma X6_blank_input_clears_output_witness :
  enrich_posts sample_classify sample_loads sample_dumps sample_world_blank
  = ({| files := delete OUTPUT_FILE (files sample_world_blank);
        calls := 5; slept := 2 |}, Returned).
Proof.
  apply (X6_blank_input_clears_output sample_classify sample_loads
           sample_dumps sample_world_blank
           [[32; 10]; [9; 32; 10]; [10]]%N).
  - reflexivity.
  - repeat constructor.
Defined.

Lemma X7_second_run_rebuilds_output_witness :
  exists w1 w2,
    enrich_posts sample_classify sample_loads sample_dumps sample_world
      = (w1, Returned) /\
    enrich_posts sample_classify sample_loads sample_dumps w1
      = (w2, Returned) /\
    length (lines_of OUTPUT_FILE (files w2))
    = length (lines_of OUTPUT_FILE (files w1)).
Proof.
  destruct (X7_second_run_rebuilds_output sample_classify sample_classify
              sample_loads sample_dumps sample_world
              [[65; 10]; [32; 10]; [66; 10]]%N
              [JObj sample_post; JObj sample_post2])
    as (w1 & w2 & E1 & E2 & Hlen & _).
  - reflexivity.
  - vm_compute. repeat constructor.
  - repeat constructor.
  - intros [|[|n]] c; reflexivity.
  - intros [|[|n]] c; reflexivity.
  - exists w1, w2. auto.
Defined.

End EnricherRuns.

(** ** The calendar *)

Module CalendarSpec.
Import Calendar.

Local Open Scope Z_scope.

(** Two dates are equal when their three components are. *)
Ltac same_date :=
  apply (f_equal2 pair); [apply (f_equal2 pair)|]; lia.

Lemma div_eucl_unique (a b q r : Z) :
  0 <= r < b -> a = b * q + r -> Z.div_eucl a b = (q, r).
Proof.
  intros Hr E.
  pose proof (Z.div_unique a b q r (or_introl Hr) E).
  pose proof (Z.mod_unique a b q r (or_introl Hr) E).
  unfold Z.div, Z.modulo in *. destruct (Z.div_eucl a b). simpl in *.
  congruence.
Qed.

Lemma zrange_spec (lo : Z) (len : nat) (x : Z) :
  lo <= x < lo + Z.of_nat len -> In x (zrange lo len).
Proof.
  intros H. unfold zrange. apply in_map_iff.
  exists (Z.to_nat (x - lo)). split; [lia|]. apply in_seq. lia.
Qed.

Lemma forallb_zrange (f : Z -> bool) (lo : Z) (len : nat) :
  forallb f (zrange lo len) = true ->
  forall x, lo <= x < lo + Z.of_nat len -> f x = true.
Proof.
  intros H x Hx. rewrite forallb_forall in H. apply H.
  now apply zrange_spec.
Qed.

(** *** Every integer has a position, and [_ord2ymd] reads it *)

Lemma position_exists (n0 : Z) :
  exists n400 n100 n4 n1 r, position n0 n400 n100 n4 n1 r.
Proof.
  exists (n0 / 146097), (n0 mod 146097 / 36524),
         (n0 mod 146097 mod 36524 / 1461),
         (n0 mod 146097 mod 36524 mod 1461 / 365),
         (n0 mod 146097 mod 36524 mod 1461 mod 365).
  unfold position. Z.div_mod_to_equations. lia.
Qed.

Lemma ord2ymd_position (n0 n400 n100 n4 n1 r : Z) :
  position n0 n400 n100 n4 n1 r ->
  ord2ymd (n0 + 1) =
  if (n1 =? 4) || (n100 =? 4)
  then (n400 * 400 + 1 + n100 * 100 + n4 * 4 + n1 - 1, 12, 31)
  else
    let '(m, d) := month_day (leap_flag n100 n4 n1) r in
    (n400 * 400 + 1 + n100 * 100 + n4 * 4 + n1, m, d).
Proof.
  intros (E & Hr & Hn1 & H4 & Hn4 & H100 & Hn100 & H400).
  unfold ord2ymd. replace (n0 + 1 - 1) with n0 by lia.
  rewrite (div_eucl_unique n0 DI400Y n400
             (36524 * n100 + 1461 * n4 + 365 * n1 + r))
    by (unfold DI400Y; lia).
  cbv beta iota zeta.
  rewrite (div_eucl_unique _ DI100Y n100 (1461 * n4 + 365 * n1 + r))
    by (unfold DI100Y; lia).
  cbv beta iota zeta.
  rewrite (div_eucl_unique _ DI4Y n4 (365 * n1 + r)) by (unfold DI4Y; lia).
  cbv beta iota zeta.
  rewrite (div_eucl_unique _ 365 n1 r) by lia.
  cbv beta iota zeta.
  destruct ((n1 =? 4) || (n100 =? 4)); [reflexivity|].
  unfold month_day, leap_flag.
  destruct (_ >? r); reflexivity.
Qed.

(** *** The days of one year *)

Lemma days_valid :
  forallb (day_valid false) (zrange 0 365) = true /\
  forallb (day_valid true) (zrange 0 365) = true.
Proof. split; vm_compute; reflexivity. Qed.

Lemma days_follow :
  forallb (day_follows false) (zrange 0 364) = true /\
  forallb (day_follows true) (zrange 0 364) = true.
Proof. split; vm_compute; reflexivity. Qed.

Lemma leap_flags_agree :
  forallb (fun n100 =>
    forallb (fun n4 =>
      forallb (leap_flag_agrees n100 n4) (zrange 0 4))
      (zrange 0 25))
    (zrange 0 4) = true.
Proof. vm_compute. reflexivity. Qed.

Lemma is_leap_shift (y q : Z) : is_leap (y + 400 * q) = is_leap y.
Proof.
  unfold is_leap.
  replace (y + 400 * q) with (y + (100 * q) * 4) at 1 by ring.
  replace (y + 400 * q) with (y + (4 * q) * 100) at 1 by ring.
  replace (y + 400 * q) with (y + q * 400) by ring.
  rewrite !Z.mod_add by lia. reflexivity.
Qed.

(** The flag computed by [_ord2ymd] is the leap year test of the year it
    returns. *)
Lemma is_leap_position (n400 n100 n4 n1 : Z) :
  0 <= n100 <= 3 -> 0 <= n4 <= 24 -> 0 <= n1 <= 3 ->
  is_leap (n400 * 400 + 1 + n100 * 100 + n4 * 4 + n1)
  = leap_flag n100 n4 n1.
Proof.
  intros H100 H4 H1.
  replace (n400 * 400 + 1 + n100 * 100 + n4 * 4 + n1)
    with ((1 + n100 * 100 + n4 * 4 + n1) + 400 * n400) by ring.
  rewrite is_leap_shift.
  pose proof (forallb_zrange _ _ _ leap_flags_agree n100 ltac:(lia)) as Ha.
  cbv beta in Ha.
  pose proof (forallb_zrange _ _ _ Ha n4 ltac:(lia)) as Hb.
  cbv beta in Hb.
  pose proof (forallb_zrange _ _ _ Hb n1 ltac:(lia)) as Hc.
  now apply Bool.eqb_prop in Hc.
Qed.

Lemma days_in_month_length (y m : Z) (leapyear : bool) :
  is_leap y = leapyear -> days_in_month y m = month_length leapyear m.
Proof. intros <-. reflexivity. Qed.

(** Inside a year: the next day number is the next day. *)
Lemma next_day_in_year (y : Z) (leapyear : bool) (r : Z) :
  is_leap y = leapyear -> 0 <= r < 364 ->
  (let '(m, d) := month_day leapyear (r + 1) in (y, m, d))
  = next_day (let '(m, d) := month_day leapyear r in (y, m, d)).
Proof.
  intros Hl Hr.
  assert (Hf : day_follows leapyear r = true).
  { destruct leapyear;
      [apply (forallb_zrange _ _ _ (proj2 days_follow))
      |apply (forallb_zrange _ _ _ (proj1 days_follow))]; lia. }
  unfold day_follows in Hf.
  destruct (month_day leapyear r) as [m d].
  destruct (month_day leapyear (r + 1)) as [m' d'].
  unfold next_day. rewrite (days_in_month_length y m leapyear Hl).
  destruct (d <? month_length leapyear m).
  - apply Bool.andb_true_iff in Hf as [Hm Hd].
    apply Z.eqb_eq in Hm, Hd. now subst.
  - apply Bool.andb_true_iff in Hf as [Hf Hd].
    apply Bool.andb_true_iff in Hf as [Hlt Hm].
    apply Z.eqb_eq in Hm, Hd. rewrite Hlt. now subst.
Qed.

Lemma valid_in_year (y : Z) (leapyear : bool) (r : Z) :
  is_leap y = leapyear -> 0 <= r < 365 ->
  valid_date (let '(m, d) := month_day leapyear r in (y, m, d)).
Proof.
  intros Hl Hr.
  assert (Hv : day_valid leapyear r = true).
  { destruct leapyear;
      [apply (forallb_zrange _ _ _ (proj2 days_valid))
      |apply (forallb_zrange _ _ _ (proj1 days_valid))]; lia. }
  unfold day_valid in Hv. destruct (month_day leapyear r) as [m d].
  unfold valid_date. rewrite (days_in_month_length y m leapyear Hl).
  repeat (apply Bool.andb_true_iff in Hv as [Hv ?]). lia.
Qed.

(** *** One day later *)

Lemma december_31 (y : Z) : next_day (y, 12, 31) = (y + 1, 1, 1).
Proof. reflexivity. Qed.

Lemma december_30 (y : Z) : next_day (y, 12, 30) = (y, 12, 31).
Proof. reflexivity. Qed.

Lemma prev_next_day (dt : date) :
  valid_date dt -> prev_day (next_day dt) = dt.
Proof.
  destruct dt as [[y m] d]. unfold valid_date, next_day, prev_day.
  intros [Hm Hd].
  destruct (Z.ltb_spec d (days_in_month y m)).
  - destruct (Z.ltb_spec 1 (d + 1)); [|lia].
    same_date.
  - destruct (Z.ltb_spec m 12).
    + cbn [Z.ltb Z.compare]. destruct (Z.ltb_spec 1 (m + 1)); [|lia].
      replace (m + 1 - 1) with m by lia. same_date.
    + assert (m = 12) as -> by lia.
      unfold days_in_month in *. cbn in *.
      same_date.
Qed.

(** The date of the next ordinal is the next day, and the date of an
    ordinal is a date of the calendar. *)
Lemma ord2ymd_next (n : Z) :
  ord2ymd (n + 1) = next_day (ord2ymd n) /\ valid_date (ord2ymd n).
Proof.
  destruct (position_exists (n - 1)) as (a & b & c & d & r & P).
  pose proof P as (E & Hr & Hd & H4 & Hc & H100 & Hb & H400).
  replace n with (n - 1 + 1) at 2 3 by lia.
  rewrite (ord2ymd_position _ _ _ _ _ _ P).
  replace (n + 1) with (n - 1 + 1 + 1) by lia.
  assert (Hcases :
    (d <= 3 /\ b <= 3 /\ r < 364 /\ position (n - 1 + 1) a b c d (r + 1)) \/
    (d < 3 /\ b <= 3 /\ r = 364 /\ position (n - 1 + 1) a b c (d + 1) 0) \/
    (d = 3 /\ b <= 3 /\ r = 364 /\ c < 24 /\
       position (n - 1 + 1) a b c 4 0) \/
    (d = 3 /\ b < 3 /\ r = 364 /\ c = 24 /\
       position (n - 1 + 1) a (b + 1) 0 0 0) \/
    (d = 3 /\ b = 3 /\ r = 364 /\ c = 24 /\
       position (n - 1 + 1) a 4 0 0 0) \/
    (d = 4 /\ b <= 3 /\ r = 0 /\ c < 24 /\
       position (n - 1 + 1) a b (c + 1) 0 0) \/
    (b = 4 /\ c = 0 /\ d = 0 /\ r = 0 /\
       position (n - 1 + 1) (a + 1) 0 0 0 0)).
  { assert (Hpos : forall x n400 n100 n4 n1 r',
              x = 146097 * n400 + 36524 * n100 + 1461 * n4 + 365 * n1 + r' ->
              0 <= r' < 365 -> 0 <= n1 -> 365 * n1 + r' < 1461 ->
              0 <= n4 -> 1461 * n4 + 365 * n1 + r' < 36524 ->
              0 <= n100 ->
              36524 * n100 + 1461 * n4 + 365 * n1 + r' < 146097 ->
              position x n400 n100 n4 n1 r').
    { intros. unfold position. tauto. }
    destruct (Z.eq_dec b 4) as [->|Hb4].
    { do 6 right. assert (c = 0) by lia. assert (d = 0) by lia.
      assert (r = 0) by lia. subst.
      repeat (split; [reflexivity|]). apply Hpos; lia. }
    assert (b <= 3) by lia.
    destruct (Z.eq_dec d 4) as [->|Hd4].
    { do 5 right. left. assert (r = 0) by lia. assert (c < 24) by lia.
      subst. repeat (split; [reflexivity || assumption|]).
      apply Hpos; lia. }
    assert (d <= 3) by lia.
    destruct (Z_lt_dec r 364) as [Hlt|Hge].
    { left. repeat (split; [assumption|]). apply Hpos; lia. }
    assert (r = 364) by lia. subst r.
    destruct (Z_lt_dec d 3) as [Hd3|Hd3].
    { right. left. repeat (split; [reflexivity || assumption|]).
      apply Hpos; lia. }
    assert (d = 3) by lia. subst d.
    destruct (Z_lt_dec c 24) as [Hc24|Hc24].
    { do 2 right. left. repeat (split; [reflexivity || assumption|]).
      apply Hpos; lia. }
    assert (c = 24) by lia. subst c.
    destruct (Z_lt_dec b 3) as [Hb3'|Hb3'].
    { do 3 right. left. repeat (split; [reflexivity || assumption|]).
      apply Hpos; lia. }
    assert (b = 3) by lia. subst b.
    do 4 right. left. repeat (split; [reflexivity|]). apply Hpos; lia. }
  assert (Hleap : d <= 3 -> b <= 3 ->
            is_leap (a * 400 + 1 + b * 100 + c * 4 + d) = leap_flag b c d).
  { intros. apply is_leap_position; lia. }
  assert (Hno : forall x y, x <= 3 -> y <= 3 -> (x =? 4) || (y =? 4) = false).
  { intros x y Hx Hy. apply Bool.orb_false_iff. split; apply Z.eqb_neq; lia. }
  assert (Hjan : forall l, month_day l 0 = (1, 1)) by (now intros []).
  destruct Hcases as [(Hd3 & Hb3 & Hr' & P')|[(Hd3 & Hb3 & -> & P')|
    [(-> & Hb3 & -> & Hc' & P')|[(-> & Hb3 & -> & -> & P')|
    [(-> & -> & -> & -> & P')|[(-> & Hb3 & -> & Hc' & P')|
     (-> & -> & -> & -> & P')]]]]]];
    rewrite (ord2ymd_position _ _ _ _ _ _ P').
  - rewrite (Hno d b) by lia. split.
    + apply next_day_in_year; [apply Hleap|]; lia.
    + apply valid_in_year; [apply Hleap|]; lia.
  - rewrite (Hno d b), (Hno (d + 1) b), Hjan by lia.
    assert (Hf : leap_flag b c d = false).
    { unfold leap_flag. now replace (d =? 3) with false
        by (symmetry; apply Z.eqb_neq; lia). }
    split.
    + rewrite Hf. change (month_day false 364) with (12, 31).
      cbv beta iota. rewrite december_31. same_date.
    + apply valid_in_year; [apply Hleap|]; lia.
  - rewrite (Hno 3 b) by lia.
    assert (Hf : leap_flag b c 3 = true).
    { unfold leap_flag. now replace (c =? 24) with false
        by (symmetry; apply Z.eqb_neq; lia). }
    change ((4 =? 4) || (b =? 4)) with true. cbv beta iota. split.
    + rewrite Hf. change (month_day true 364) with (12, 30).
      cbv beta iota. rewrite december_30. same_date.
    + apply valid_in_year; [apply Hleap|]; lia.
  - rewrite (Hno 3 b), (Hno 0 (b + 1)), Hjan by lia.
    assert (Hf : leap_flag b 24 3 = false).
    { unfold leap_flag. now replace (b =? 3) with false
        by (symmetry; apply Z.eqb_neq; lia). }
    split.
    + rewrite Hf. change (month_day false 364) with (12, 31).
      cbv beta iota. rewrite december_31. same_date.
    + apply valid_in_year; [apply Hleap|]; lia.
  - change ((0 =? 4) || (4 =? 4)) with true.
    change ((3 =? 4) || (3 =? 4)) with false. cbv beta iota. split.
    + change (month_day (leap_flag 3 24 3) 364) with (12, 30).
      cbv beta iota. rewrite december_30. same_date.
    + apply valid_in_year; [apply Hleap|]; lia.
  - rewrite (Hno 0 b), Hjan by lia.
    change ((4 =? 4) || (b =? 4)) with true. cbv beta iota. split.
    + rewrite december_31. same_date.
    + unfold valid_date. cbn. lia.
  - change ((0 =? 4) || (0 =? 4)) with false.
    change ((0 =? 4) || (4 =? 4)) with true. rewrite Hjan.
    cbv beta iota. split.
    + rewrite december_31. same_date.
    + unfold valid_date. cbn. lia.
Qed.

(** The date of the next ordinal is the next day, for every ordinal, and
    the date of an ordinal is the day before the date of the next. *)
Lemma ord2ymd_step (n : Z) :
  ord2ymd (n + 1) = next_day (ord2ymd n) /\
  ord2ymd n = prev_day (ord2ymd (n + 1)).
Proof.
  destruct (ord2ymd_next n) as [Hn Hv]. split; [exact Hn|].
  rewrite Hn. symmetry. now apply prev_next_day.
Qed.

(** [_ord2ymd] counts the calendar from 1 January 1970. *)
Lemma ord2ymd_calendar (k : Z) :
  ord2ymd (EPOCH_ORDINAL + k) = calendar_date k.
Proof.
  destruct k as [|p|p]; cbn [calendar_date].
  - reflexivity.
  - induction p as [|p IH] using Pos.peano_ind.
    + reflexivity.
    + rewrite Pos.iter_succ, <- IH, Pos2Z.inj_succ.
      replace (EPOCH_ORDINAL + Z.succ (Z.pos p))
        with (EPOCH_ORDINAL + Z.pos p + 1) by lia.
      apply ord2ymd_step.
  - induction p as [|p IH] using Pos.peano_ind.
    + reflexivity.
    + rewrite Pos.iter_succ, <- IH.
      replace (Z.neg (Pos.succ p)) with (Z.neg p - 1) by lia.
      replace (EPOCH_ORDINAL + Z.neg p)
        with (EPOCH_ORDINAL + (Z.neg p - 1) + 1) by lia.
      apply ord2ymd_step.
Qed.

(** *** The text of a date *)

Lemma digit_value_digit (n : Z) : digit_value (digit n) = Some (n mod 10).
Proof.
  unfold digit.
  assert (H : 0 <= n mod 10 < 10) by (apply Z.mod_pos_bound; lia).
  destruct (n mod 10) as [|p|p]; [reflexivity| |lia].
  do 9 (destruct p as [p|p|]; try lia; try reflexivity).
Qed.

Lemma decimal2 (n : Z) : 0 <= n < 100 -> 10 * (n / 10 mod 10) + n mod 10 = n.
Proof. intros H. Z.div_mod_to_equations. lia. Qed.

Lemma decimal4 (n : Z) :
  0 <= n < 10000 ->
  1000 * (n / 1000 mod 10) + 100 * (n / 100 mod 10)
  + 10 * (n / 10 mod 10) + n mod 10 = n.
Proof. intros H. Z.div_mod_to_equations. lia. Qed.

(** Reading what [isoformat] wrote gives the date back, and the text has
    ten characters. *)
Lemma read_iso_isoformat (y m d : Z) :
  0 <= y < 10000 -> 0 <= m < 100 -> 0 <= d < 100 ->
  read_iso (isoformat (y, m, d)) = Some (y, m, d) /\
  String.length (isoformat (y, m, d)) = 10%nat.
Proof.
  intros Hy Hm Hd. split; [|reflexivity].
  unfold read_iso, isoformat, pad4, pad2.
  cbv [String.append list_ascii_of_string].
  change (Ascii.eqb "-" "-") with true. cbn [andb].
  rewrite !digit_value_digit.
  now rewrite (decimal4 y Hy), (decimal2 m Hm), (decimal2 d Hd).
Qed.

(** The dates of the ordinals [datetime] accepts are in the years 1 to
    9999. *)
Lemma ord2ymd_year (n : Z) :
  1 <= n <= MAX_ORDINAL ->
  1 <= fst (fst (ord2ymd n)) <= 9999.
Proof.
  unfold MAX_ORDINAL. intros Hn.
  destruct (position_exists (n - 1)) as (n400 & n100 & n4 & n1 & r & Hpos).
  pose proof (ord2ymd_position _ _ _ _ _ _ Hpos) as E.
  replace (n - 1 + 1) with n in E by lia. rewrite E. clear E.
  destruct Hpos as (E & Hr & Hn1 & H4 & Hn4 & H100 & Hn100 & H400).
  destruct ((n1 =? 4) || (n100 =? 4)) eqn:Hs.
  - cbn [fst]. lia.
  - destruct (month_day _ r) as [m d]. cbn [fst].
    apply Bool.orb_false_iff in Hs as [H1%Z.eqb_neq H2%Z.eqb_neq]. lia.
Qed.

Lemma days_in_month_bound (y m : Z) : days_in_month y m <= 31.
Proof.
  unfold days_in_month. destruct (m =? 2); [now destruct (is_leap y)|].
  destruct m as [|p|p]; try (cbn; lia).
  do 4 (destruct p as [p|p|]; try (cbn; lia)).
Qed.

(** The text [isoformat] gives for the date of such an ordinal reads back
    as that date. *)
Lemma ord2ymd_text (n : Z) :
  1 <= n <= MAX_ORDINAL ->
  read_iso (isoformat (ord2ymd n)) = Some (ord2ymd n) /\
  String.length (isoformat (ord2ymd n)) = 10%nat.
Proof.
  intros Hn. pose proof (ord2ymd_year n Hn) as Hy.
  destruct (ord2ymd_next n) as [_ Hv].
  destruct (ord2ymd n) as [[y m] d]. cbn [fst] in Hy.
  unfold valid_date in Hv. pose proof (days_in_month_bound y m).
  apply read_iso_isoformat; lia.
Qed.

End CalendarSpec.

(** ** The Collector *)

Module CollectorSpec.
Import Collector.

(** [safe_author] never resolves an identifier. *)
Lemma safe_author_id (a : author) : fst (safe_author a) = None.
Proof. destruct a as [|[e| |s]]; reflexivity. Qed.

Lemma or_deleted_nonempty (s : string) : or_deleted s <> "".
Proof.
  unfold or_deleted. destruct (String.eqb_spec s ""); [discriminate|assumption].
Qed.

Lemma safe_author_name_nonempty (a : author) : snd (safe_author a) <> "".
Proof.
  destruct a as [|[e| |s]]; simpl; try discriminate. apply or_deleted_nonempty.
Qed.

(** [iso_day], when it returns, gives the calendar date of the day the
    time stamp falls in. *)
Lemma iso_day_calendar (ts : Z) (day : string) :
  iso_day ts = Ok day ->
  day = Calendar.isoformat (Calendar.calendar_date (ts / 86400)).
Proof.
  unfold iso_day. destruct (_ && _)%bool; [|discriminate].
  intros [= <-]. now rewrite CalendarSpec.ord2ymd_calendar.
Qed.

(** The text it gives is the ISO text of that date: ten characters
    that read back as its year, month and day. *)
Lemma iso_day_text (ts : Z) (day : string) :
  iso_day ts = Ok day ->
  Calendar.read_iso day = Some (Calendar.calendar_date (ts / 86400)) /\
  String.length day = 10%nat.
Proof.
  unfold iso_day.
  destruct (_ && _)%bool eqn:Hr; [|discriminate]. intros [= <-].
  apply andb_prop in Hr as [H1%Z.leb_le H2%Z.leb_le].
  rewrite <- CalendarSpec.ord2ymd_calendar.
  apply CalendarSpec.ord2ymd_text. lia.
Qed.

(** It returns for every time stamp of the years 1 to 9999. *)
Lemma iso_day_in_range (ts : Z) :
  (-62135596800 <= ts <= 253402300799)%Z ->
  iso_day ts = Ok (Calendar.isoformat (Calendar.calendar_date (ts / 86400))).
Proof.
  intros H. unfold iso_day.
  assert (-719162 <= ts / 86400 <= 2932896)%Z as Hd.
  { split.
    - apply Z.div_le_lower_bound; lia.
    - apply Z.lt_succ_r, Z.div_lt_upper_bound; lia. }
  unfold Calendar.EPOCH_ORDINAL, Calendar.MAX_ORDINAL.
  replace ((1 <=? 719163 + ts / 86400)%Z
           && (719163 + ts / 86400 <=? 3652059)%Z) with true.
  - now rewrite <- CalendarSpec.ord2ymd_calendar.
  - symmetry. apply Bool.andb_true_iff. split; apply Z.leb_le; lia.
Qed.

(** *** What is left of an identifier after the first underscore *)

Lemma split_underscore_none (s : string) :
  has_underscore s = false -> split_underscore s = [s].
Proof.
  induction s as [|c r IH]; simpl; [reflexivity|].
  destruct (Ascii.eqb c "_"); [discriminate|]. simpl.
  intros H. now rewrite (IH H).
Qed.

Lemma split_underscore_first (p b : string) :
  has_underscore p = false ->
  split_underscore (p +:+ "_" +:+ b) = [p; b].
Proof.
  induction p as [|c r IH]; simpl; [reflexivity|].
  destruct (Ascii.eqb c "_"); [discriminate|]. simpl.
  intros H. now rewrite (IH H).
Qed.

Lemma requested_app (l k : list string) :
  requested (l ++ k) = requested l ++ requested k.
Proof. apply List.filter_app. Qed.

(** *** Runs only extend the files *)

Lemma no_users (users : list UserRec.t) (looked : list string)
    (seen seen' : gset string) :
  exists us,
    users = users ++ us /\
    Forall user_built us /\
    NoDup (UserRec.name <$> us) /\
    (forall n, n ∈ (UserRec.name <$> us) -> (n ∉ seen) /\ (n ∈ seen')) /\
    looked = looked ++ requested (UserRec.name <$> us).
Proof.
  exists []. rewrite !app_nil_r.
  split; [reflexivity|]. split; [constructor|]. split; [constructor|].
  split; [|reflexivity]. intros n Hn. inversion Hn.
Qed.

(** Splits [extends] into its five parts. *)
Ltac split_extends :=
  unfold extends;
  cbn [now_world seen_users posts_file comments_file users_file
       subreddits_file lookups];
  split; [|split; [|split; [|split]]].

Lemma extends_refl feed st : extends feed st st.
Proof.
  split_extends.
  - exists []. now rewrite app_nil_r.
  - exists []. now rewrite app_nil_r.
  - apply no_users.
  - reflexivity.
  - reflexivity.
Qed.

Lemma extends_trans feed st1 st2 st3 :
  extends feed st1 st2 -> extends feed st2 st3 -> extends feed st1 st3.
Proof.
  intros ((ps1 & Ep1 & Fp1) & (cs1 & Ec1 & Fc1)
          & (us1 & Eu1 & Fu1 & Nd1 & Hs1 & El1) & Hsub1 & Esr1)
         ((ps2 & Ep2 & Fp2) & (cs2 & Ec2 & Fc2)
          & (us2 & Eu2 & Fu2 & Nd2 & Hs2 & El2) & Hsub2 & Esr2).
  split_extends.
  - exists (ps1 ++ ps2). rewrite Ep2, Ep1, app_assoc.
    split; [reflexivity|now apply Forall_app].
  - exists (cs1 ++ cs2). rewrite Ec2, Ec1, app_assoc.
    split; [reflexivity|now apply Forall_app].
  - exists (us1 ++ us2). rewrite Eu2, Eu1, app_assoc.
    split; [reflexivity|]. split; [now apply Forall_app|].
    rewrite fmap_app. split; [|split].
    + apply NoDup_app. split; [exact Nd1|]. split; [|exact Nd2].
      intros n Hn1 Hn2. apply (Hs2 n Hn2). now apply Hs1.
    + intros n [Hn|Hn]%elem_of_app.
      * destruct (Hs1 n Hn) as [Hout Hin].
        split; [assumption|exact (elem_of_weaken _ _ _ Hin Hsub2)].
      * destruct (Hs2 n Hn) as [Hout Hin].
        split; [|assumption].
        intros Hin1. exact (Hout (elem_of_weaken _ _ _ Hin1 Hsub1)).
    + rewrite El2, El1, requested_app, app_assoc. reflexivity.
  - etrans; eassumption.
  - congruence.
Qed.

Section WithSource.

Variable redditor : string -> redditor_info.

#[local] Abbreviation fetch_user_meta := (fetch_user_meta redditor).
#[local] Abbreviation emit_user := (emit_user redditor).
#[local] Abbreviation process_comment := (process_comment redditor).
#[local] Abbreviation process_comments := (process_comments redditor).
#[local] Abbreviation process_submission := (process_submission redditor).
#[local] Abbreviation process_submissions := (process_submissions redditor).
#[local] Abbreviation main := (main redditor).

(** A reputation request is made for every name but "[deleted]". *)
Lemma fetch_user_meta_lookups name rid looked :
  name <> "" ->
  snd (fetch_user_meta name rid looked) = looked ++ requested [name].
Proof.
  intros Hne. unfold Collector.fetch_user_meta, requested. simpl.
  destruct (String.eqb_spec name ""); [contradiction|]. simpl.
  destruct (String.eqb name "[deleted]"); simpl; [now rewrite app_nil_r|].
  destruct (redditor name) as [e|lk ck cr]; [reflexivity|].
  destruct (created_or_none cr); reflexivity.
Qed.

Lemma emit_user_extends feed name st :
  name <> "" -> name ∉ seen_users st ->
  extends feed st (emit_user None name st).
Proof.
  intros Hne Hseen. unfold Collector.emit_user.
  pose proof (fetch_user_meta_lookups name None
                (lookups (now_world st)) Hne) as Hl.
  destruct (fetch_user_meta name None (lookups (now_world st)))
    as [meta looked]. simpl in Hl. subst looked.
  split_extends.
  - exists []. now rewrite app_nil_r.
  - exists []. now rewrite app_nil_r.
  - exists [user_rec None name meta]. split; [reflexivity|].
    split; [repeat constructor; now exists name, meta|].
    split; [apply NoDup_singleton|].
    split; [|reflexivity].
    intros n Hn. apply list_elem_of_singleton in Hn as ->.
    split; [assumption|set_solver].
  - set_solver.
  - reflexivity.
Qed.

Lemma process_comment_extends feed s node st st' o :
  s ∈ feed -> node ∈ Submission.comments s ->
  process_comment (Submission.id s) node st = (st', o) ->
  extends feed st st'.
Proof.
  intros Hs Hnode. unfold Collector.process_comment.
  destruct node as [|c]; [intros [= <- <-]; apply extends_refl|].
  pose proof (safe_author_id (Comment.author c)) as Hid.
  pose proof (safe_author_name_nonempty (Comment.author c)) as Hname.
  destruct (safe_author (Comment.author c)) as [ca_id ca_name].
  simpl in Hid, Hname. subst ca_id.
  destruct (iso_day (Comment.created_utc c)) as [day|e] eqn:Eday;
    [|intros [= <- <-]; apply extends_refl].
  set (st1 := {| now_world := _; seen_users := seen_users st |}).
  assert (H1 : extends feed st st1).
  { unfold st1. split_extends; try reflexivity.
    - exists []. now rewrite app_nil_r.
    - exists [comment_rec (Submission.id s) c day]. split; [reflexivity|].
      repeat constructor. now exists s, c, day.
    - apply no_users. }
  destruct (negb (String.eqb ca_name "")
            && negb (bool_decide (ca_name ∈ seen_users st))
            && negb (String.eqb ca_name "[deleted]"))%bool eqn:Hc;
    intros [= <- <-]; [|exact H1].
  apply (extends_trans _ _ st1); [exact H1|].
  apply emit_user_extends; [exact Hname|].
  apply Bool.andb_true_iff in Hc as [Hc _].
  apply Bool.andb_true_iff in Hc as [_ Hc].
  apply Bool.negb_true_iff, bool_decide_eq_false in Hc. exact Hc.
Qed.

Lemma process_comments_extends feed s nodes : forall st st' o,
  s ∈ feed -> nodes ⊆ Submission.comments s ->
  process_comments (Submission.id s) nodes st = (st', o) ->
  extends feed st st'.
Proof.
  induction nodes as [|node rest IH]; intros st st' o Hs Hsub; simpl.
  - intros [= <- <-]. apply extends_refl.
  - destruct (process_comment (Submission.id s) node st) as [st1 o1] eqn:E.
    apply (process_comment_extends feed) in E; [|exact Hs|set_solver].
    destruct o1.
    + intros H. apply (extends_trans _ _ st1); [exact E|].
      apply (IH _ _ _ Hs) in H; [exact H|set_solver].
    + intros [= <- <-]. exact E.
Qed.

Lemma process_submission_extends feed s st st' o :
  s ∈ feed ->
  process_submission s st = (st', o) ->
  extends feed st st'.
Proof.
  intros Hs. unfold Collector.process_submission.
  pose proof (safe_author_id (Submission.author s)) as Hid.
  pose proof (safe_author_name_nonempty (Submission.author s)) as Hname.
  destruct (safe_author (Submission.author s)) as [a_id a_name].
  simpl in Hid, Hname. subst a_id.
  destruct (iso_day (Submission.created_utc s)) as [day|e] eqn:Eday;
    [|intros [= <- <-]; apply extends_refl].
  set (st1 := {| now_world := _; seen_users := seen_users st |}).
  assert (H1 : extends feed st st1).
  { unfold st1. split_extends; try reflexivity.
    - exists [post_rec s day]. split; [reflexivity|].
      repeat constructor. now exists s, day.
    - exists []. now rewrite app_nil_r.
    - apply no_users. }
  cbv zeta.
  set (st2 := if (_ && _)%bool then _ else st1).
  assert (H2 : extends feed st st2).
  { unfold st2.
    destruct (negb (String.eqb a_name "")
              && negb (bool_decide (a_name ∈ seen_users st)))%bool eqn:Hc;
      [|exact H1].
    apply (extends_trans _ _ st1); [exact H1|].
    apply emit_user_extends; [exact Hname|].
    apply Bool.andb_true_iff in Hc as [_ Hc].
    apply Bool.negb_true_iff, bool_decide_eq_false in Hc. exact Hc. }
  intros H. apply (extends_trans _ _ st2); [exact H2|].
  apply (process_comments_extends feed s) in H; [exact H|exact Hs|done].
Qed.

Lemma process_submissions_extends feed subs : forall st st' o,
  subs ⊆ feed ->
  process_submissions subs st = (st', o) ->
  extends feed st st'.
Proof.
  induction subs as [|s rest IH]; intros st st' o Hsub; simpl.
  - intros [= <- <-]. apply extends_refl.
  - destruct (process_submission s st) as [st1 o1] eqn:E.
    apply (process_submission_extends feed) in E; [|set_solver].
    destruct o1.
    + intros H. apply (extends_trans _ _ st1); [exact E|].
      apply IH in H; [exact H|set_solver].
    + intros [= <- <-]. exact E.
Qed.

(** The records a run of [main] adds to the files. *)
Lemma main_records sr fetched_at w w' o :
  main sr fetched_at w = (w', o) ->
  exists ps cs us,
    posts_file w' = posts_file w ++ ps /\
    Forall (post_built (firstn POST_LIMIT (Subreddit.new sr))) ps /\
    comments_file w' = comments_file w ++ cs /\
    Forall (comment_built (firstn POST_LIMIT (Subreddit.new sr))) cs /\
    users_file w' = users_file w ++ us /\
    Forall user_built us /\
    NoDup (UserRec.name <$> us) /\
    lookups w' = lookups w ++ requested (UserRec.name <$> us).
Proof.
  unfold Collector.main.
  destruct (created_or_none (Subreddit.created_utc sr)) as [created|e].
  2:{ intros [= <- <-]. exists [], [], []. rewrite !app_nil_r.
      repeat split; constructor. }
  destruct (process_submissions _ _) as [st o1] eqn:E.
  intros [= <- <-].
  apply (process_submissions_extends
           (firstn POST_LIMIT (Subreddit.new sr))) in E; [|done].
  destruct E as ((ps & Ep & Fp) & (cs & Ec & Fc)
                 & (us & Eu & Fu & Nd & _ & El) & _ & _).
  cbn [now_world posts_file comments_file users_file lookups] in *.
  exists ps, cs, us. repeat split; assumption.
Qed.

(** C5.  In every Post record and every Comment record that a run of the
    Collector writes, [iso_day] is [iso_day(created_utc)] for the
    [created_utc] stored in the same record, and that is the ISO text of
    the calendar date of the day, counted from 1 January 1970, in which
    the time stamp falls: ten characters, [YYYY-MM-DD], that read back
    as the year, the month and the day of that date. *)
Theorem C5_iso_day_from_created_utc sr fetched_at w w' o :
  main sr fetched_at w = (w', o) ->
  exists ps cs,
    posts_file w' = posts_file w ++ ps /\
    comments_file w' = comments_file w ++ cs /\
    Forall (fun r =>
              iso_day (PostRec.created_utc r) = Ok (PostRec.iso_day r) /\
              PostRec.iso_day r =
                Calendar.isoformat
                  (Calendar.calendar_date (PostRec.created_utc r / 86400)) /\
              Calendar.read_iso (PostRec.iso_day r)
              = Some (Calendar.calendar_date (PostRec.created_utc r / 86400)) /\
              String.length (PostRec.iso_day r) = 10%nat)
           ps /\
    Forall (fun r =>
              iso_day (CommentRec.created_utc r) = Ok (CommentRec.iso_day r) /\
              CommentRec.iso_day r =
                Calendar.isoformat
                  (Calendar.calendar_date (CommentRec.created_utc r / 86400)) /\
              Calendar.read_iso (CommentRec.iso_day r)
              = Some (Calendar.calendar_date
                        (CommentRec.created_utc r / 86400)) /\
              String.length (CommentRec.iso_day r) = 10%nat)
           cs.
Proof.
  intros H. apply main_records in H
    as (ps & cs & us & Ep & Fp & Ec & Fc & _).
  exists ps, cs. split; [exact Ep|]. split; [exact Ec|]. split.
  - eapply Forall_impl; [exact Fp|].
    intros r (s & day & _ & Hday & ->). cbn [post_rec PostRec.created_utc
                                              PostRec.iso_day].
    split; [exact Hday|]. split; [now apply iso_day_calendar|].
    now apply iso_day_text.
  - eapply Forall_impl; [exact Fc|].
    intros r (s & c & day & _ & _ & Hday & ->).
    cbn [comment_rec CommentRec.created_utc CommentRec.iso_day].
    split; [exact Hday|]. split; [now apply iso_day_calendar|].
    now apply iso_day_text.
Qed.

(** C6.  The stored [parent_id] is computed from the source identifier
    alone: null when there is none (or it is empty); what follows the
    first underscore when there is one; the identifier itself when it has
    no underscore.  Every Comment record written by a run stores the
    [parent_id] so computed from its source comment. *)
Theorem C6_parent_id_prefix_removed :
  stored_parent_id None = None /\
  stored_parent_id (Some "") = None /\
  (forall p b, has_underscore p = false ->
     stored_parent_id (Some (p +:+ "_" +:+ b)) = Some b) /\
  (forall s, s <> "" -> has_underscore s = false ->
     stored_parent_id (Some s) = Some s) /\
  (forall sr fetched_at w w' o,
     main sr fetched_at w = (w', o) ->
     exists cs,
       comments_file w' = comments_file w ++ cs /\
       Forall (fun r =>
                 exists s c,
                   s ∈ firstn POST_LIMIT (Subreddit.new sr) /\
                   AComment c ∈ Submission.comments s /\
                   CommentRec.id r = Comment.id c /\
                   CommentRec.parent_id r
                     = stored_parent_id (Comment.parent_id c)) cs).
Proof.
  split; [reflexivity|]. split; [reflexivity|]. split; [|split].
  - intros p b Hp. unfold stored_parent_id.
    rewrite (split_underscore_first p b Hp).
    destruct p; reflexivity.
  - intros s Hs Hu. unfold stored_parent_id.
    rewrite (split_underscore_none s Hu).
    destruct (String.eqb_spec s ""); [contradiction|reflexivity].
  - intros sr fetched_at w w' o H.
    apply main_records in H as (ps & cs & us & _ & _ & Ec & Fc & _).
    exists cs. split; [exact Ec|].
    eapply Forall_impl; [exact Fc|].
    intros r (s & c & day & Hs & Hc & _ & ->). exists s, c.
    repeat split; assumption.
Qed.

(** C7.  The User records a run writes have pairwise distinct names,
    and the reputation requests of the run are those of these records,
    none of them for "[deleted]"; a comment whose author is "[deleted]"
    adds no User record, sends no reputation request and leaves the set
    of seen names as it is. *)
Theorem C7_one_user_record_per_name sr fetched_at w w' o :
  main sr fetched_at w = (w', o) ->
  (exists us,
     users_file w' = users_file w ++ us /\
     NoDup (UserRec.name <$> us) /\
     lookups w' = lookups w ++ requested (UserRec.name <$> us) /\
     "[deleted]" ∉ requested (UserRec.name <$> us)) /\
  (forall post_id c st st' o',
     snd (safe_author (Comment.author c)) = "[deleted]" ->
     process_comment post_id (AComment c) st = (st', o') ->
     users_file (now_world st') = users_file (now_world st) /\
     lookups (now_world st') = lookups (now_world st) /\
     seen_users st' = seen_users st).
Proof.
  intros H. split.
  - apply main_records in H
      as (ps & cs & us & _ & _ & _ & _ & Eu & _ & Nd & El).
    exists us. repeat (split; [assumption|]).
    intros Hin. apply list_elem_of_In, filter_In in Hin as [_ Hin].
    discriminate.
  - clear. intros post_id c st st' o' Hdel.
    unfold Collector.process_comment.
    destruct (safe_author (Comment.author c)) as [ca_id ca_name].
    simpl in Hdel. subst ca_name.
    destruct (iso_day (Comment.created_utc c)) as [day|e];
      [|intros [= <- <-]; repeat split].
    rewrite Bool.andb_false_r. intros [= <- <-]. repeat split.
Qed.

(** C9.  [safe_author] gives no identifier for any author; hence every
    Post and Comment record a run writes has [author_id = None], and
    every User record has [id = "name:" + name]. *)
Theorem C9_author_id_none sr fetched_at w w' o :
  main sr fetched_at w = (w', o) ->
  (forall a, fst (safe_author a) = None) /\
  exists ps cs us,
    posts_file w' = posts_file w ++ ps /\
    comments_file w' = comments_file w ++ cs /\
    users_file w' = users_file w ++ us /\
    Forall (fun r => PostRec.author_id r = None) ps /\
    Forall (fun r => CommentRec.author_id r = None) cs /\
    Forall (fun r => UserRec.id r = "name:" +:+ UserRec.name r) us.
Proof.
  intros H. split; [exact safe_author_id|].
  apply main_records in H
    as (ps & cs & us & Ep & Fp & Ec & Fc & Eu & Fu & _).
  exists ps, cs, us. repeat (split; [assumption|]).
  split; [|split].
  - eapply Forall_impl; [exact Fp|].
    intros r (s & day & _ & _ & ->). apply safe_author_id.
  - eapply Forall_impl; [exact Fc|].
    intros r (s & c & day & _ & _ & _ & ->). apply safe_author_id.
  - eapply Forall_impl; [exact Fu|].
    intros r (name & meta & ->). reflexivity.
Qed.

End WithSource.

(** *** The theorems at the sample feed *)

Example sample_run :
  main sample_redditor sample_sr "2023-11-16T00:00:00+00:00" empty_world
  = (sample_run_world, Returned).
Proof. vm_compute. reflexivity. Qed.

(** Two runs that both meet "alice" write two User records with the key
    "name:alice": the set of seen names does not outlive a run. *)
Example two_runs_duplicate_user :
  List.filter (fun r => String.eqb (UserRec.id r) "name:alice")
    (users_file
       (fst (main sample_redditor sample_sr "2023-11-17T00:00:00+00:00"
               sample_run_world)))
  = [ {| UserRec.type := "user"; UserRec.id := "name:alice";
         UserRec.name := "alice"; UserRec.total_karma := Some 10%Z;
         UserRec.account_created := Some 1500000000%Z |};
      {| UserRec.type := "user"; UserRec.id := "name:alice";
         UserRec.name := "alice"; UserRec.total_karma := Some 10%Z;
         UserRec.account_created := Some 1500000000%Z |} ].
Proof. vm_compute. reflexivity. Qed.

(** A post whose author is gone does get a User record named
    "[deleted]", without any reputation request. *)
Example deleted_post_author_record :
  List.filter (fun r => String.eqb (UserRec.name r) "[deleted]")
    (users_file sample_run_world)
  = [ {| UserRec.type := "user"; UserRec.id := "name:[deleted]";
         UserRec.name := "[deleted]"; UserRec.total_karma := None;
         UserRec.account_created := None |} ] /\
  lookups sample_run_world = ["alice"; "bob"].
Proof. vm_compute. split; reflexivity. Qed.

Lemma C5_iso_day_from_created_utc_witness :
  exists ps cs,
    posts_file sample_run_world = ps /\
    comments_file sample_run_world = cs /\
    PostRec.iso_day <$> ps = ["2023-11-14"; "2023-11-14"] /\
    CommentRec.iso_day <$> cs = ["2023-11-14"; "2023-11-15"; "2023-11-15"] /\
    Forall (fun r =>
              Calendar.read_iso (PostRec.iso_day r)
              = Some (Calendar.calendar_date (PostRec.created_utc r / 86400)))
           ps /\
    Forall (fun r =>
              Calendar.read_iso (CommentRec.iso_day r)
              = Some (Calendar.calendar_date
                        (CommentRec.created_utc r / 86400)))
           cs.
Proof.
  destruct (C5_iso_day_from_created_utc sample_redditor sample_sr
              "2023-11-16T00:00:00+00:00" empty_world sample_run_world
              Returned)
    as (ps & cs & Ep & Ec & Fp & Fc).
  - vm_compute. reflexivity.
  - cbn [empty_world posts_file comments_file app] in Ep, Ec.
    exists ps, cs. split; [exact Ep|]. split; [exact Ec|].
    split; [rewrite <- Ep; reflexivity|].
    split; [rewrite <- Ec; reflexivity|]. split.
    + eapply Forall_impl; [exact Fp|]. intros r (_ & _ & H & _). exact H.
    + eapply Forall_impl; [exact Fc|]. intros r (_ & _ & H & _). exact H.
Defined.

Lemma C6_parent_id_prefix_removed_witness :
  stored_parent_id (Some "t3_p1") = Some "p1" /\
  stored_parent_id (Some "p1") = Some "p1" /\
  exists cs,
    comments_file sample_run_world = comments_file empty_world ++ cs /\
    Forall (fun r =>
              exists s c,
                s ∈ firstn POST_LIMIT (Subreddit.new sample_sr) /\
                AComment c ∈ Submission.comments s /\
                CommentRec.id r = Comment.id c /\
                CommentRec.parent_id r
                  = stored_parent_id (Comment.parent_id c)) cs.
Proof.
  destruct (C6_parent_id_prefix_removed sample_redditor)
    as (_ & _ & Hp & Hn & Hrun).
  split; [exact (Hp "t3" "p1" eq_refl)|].
  split; [apply (Hn "p1"); [discriminate|reflexivity]|].
  apply (Hrun sample_sr "2023-11-16T00:00:00+00:00" empty_world
           sample_run_world Returned).
  vm_compute. reflexivity.
Defined.

Lemma C7_one_user_record_per_name_witness :
  exists us,
    users_file sample_run_world = users_file empty_world ++ us /\
    NoDup (UserRec.name <$> us) /\
    lookups sample_run_world
      = lookups empty_world ++ requested (UserRec.name <$> us) /\
    "[deleted]" ∉ requested (UserRec.name <$> us).
Proof.
  apply (C7_one_user_record_per_name sample_redditor sample_sr
           "2023-11-16T00:00:00+00:00" empty_world sample_run_world Returned).
  vm_compute. reflexivity.
Defined.

Lemma C9_author_id_none_witness :
  exists ps cs us,
    posts_file sample_run_world = posts_file empty_world ++ ps /\
    comments_file sample_run_world = comments_file empty_world ++ cs /\
    users_file sample_run_world = users_file empty_world ++ us /\
    Forall (fun r => PostRec.author_id r = None) ps /\
    Forall (fun r => CommentRec.author_id r = None) cs /\
    Forall (fun r => UserRec.id r = "name:" +:+ UserRec.name r) us.
Proof.
  apply (C9_author_id_none sample_redditor sample_sr
           "2023-11-16T00:00:00+00:00" empty_world sample_run_world Returned).
  vm_compute. reflexivity.
Defined.

End CollectorSpec.

(** ** Whole runs of the Collector *)

Module CollectorRuns.
Import Collector CollectorOutput CollectorSpec.

Lemma append_world_empty (w : world) : append_world w empty_world = w.
Proof.
  destruct w. unfold append_world, empty_world. simpl.
  now rewrite !app_nil_r.
Qed.

Lemma in_range_spec (ts : Z) :
  in_range ts = true <-> (-62135596800 <= ts <= 253402300799)%Z.
Proof. unfold in_range. rewrite Bool.andb_true_iff, !Z.leb_le. tauto. Qed.

Lemma iso_day_dated (ts : Z) :
  in_range ts = true -> iso_day ts = Ok (day_of ts).
Proof. intros H. apply iso_day_in_range. now apply in_range_spec. Qed.

Lemma iso_day_undated (ts : Z) :
  in_range ts = false -> iso_day ts = Raise ValueError.
Proof.
  intros H. unfold iso_day.
  unfold Calendar.EPOCH_ORDINAL, Calendar.MAX_ORDINAL.
  replace ((1 <=? 719163 + ts / 86400)%Z
           && (719163 + ts / 86400 <=? 3652059)%Z) with false;
    [reflexivity|].
  symmetry. apply Bool.andb_false_iff.
  unfold in_range in H. apply Bool.andb_false_iff in H as [H|H];
    apply Z.leb_gt in H.
  - left. apply Z.leb_gt.
    assert (ts / 86400 < -719162)%Z
      by (apply Z.div_lt_upper_bound; lia).
    lia.
  - right. apply Z.leb_gt.
    assert (2932897 <= ts / 86400)%Z
      by (apply Z.div_le_lower_bound; lia).
    lia.
Qed.

(** *** Composing what was written *)

Lemma seen_none (seen : gset string) :
  seen = seen ∪ list_to_set (UserRec.name <$> []).
Proof. simpl. now rewrite (right_id_L ∅ (∪)). Qed.

Lemma seen_one (seen : gset string) (u : UserRec.t) :
  seen ∪ {[UserRec.name u]} = seen ∪ list_to_set (UserRec.name <$> [u]).
Proof. simpl. now rewrite (right_id_L ∅ (∪)). Qed.

Lemma in_seen_one (seen : gset string) (u : UserRec.t) :
  UserRec.name u ∈ seen ∪ list_to_set (UserRec.name <$> [u]).
Proof.
  rewrite <- seen_one. apply elem_of_union_r, elem_of_singleton. reflexivity.
Qed.

Lemma wrote_refl st : wrote st st [] [] [].
Proof.
  unfold wrote. rewrite !app_nil_r.
  repeat split; try constructor. apply seen_none.
Qed.

Lemma wrote_trans st1 st2 st3 ps1 cs1 us1 ps2 cs2 us2 :
  wrote st1 st2 ps1 cs1 us1 -> wrote st2 st3 ps2 cs2 us2 ->
  wrote st1 st3 (ps1 ++ ps2) (cs1 ++ cs2) (us1 ++ us2).
Proof.
  intros (Ep1 & Ec1 & Eu1 & Es1 & Fp1 & Fc1)
         (Ep2 & Ec2 & Eu2 & Es2 & Fp2 & Fc2).
  assert (Hmono : seen_users st2 ⊆ seen_users st3)
    by (rewrite Es2; apply union_subseteq_l).
  unfold wrote. split; [|split; [|split; [|split; [|split]]]].
  - now rewrite Ep2, Ep1, app_assoc.
  - now rewrite Ec2, Ec1, app_assoc.
  - now rewrite Eu2, Eu1, app_assoc.
  - rewrite Es2, Es1, fmap_app, list_to_set_app_L.
    now rewrite (assoc_L (∪)).
  - apply Forall_app. split; [|exact Fp2].
    eapply Forall_impl; [exact Fp1|]. intros r Hr.
    exact (elem_of_weaken _ _ _ Hr Hmono).
  - apply Forall_app. split; [|exact Fc2].
    eapply Forall_impl; [exact Fc1|]. intros r Hr Hne.
    exact (elem_of_weaken _ _ _ (Hr Hne) Hmono).
Qed.

Lemma linked_app ps1 cs1 ps2 cs2 :
  linked ps1 cs1 -> linked ps2 cs2 -> linked (ps1 ++ ps2) (cs1 ++ cs2).
Proof.
  unfold linked. intros H1 H2. apply Forall_app. split.
  - eapply Forall_impl; [exact H1|]. intros c Hc.
    rewrite fmap_app. apply elem_of_app. now left.
  - eapply Forall_impl; [exact H2|]. intros c Hc.
    rewrite fmap_app. apply elem_of_app. now right.
Qed.

Lemma name_key_injective (a b : string) :
  "name:" +:+ a = "name:" +:+ b -> a = b.
Proof. intros H. now simplify_eq. Qed.

Section WithSource.

Variable redditor : string -> redditor_info.

#[local] Abbreviation fetch_user_meta := (fetch_user_meta redditor).
#[local] Abbreviation emit_user := (emit_user redditor).
#[local] Abbreviation process_comment := (process_comment redditor).
#[local] Abbreviation process_comments := (process_comments redditor).
#[local] Abbreviation process_submission := (process_submission redditor).
#[local] Abbreviation process_submissions := (process_submissions redditor).
#[local] Abbreviation main := (main redditor).

(** *** The files already there are never read *)

Lemma fetch_user_meta_looked name rid looked :
  fetch_user_meta name rid looked
  = (fst (fetch_user_meta name rid []),
     looked ++ snd (fetch_user_meta name rid [])).
Proof.
  unfold Collector.fetch_user_meta.
  destruct (String.eqb name "" || String.eqb name "[deleted]");
    [simpl; now rewrite app_nil_r|].
  destruct (redditor name) as [e|lk ck cr]; [reflexivity|].
  destruct (created_or_none cr); reflexivity.
Qed.

Lemma emit_user_lift w a_id a_name st :
  emit_user a_id a_name (lift w st) = lift w (emit_user a_id a_name st).
Proof.
  unfold Collector.emit_user, lift.
  cbn [now_world seen_users append_world lookups].
  rewrite (fetch_user_meta_looked a_name a_id
             (lookups w ++ lookups (now_world st))).
  rewrite (fetch_user_meta_looked a_name a_id (lookups (now_world st))).
  destruct (fetch_user_meta a_name a_id []) as [meta l0].
  cbn [fst snd now_world seen_users]. unfold append_world.
  cbn [posts_file comments_file users_file subreddits_file lookups].
  now rewrite !app_assoc.
Qed.

Lemma process_comment_lift w post_id node st :
  process_comment post_id node (lift w st)
  = (lift w (fst (process_comment post_id node st)),
     snd (process_comment post_id node st)).
Proof.
  unfold Collector.process_comment.
  destruct node as [|c]; [reflexivity|].
  destruct (safe_author (Comment.author c)) as [ca_id ca_name].
  destruct (iso_day (Comment.created_utc c)) as [day|e]; [|reflexivity].
  cbn [lift seen_users now_world].
  match goal with
  | |- (if _ then (emit_user _ _ ?st1, _) else _) = _ =>
      replace st1 with
        (lift w
           {| now_world :=
                {| posts_file := posts_file (now_world st);
                   comments_file :=
                     comments_file (now_world st)
                     ++ [comment_rec post_id c day];
                   users_file := users_file (now_world st);
                   subreddits_file := subreddits_file (now_world st);
                   lookups := lookups (now_world st) |};
              seen_users := seen_users st |})
        by (unfold lift, append_world;
            cbn [now_world seen_users posts_file comments_file users_file
                 subreddits_file lookups];
            now rewrite app_assoc)
  end.
  rewrite emit_user_lift.
  now destruct (negb _ && negb _ && negb _)%bool.
Qed.

Lemma process_comments_lift w post_id nodes : forall st,
  process_comments post_id nodes (lift w st)
  = (lift w (fst (process_comments post_id nodes st)),
     snd (process_comments post_id nodes st)).
Proof.
  induction nodes as [|node rest IH]; intros st; [reflexivity|].
  cbn [Collector.process_comments]. rewrite process_comment_lift.
  destruct (process_comment post_id node st) as [st1 [|e]];
    [apply IH|reflexivity].
Qed.

Lemma process_submission_lift w s st :
  process_submission s (lift w st)
  = (lift w (fst (process_submission s st)),
     snd (process_submission s st)).
Proof.
  unfold Collector.process_submission.
  destruct (safe_author (Submission.author s)) as [a_id a_name].
  destruct (iso_day (Submission.created_utc s)) as [day|e]; [|reflexivity].
  cbn [lift seen_users now_world]. cbv zeta.
  match goal with
  | |- context [emit_user a_id a_name ?st1] =>
      replace st1 with
        (lift w
           {| now_world :=
                {| posts_file :=
                     posts_file (now_world st) ++ [post_rec s day];
                   comments_file := comments_file (now_world st);
                   users_file := users_file (now_world st);
                   subreddits_file := subreddits_file (now_world st);
                   lookups := lookups (now_world st) |};
              seen_users := seen_users st |})
        by (unfold lift, append_world;
            cbn [now_world seen_users posts_file comments_file users_file
                 subreddits_file lookups];
            now rewrite app_assoc)
  end.
  rewrite emit_user_lift.
  destruct (negb _ && negb _)%bool; apply process_comments_lift.
Qed.

Lemma process_submissions_lift w subs : forall st,
  process_submissions subs (lift w st)
  = (lift w (fst (process_submissions subs st)),
     snd (process_submissions subs st)).
Proof.
  induction subs as [|s rest IH]; intros st; [reflexivity|].
  cbn [Collector.process_submissions]. rewrite process_submission_lift.
  destruct (process_submission s st) as [st1 [|e]];
    [apply IH|reflexivity].
Qed.

Lemma main_lift sr fetched_at w :
  main sr fetched_at w
  = (append_world w (fst (main sr fetched_at empty_world)),
     snd (main sr fetched_at empty_world)).
Proof.
  unfold Collector.main.
  destruct (created_or_none (Subreddit.created_utc sr)) as [created|e];
    [|simpl; now rewrite append_world_empty].
  match goal with
  | |- context [process_submissions ?subs
                  {| now_world := ?w1; seen_users := ∅ |}] =>
      replace {| now_world := w1; seen_users := ∅ |} with
        (lift w
           {| now_world :=
                {| posts_file := []; comments_file := []; users_file := [];
                   subreddits_file :=
                     [snapshot sr fetched_at created];
                   lookups := [] |};
              seen_users := ∅ |})
        by (unfold lift, append_world, snapshot;
            cbn [now_world seen_users posts_file comments_file users_file
                 subreddits_file lookups];
            now rewrite !app_nil_r)
  end.
  rewrite process_submissions_lift.
  unfold empty_world, snapshot. cbn [posts_file comments_file users_file
                                     subreddits_file lookups app].
  now destruct (process_submissions _ _).
Qed.

(** X8.  What a run of [main] appends, and how it ends, does not depend
    on what the four files already hold: the run never reads them, and
    it leaves their content in front of what it appends. *)
Theorem X8_run_independent_of_prior_files sr fetched_at :
  exists d o, forall w, main sr fetched_at w = (append_world w d, o).
Proof.
  exists (fst (main sr fetched_at empty_world)),
         (snd (main sr fetched_at empty_world)).
  intros w. apply main_lift.
Qed.

(** *** What exactly is written *)

Lemma emit_user_keeps a_id a_name st :
  posts_file (now_world (emit_user a_id a_name st))
    = posts_file (now_world st) /\
  comments_file (now_world (emit_user a_id a_name st))
    = comments_file (now_world st) /\
  subreddits_file (now_world (emit_user a_id a_name st))
    = subreddits_file (now_world st).
Proof.
  unfold Collector.emit_user.
  destruct (fetch_user_meta a_name a_id (lookups (now_world st))).
  repeat split.
Qed.

Lemma process_comment_content post_id c st st' o :
  process_comment post_id (AComment c) st = (st', o) ->
  posts_file (now_world st') = posts_file (now_world st) /\
  subreddits_file (now_world st') = subreddits_file (now_world st) /\
  (in_range (Comment.created_utc c) = true /\ o = Returned /\
   comments_file (now_world st')
   = comments_file (now_world st)
     ++ [comment_rec post_id c (day_of (Comment.created_utc c))]
   \/
   in_range (Comment.created_utc c) = false /\ o = Raised ValueError /\
   st' = st).
Proof.
  unfold Collector.process_comment.
  destruct (safe_author (Comment.author c)) as [ca_id ca_name].
  destruct (in_range (Comment.created_utc c)) eqn:Hr.
  - rewrite (iso_day_dated _ Hr).
    destruct (negb _ && negb _ && negb _)%bool; intros [= <- <-].
    + destruct (emit_user_keeps ca_id ca_name
                  {| now_world :=
                       {| posts_file := posts_file (now_world st);
                          comments_file :=
                            comments_file (now_world st)
                            ++ [comment_rec post_id c
                                  (day_of (Comment.created_utc c))];
                          users_file := users_file (now_world st);
                          subreddits_file := subreddits_file (now_world st);
                          lookups := lookups (now_world st) |};
                     seen_users := seen_users st |}) as (Hp & Hc & Hs).
      rewrite Hp, Hc, Hs. split; [reflexivity|]. split; [reflexivity|].
      left. repeat split.
    + split; [reflexivity|]. split; [reflexivity|]. left. repeat split.
  - rewrite (iso_day_undated _ Hr). intros [= <- <-].
    split; [reflexivity|]. split; [reflexivity|]. right. repeat split.
Qed.

Lemma process_comments_content post_id nodes : forall st st' o,
  process_comments post_id nodes st = (st', o) ->
  posts_file (now_world st') = posts_file (now_world st) /\
  subreddits_file (now_world st') = subreddits_file (now_world st) /\
  exists k,
    comments_file (now_world st')
    = comments_file (now_world st)
      ++ firstn k
           (map (fun c => comment_rec post_id c
                            (day_of (Comment.created_utc c)))
              (materialized nodes)) /\
    (o = Returned -> k = length (materialized nodes)) /\
    (o <> Returned -> o = Raised ValueError).
Proof.
  induction nodes as [|node rest IH]; intros st st' o;
    cbn [Collector.process_comments].
  - intros [= <- <-]. repeat split. exists 0%nat.
    rewrite app_nil_r. repeat split. congruence.
  - destruct (process_comment post_id node st) as [st1 o1] eqn:E.
    destruct node as [|c].
    + injection E as <- <-. apply IH.
    + apply process_comment_content in E
        as (Hp & Hs & [(Hr & -> & Hc)|(Hr & -> & ->)]).
      * intros H. apply IH in H as (Hp' & Hs' & k & Hc' & Hk & Ho).
        split; [congruence|]. split; [congruence|].
        exists (S k). cbn [materialized map firstn length].
        rewrite Hc', Hc, <- app_assoc. repeat split; auto.
      * intros [= <- <-]. repeat split. exists 0%nat.
        rewrite app_nil_r. repeat split. discriminate.
Qed.

Lemma process_submission_content s st st' o :
  process_submission s st = (st', o) ->
  subreddits_file (now_world st') = subreddits_file (now_world st) /\
  (in_range (Submission.created_utc s) = false /\
   o = Raised ValueError /\ st' = st
   \/
   in_range (Submission.created_utc s) = true /\
   posts_file (now_world st')
   = posts_file (now_world st) ++ [expected_post s] /\
   (o <> Returned -> o = Raised ValueError) /\
   exists k,
     comments_file (now_world st')
     = comments_file (now_world st) ++ firstn k (expected_comments s) /\
     (o = Returned -> k = length (expected_comments s))).
Proof.
  unfold Collector.process_submission.
  destruct (safe_author (Submission.author s)) as [a_id a_name].
  destruct (in_range (Submission.created_utc s)) eqn:Hr.
  2:{ rewrite (iso_day_undated _ Hr). intros [= <- <-]. auto. }
  rewrite (iso_day_dated _ Hr). cbv zeta. intros H.
  apply process_comments_content in H as (Hp & Hs & k & Hc & Hk & Ho).
  assert (Hst2 : forall st2,
            st2 = (if (negb (String.eqb a_name "")
                       && negb (bool_decide (a_name ∈ seen_users st)))%bool
                   then emit_user a_id a_name
                          {| now_world :=
                               {| posts_file :=
                                    posts_file (now_world st)
                                    ++ [post_rec s
                                          (day_of (Submission.created_utc s))];
                                  comments_file := comments_file (now_world st);
                                  users_file := users_file (now_world st);
                                  subreddits_file :=
                                    subreddits_file (now_world st);
                                  lookups := lookups (now_world st) |};
                             seen_users := seen_users st |}
                   else
                          {| now_world :=
                               {| posts_file :=
                                    posts_file (now_world st)
                                    ++ [post_rec s
                                          (day_of (Submission.created_utc s))];
                                  comments_file := comments_file (now_world st);
                                  users_file := users_file (now_world st);
                                  subreddits_file :=
                                    subreddits_file (now_world st);
                                  lookups := lookups (now_world st) |};
                             seen_users := seen_users st |}) ->
            posts_file (now_world st2)
            = posts_file (now_world st) ++ [expected_post s] /\
            comments_file (now_world st2) = comments_file (now_world st) /\
            subreddits_file (now_world st2)
            = subreddits_file (now_world st)).
  { intros st2 ->. destruct (negb _ && negb _)%bool; [|repeat split].
    match goal with
    | |- context [emit_user a_id a_name ?x] =>
        destruct (emit_user_keeps a_id a_name x) as (H1 & H2 & H3)
    end.
    rewrite H1, H2, H3. repeat split. }
  destruct (Hst2 _ eq_refl) as (H1 & H2 & H3).
  split; [congruence|]. right. split; [reflexivity|].
  split; [congruence|]. split; [exact Ho|].
  exists k. unfold expected_comments. rewrite length_map.
  split; [|exact Hk].
  rewrite Hc, H2. reflexivity.
Qed.

Lemma process_submissions_content subs : forall st st' o,
  process_submissions subs st = (st', o) ->
  subreddits_file (now_world st') = subreddits_file (now_world st) /\
  (o <> Returned -> o = Raised ValueError) /\
  exists k,
    (k <= length subs)%nat /\
    posts_file (now_world st')
    = posts_file (now_world st) ++ map expected_post (firstn k subs) /\
    (o = Returned ->
     k = length subs /\
     comments_file (now_world st')
     = comments_file (now_world st) ++ flat_map expected_comments subs).
Proof.
  induction subs as [|s rest IH]; intros st st' o;
    cbn [Collector.process_submissions].
  - intros [= <- <-]. split; [reflexivity|]. split; [congruence|].
    exists 0%nat. simpl. rewrite !app_nil_r. auto.
  - destruct (process_submission s st) as [st1 o1] eqn:E.
    apply process_submission_content in E
      as (Hs & [(Hr & -> & ->)|(Hr & Hp & Ho & k & Hc & Hk)]).
    + intros [= <- <-]. split; [reflexivity|]. split; [reflexivity|].
      exists 0%nat. simpl. rewrite app_nil_r.
      split; [lia|]. split; [reflexivity|discriminate].
    + destruct o1 as [|e].
      * intros H. apply IH in H as (Hs' & Ho' & k' & Hk' & Hp' & Hret).
        split; [congruence|]. split; [exact Ho'|].
        exists (S k'). cbn [length firstn map flat_map].
        split; [lia|]. split.
        -- rewrite Hp', Hp, <- app_assoc. reflexivity.
        -- intros Hro. destruct (Hret Hro) as [-> Hc'].
           split; [reflexivity|].
           rewrite Hc', Hc, (Hk eq_refl), firstn_all, <- app_assoc.
           reflexivity.
      * intros [= <- <-]. split; [exact Hs|]. split; [exact Ho|].
        exists 1%nat. cbn [length firstn map].
        split; [lia|]. split; [exact Hp|discriminate].
Qed.

(** A loop that returns has met time stamps in range only. *)
Lemma process_comments_dated post_id nodes : forall st st',
  process_comments post_id nodes st = (st', Returned) ->
  forallb (fun c => in_range (Comment.created_utc c)) (materialized nodes)
  = true.
Proof.
  induction nodes as [|node rest IH]; intros st st';
    cbn [Collector.process_comments]; [reflexivity|].
  destruct (process_comment post_id node st) as [st1 o1] eqn:E.
  destruct node as [|c].
  - injection E as <- <-. apply IH.
  - apply process_comment_content in E
      as (_ & _ & [(Hr & -> & _)|(_ & -> & _)]); [|discriminate].
    intros H. cbn [materialized forallb]. rewrite Hr. exact (IH _ _ H).
Qed.

Lemma process_submission_dated s st st' :
  process_submission s st = (st', Returned) -> dated s = true.
Proof.
  unfold Collector.process_submission, dated.
  destruct (safe_author (Submission.author s)) as [a_id a_name].
  destruct (in_range (Submission.created_utc s)) eqn:Hr.
  2:{ rewrite (iso_day_undated _ Hr). discriminate. }
  rewrite (iso_day_dated _ Hr). cbv zeta. intros H.
  now apply process_comments_dated in H.
Qed.

Lemma process_submissions_dated subs : forall st st',
  process_submissions subs st = (st', Returned) ->
  Forall (fun s => dated s = true) subs.
Proof.
  induction subs as [|s rest IH]; intros st st';
    cbn [Collector.process_submissions]; [constructor|].
  destruct (process_submission s st) as [st1 o1] eqn:E.
  destruct o1 as [|e]; [|discriminate].
  intros H. constructor.
  - now apply process_submission_dated in E.
  - exact (IH _ _ H).
Qed.

(** X9.  A run of [main] that returns has appended exactly one snapshot,
    one Post record per fetched submission (the first [POST_LIMIT] of the
    feed), in feed order, and one Comment record per materialized
    comment, in order, the [MoreComments] items left out; the
    subreddit's creation time could be read, and every time stamp of the
    fetched submissions and of their comments was in range. *)
Theorem X9_complete_run sr fetched_at w w' :
  main sr fetched_at w = (w', Returned) ->
  exists created,
    created_or_none (Subreddit.created_utc sr) = Ok created /\
    Forall (fun s => dated s = true)
      (firstn POST_LIMIT (Subreddit.new sr)) /\
    subreddits_file w'
    = subreddits_file w ++ [snapshot sr fetched_at created] /\
    posts_file w'
    = posts_file w
      ++ map expected_post (firstn POST_LIMIT (Subreddit.new sr)) /\
    comments_file w'
    = comments_file w
      ++ flat_map expected_comments (firstn POST_LIMIT (Subreddit.new sr)).
Proof.
  unfold Collector.main.
  destruct (created_or_none (Subreddit.created_utc sr)) as [created|e];
    [|discriminate].
  destruct (process_submissions _ _) as [st o] eqn:E.
  intros [= <- ->]. exists created. split; [reflexivity|].
  split; [exact (process_submissions_dated _ _ _ E)|].
  apply process_submissions_content in E
    as (Hs & _ & k & _ & Hp & Hk).
  destruct (Hk eq_refl) as [-> Hc]. rewrite firstn_all in Hp.
  repeat split; assumption.
Qed.

(** X10.  However a run ends, the Post records it appends are those of
    the first [k] submissions of the feed, in order, for some [k] that is
    at most [POST_LIMIT] (10), and it appends at most one snapshot. *)
Theorem X10_at_most_limit_posts sr fetched_at w w' o :
  main sr fetched_at w = (w', o) ->
  (exists k,
     (k <= POST_LIMIT)%nat /\
     posts_file w'
     = posts_file w ++ map expected_post (firstn k (Subreddit.new sr))) /\
  (length (subreddits_file w') <= S (length (subreddits_file w)))%nat.
Proof.
  unfold Collector.main.
  destruct (created_or_none (Subreddit.created_utc sr)) as [created|e].
  2:{ intros [= <- <-]. split.
      - exists 0%nat. simpl. rewrite app_nil_r. split; [lia|reflexivity].
      - lia. }
  destruct (process_submissions _ _) as [st o1] eqn:E.
  intros [= <- <-].
  apply process_submissions_content in E
    as (Hs & _ & k & Hk & Hp & _).
  cbn [now_world posts_file subreddits_file] in *.
  split.
  - exists k. rewrite length_firstn in Hk. split; [lia|].
    rewrite Hp, firstn_firstn. do 3 f_equal. lia.
  - rewrite Hs, length_app. simpl. lia.
Qed.

(** *** Who wrote what *)

Lemma emit_user_wrote a_id a_name st :
  exists u,
    UserRec.name u = a_name /\ wrote st (emit_user a_id a_name st) [] [] [u].
Proof.
  unfold Collector.emit_user.
  destruct (fetch_user_meta a_name a_id (lookups (now_world st)))
    as [meta looked].
  exists (user_rec a_id a_name meta). split; [reflexivity|].
  unfold wrote.
  cbn [now_world seen_users posts_file comments_file users_file].
  rewrite !app_nil_r. repeat split; try constructor.
  apply (seen_one _ (user_rec a_id a_name meta)).
Qed.

Lemma process_comment_wrote post_id node st st' o :
  process_comment post_id node st = (st', o) ->
  exists cs us,
    wrote st st' [] cs us /\
    Forall (fun c => CommentRec.link_id c = post_id) cs.
Proof.
  unfold Collector.process_comment.
  destruct node as [|c].
  { intros [= <- <-]. exists [], []. split; [apply wrote_refl|constructor]. }
  pose proof (safe_author_name_nonempty (Comment.author c)) as Hne.
  assert (Hname : forall day,
            CommentRec.author_name (comment_rec post_id c day)
            = snd (safe_author (Comment.author c))) by reflexivity.
  destruct (safe_author (Comment.author c)) as [ca_id ca_name].
  cbn [snd] in Hne, Hname.
  destruct (iso_day (Comment.created_utc c)) as [day|e].
  2:{ intros [= <- <-]. exists [], [].
      split; [apply wrote_refl|constructor]. }
  set (st1 := {| now_world := _; seen_users := seen_users st |}).
  destruct (negb (String.eqb ca_name "")
            && negb (bool_decide (ca_name ∈ seen_users st))
            && negb (String.eqb ca_name "[deleted]"))%bool eqn:Hc;
    intros [= <- <-].
  - destruct (emit_user_wrote ca_id ca_name st1)
      as (u & Hu & (Ep & Ec & Eu & Es & _ & _)).
    exists [comment_rec post_id c day], [u].
    split; [|repeat constructor].
    unfold wrote. rewrite Ep, Ec, Eu, Es. unfold st1.
    cbn [now_world seen_users posts_file comments_file users_file].
    rewrite !app_nil_r. repeat split.
    + constructor.
    + constructor; [|constructor]. intros _. rewrite Hname, <- Hu.
      apply in_seen_one.
  - exists [comment_rec post_id c day], [].
    split; [|repeat constructor].
    unfold wrote, st1.
    cbn [now_world seen_users posts_file comments_file users_file].
    rewrite !app_nil_r. repeat split.
    + apply seen_none.
    + constructor.
    + constructor; [|constructor]. intros Hdel. rewrite Hname in *.
      destruct (String.eqb_spec ca_name ""); [contradiction|].
      destruct (String.eqb_spec ca_name "[deleted]"); [contradiction|].
      simpl in Hc. rewrite Bool.andb_true_r in Hc.
      apply Bool.negb_false_iff, bool_decide_eq_true in Hc. exact Hc.
Qed.

Lemma process_comments_wrote post_id nodes : forall st st' o,
  process_comments post_id nodes st = (st', o) ->
  exists cs us,
    wrote st st' [] cs us /\
    Forall (fun c => CommentRec.link_id c = post_id) cs.
Proof.
  induction nodes as [|node rest IH]; intros st st' o;
    cbn [Collector.process_comments].
  - intros [= <- <-]. exists [], []. split; [apply wrote_refl|constructor].
  - destruct (process_comment post_id node st) as [st1 o1] eqn:E.
    apply process_comment_wrote in E as (cs1 & us1 & W1 & L1).
    destruct o1 as [|e].
    + intros H. apply IH in H as (cs2 & us2 & W2 & L2).
      exists (cs1 ++ cs2), (us1 ++ us2). split.
      * exact (wrote_trans _ _ _ _ _ _ _ _ _ W1 W2).
      * now apply Forall_app.
    + intros [= <- <-]. eauto.
Qed.

Lemma process_submission_wrote s st st' o :
  process_submission s st = (st', o) ->
  exists ps cs us, wrote st st' ps cs us /\ linked ps cs.
Proof.
  unfold Collector.process_submission.
  pose proof (safe_author_name_nonempty (Submission.author s)) as Hne.
  assert (Hname : forall day,
            PostRec.author_name (post_rec s day)
            = snd (safe_author (Submission.author s))) by reflexivity.
  destruct (safe_author (Submission.author s)) as [a_id a_name].
  cbn [snd] in Hne, Hname.
  destruct (iso_day (Submission.created_utc s)) as [day|e].
  2:{ intros [= <- <-]. exists [], [], [].
      split; [apply wrote_refl|constructor]. }
  cbv zeta.
  set (st1 := {| now_world := _; seen_users := seen_users st |}).
  set (st2 := if (_ && _)%bool then _ else st1).
  assert (W2 : exists us, wrote st st2 [post_rec s day] [] us).
  { unfold st2.
    destruct (negb (String.eqb a_name "")
              && negb (bool_decide (a_name ∈ seen_users st)))%bool eqn:Hc.
    - destruct (emit_user_wrote a_id a_name st1)
        as (u & Hu & (Ep & Ec & Eu & Es & _ & _)).
      exists [u]. unfold wrote. rewrite Ep, Ec, Eu, Es. unfold st1.
      cbn [now_world seen_users posts_file comments_file users_file].
      rewrite !app_nil_r. repeat split.
      + constructor; [|constructor]. rewrite Hname, <- Hu.
        apply in_seen_one.
      + constructor.
    - exists []. unfold wrote, st1.
      cbn [now_world seen_users posts_file comments_file users_file].
      rewrite !app_nil_r. repeat split.
      + apply seen_none.
      + constructor; [|constructor]. rewrite Hname.
        destruct (String.eqb_spec a_name ""); [contradiction|].
        simpl in Hc.
        apply Bool.negb_false_iff, bool_decide_eq_true in Hc. exact Hc.
      + constructor. }
  destruct W2 as (us1 & W2). intros H.
  apply process_comments_wrote in H as (cs & us2 & W3 & L).
  exists ([post_rec s day] ++ []), ([] ++ cs), (us1 ++ us2). split.
  - exact (wrote_trans _ _ _ _ _ _ _ _ _ W2 W3).
  - unfold linked. simpl. eapply Forall_impl; [exact L|].
    intros c ->. apply list_elem_of_here.
Qed.

Lemma process_submissions_wrote subs : forall st st' o,
  process_submissions subs st = (st', o) ->
  exists ps cs us, wrote st st' ps cs us /\ linked ps cs.
Proof.
  induction subs as [|s rest IH]; intros st st' o;
    cbn [Collector.process_submissions].
  - intros [= <- <-]. exists [], [], [].
    split; [apply wrote_refl|constructor].
  - destruct (process_submission s st) as [st1 o1] eqn:E.
    apply process_submission_wrote in E as (ps1 & cs1 & us1 & W1 & L1).
    destruct o1 as [|e].
    + intros H. apply IH in H as (ps2 & cs2 & us2 & W2 & L2).
      exists (ps1 ++ ps2), (cs1 ++ cs2), (us1 ++ us2). split.
      * exact (wrote_trans _ _ _ _ _ _ _ _ _ W1 W2).
      * now apply linked_app.
    + intros [= <- <-]. eauto.
Qed.

Lemma main_wrote sr fetched_at w w' o :
  main sr fetched_at w = (w', o) ->
  exists ps cs us,
    posts_file w' = posts_file w ++ ps /\
    comments_file w' = comments_file w ++ cs /\
    users_file w' = users_file w ++ us /\
    linked ps cs /\ credited ps cs us.
Proof.
  unfold Collector.main.
  destruct (created_or_none (Subreddit.created_utc sr)) as [created|e].
  2:{ intros [= <- <-]. exists [], [], []. rewrite !app_nil_r.
      repeat split; constructor. }
  destruct (process_submissions _ _) as [st o1] eqn:E.
  intros [= <- <-].
  apply process_submissions_wrote in E
    as (ps & cs & us & (Ep & Ec & Eu & Es & Fp & Fc) & L).
  cbn [now_world seen_users posts_file comments_file users_file] in *.
  assert (Hseen : forall n, n ∈ seen_users st -> n ∈ (UserRec.name <$> us)).
  { intros n Hn. rewrite Es in Hn.
    apply elem_of_union in Hn as [Hn|Hn];
      [now apply not_elem_of_empty in Hn|now apply elem_of_list_to_set in Hn]. }
  exists ps, cs, us. repeat split; try assumption.
  - eapply Forall_impl; [exact Fp|]. intros r Hr. now apply Hseen.
  - eapply Forall_impl; [exact Fc|]. intros r Hr Hd. now apply Hseen, Hr.
Qed.

(** X11.  Every Comment record that a run appends, however the run ends,
    carries in [link_id] the [id] of a Post record appended by the same
    run. *)
Theorem X11_comments_link_to_posts sr fetched_at w w' o :
  main sr fetched_at w = (w', o) ->
  exists ps cs,
    posts_file w' = posts_file w ++ ps /\
    comments_file w' = comments_file w ++ cs /\
    Forall (fun c => exists p, p ∈ ps /\
                               PostRec.id p = CommentRec.link_id c) cs.
Proof.
  intros H. apply main_wrote in H as (ps & cs & us & Ep & Ec & _ & L & _).
  exists ps, cs. split; [exact Ep|]. split; [exact Ec|].
  eapply Forall_impl; [exact L|]. intros c Hc.
  apply list_elem_of_fmap in Hc as (p & Hp & Hin). eauto.
Qed.

(** X12.  However a run ends, every author named in a Post record it
    appended, and every author other than "[deleted]" named in a Comment
    record it appended, has a User record appended by the same run. *)
Theorem X12_authors_have_user_records sr fetched_at w w' o :
  main sr fetched_at w = (w', o) ->
  exists ps cs us,
    posts_file w' = posts_file w ++ ps /\
    comments_file w' = comments_file w ++ cs /\
    users_file w' = users_file w ++ us /\
    Forall (fun r => exists u, u ∈ us /\
                               UserRec.name u = PostRec.author_name r) ps /\
    Forall (fun r => CommentRec.author_name r <> "[deleted]" ->
                     exists u, u ∈ us /\
                               UserRec.name u = CommentRec.author_name r) cs.
Proof.
  intros H.
  apply main_wrote in H as (ps & cs & us & Ep & Ec & Eu & _ & Fp & Fc).
  exists ps, cs, us. repeat (split; [assumption|]). split.
  - eapply Forall_impl; [exact Fp|]. intros r Hr.
    apply list_elem_of_fmap in Hr as (u & Hu & Hin). eauto.
  - eapply Forall_impl; [exact Fc|]. intros r Hr Hd.
    specialize (Hr Hd).
    apply list_elem_of_fmap in Hr as (u & Hu & Hin). eauto.
Qed.

(** X13.  The User records a run appends have pairwise distinct [id]s:
    the key "name:" + name is different for different names. *)
Theorem X13_user_ids_distinct sr fetched_at w w' o :
  main sr fetched_at w = (w', o) ->
  exists us,
    users_file w' = users_file w ++ us /\ NoDup (UserRec.id <$> us).
Proof.
  intros H. apply (main_records redditor) in H
    as (ps & cs & us & _ & _ & _ & _ & Eu & Fu & Nd & _).
  exists us. split; [exact Eu|].
  assert (Hid : UserRec.id <$> us
                = (fun n => "name:" +:+ n) <$> (UserRec.name <$> us)).
  { clear -Fu. induction Fu as [|u r (name & meta & ->) Hr IH];
      [reflexivity|].
    rewrite !fmap_cons, IH. reflexivity. }
  rewrite Hid. apply NoDup_fmap_2; [|exact Nd].
  intros a b. apply name_key_injective.
Qed.

(** X14.  [iso_day] returns for the time stamps from 0001-01-01 00:00:00
    to 9999-12-31 23:59:59 and raises for every other; a submission whose
    time stamp is outside this range ends the loop with an exception
    before anything is written for it. *)
Theorem X14_iso_day_range :
  (forall ts, in_range ts = true -> iso_day ts = Ok (day_of ts)) /\
  (forall ts, in_range ts = false -> exists e, iso_day ts = Raise e) /\
  (forall s st,
     in_range (Submission.created_utc s) = false ->
     exists e, process_submission s st = (st, Raised e)).
Proof.
  split; [exact iso_day_dated|]. split.
  - intros ts Hr. eexists. now apply iso_day_undated.
  - intros s st Hr.
    destruct (process_submission s st) as [st' o] eqn:E.
    apply process_submission_content in E
      as (_ & [(_ & -> & ->)|(Hr' & _)]); [eauto|congruence].
Qed.

End WithSource.

(** *** The theorems at the sample feeds *)

Lemma X9_complete_run_witness :
  exists created,
    created_or_none (Subreddit.created_utc sample_sr) = Ok created /\
    Forall (fun s => dated s = true)
      (firstn POST_LIMIT (Subreddit.new sample_sr)) /\
    subreddits_file sample_run_world
    = subreddits_file empty_world
      ++ [snapshot sample_sr "2023-11-16T00:00:00+00:00" created] /\
    posts_file sample_run_world
    = posts_file empty_world
      ++ map expected_post (firstn POST_LIMIT (Subreddit.new sample_sr)) /\
    comments_file sample_run_world
    = comments_file empty_world
      ++ flat_map expected_comments
           (firstn POST_LIMIT (Subreddit.new sample_sr)).
Proof.
  apply (X9_complete_run sample_redditor sample_sr
           "2023-11-16T00:00:00+00:00" empty_world sample_run_world).
  vm_compute. reflexivity.
Defined.

Lemma X10_at_most_limit_posts_witness :
  exists k,
    (k <= POST_LIMIT)%nat /\
    posts_file sample_run_world
    = posts_file empty_world
      ++ map expected_post (firstn k (Subreddit.new sample_sr)).
Proof.
  apply (X10_at_most_limit_posts sample_redditor sample_sr
           "2023-11-16T00:00:00+00:00" empty_world sample_run_world
           Returned).
  vm_compute. reflexivity.
Defined.

Lemma X11_comments_link_to_posts_witness :
  exists ps cs,
    posts_file sample_run_world = posts_file empty_world ++ ps /\
    comments_file sample_run_world = comments_file empty_world ++ cs /\
    Forall (fun c => exists p, p ∈ ps /\
                               PostRec.id p = CommentRec.link_id c) cs.
Proof.
  apply (X11_comments_link_to_posts sample_redditor sample_sr
           "2023-11-16T00:00:00+00:00" empty_world sample_run_world
           Returned).
  vm_compute. reflexivity.
Defined.

Lemma X12_authors_have_user_records_witness :
  exists ps cs us,
    posts_file sample_run_world = posts_file empty_world ++ ps /\
    comments_file sample_run_world = comments_file empty_world ++ cs /\
    users_file sample_run_world = users_file empty_world ++ us /\
    Forall (fun r => exists u, u ∈ us /\
                               UserRec.name u = PostRec.author_name r) ps /\
    Forall (fun r => CommentRec.author_name r <> "[deleted]" ->
                     exists u, u ∈ us /\
                               UserRec.name u = CommentRec.author_name r) cs.
Proof.
  apply (X12_authors_have_user_records sample_redditor sample_sr
           "2023-11-16T00:00:00+00:00" empty_world sample_run_world
           Returned).
  vm_compute. reflexivity.
Defined.

Lemma X13_user_ids_distinct_witness :
  exists us,
    users_file sample_run_world = users_file empty_world ++ us /\
    NoDup (UserRec.id <$> us).
Proof.
  apply (X13_user_ids_distinct sample_redditor sample_sr
           "2023-11-16T00:00:00+00:00" empty_world sample_run_world
           Returned).
  vm_compute. reflexivity.
Defined.

Lemma X14_iso_day_range_witness :
  iso_day 253402300799 = Ok (day_of 253402300799) /\
  (exists e, iso_day (-62135596801) = Raise e) /\
  (exists e,
     process_submission sample_redditor sample_undated
       {| now_world := empty_world; seen_users := ∅ |}
     = ({| now_world := empty_world; seen_users := ∅ |}, Raised e)).
Proof.
  destruct (X14_iso_day_range sample_redditor) as (Hin & Hout & Hsub).
  split; [apply Hin; reflexivity|].
  split; [apply Hout; reflexivity|].
  apply Hsub. reflexivity.
Defined.

(** The last day [iso_day] accepts, and a run that meets a submission it
    rejects: one post is written, then the run ends. *)
Example last_day : iso_day 253402300799 = Ok "9999-12-31".
Proof. reflexivity. Qed.

Example undated_submission_ends_run :
  exists w',
    main sample_redditor sample_sr_undated "now" empty_world
    = (w', Raised ValueError) /\
    PostRec.id <$> posts_file w' = ["q1"] /\
    UserRec.name <$> users_file w' = ["carol"].
Proof. eexists. vm_compute. repeat split. Qed.

End CollectorRuns.

(** ** The meta data of User records *)

Module CollectorUsers.
Import Collector CollectorOutput CollectorSpec.

Section WithSource.

Variable redditor : string -> redditor_info.

#[local] Abbreviation fetch_user_meta := (fetch_user_meta redditor).
#[local] Abbreviation emit_user := (emit_user redditor).
#[local] Abbreviation process_comment := (process_comment redditor).
#[local] Abbreviation process_comments := (process_comments redditor).
#[local] Abbreviation process_submission := (process_submission redditor).
#[local] Abbreviation process_submissions := (process_submissions redditor).
#[local] Abbreviation main := (main redditor).
#[local] Abbreviation added := (added redditor).

Lemma added_none st st' :
  users_file (now_world st') = users_file (now_world st) -> added st st' [].
Proof. intros E. split; [now rewrite app_nil_r|constructor]. Qed.

Lemma added_refl st : added st st [].
Proof. now apply added_none. Qed.

Lemma added_from st st1 st' us :
  users_file (now_world st1) = users_file (now_world st) ->
  added st1 st' us -> added st st' us.
Proof. intros E [E1 F1]. split; [now rewrite E1, E|exact F1]. Qed.

Lemma added_trans st1 st2 st3 us vs :
  added st1 st2 us -> added st2 st3 vs -> added st1 st3 (us ++ vs).
Proof.
  intros [E1 F1] [E2 F2]. split.
  - now rewrite E2, E1, app_assoc.
  - now apply Forall_app.
Qed.

Lemma emit_user_added a_id a_name st :
  a_name <> "" -> exists u, added st (emit_user a_id a_name st) [u].
Proof.
  intros Hne. unfold Collector.emit_user, Collector.fetch_user_meta.
  destruct (String.eqb_spec a_name ""); [contradiction|]. cbn [orb].
  destruct (String.eqb a_name "[deleted]") eqn:Hd.
  - eexists. split; [reflexivity|]. constructor; [|constructor].
    unfold carries_meta. cbn [user_rec UserRec.name]. rewrite Hd.
    split; reflexivity.
  - destruct (redditor a_name) as [e|l c created] eqn:Hr.
    + eexists. split; [reflexivity|]. constructor; [|constructor].
      unfold carries_meta. cbn [user_rec UserRec.name]. rewrite Hd, Hr.
      split; reflexivity.
    + destruct (created_or_none created) as [a|e] eqn:Hc.
      * eexists. split; [reflexivity|]. constructor; [|constructor].
        unfold carries_meta. cbn [user_rec UserRec.name].
        rewrite Hd, Hr, Hc. split; reflexivity.
      * eexists. split; [reflexivity|]. constructor; [|constructor].
        unfold carries_meta. cbn [user_rec UserRec.name].
        rewrite Hd, Hr, Hc. split; reflexivity.
Qed.

Lemma process_comment_added post_id node st st' o :
  process_comment post_id node st = (st', o) -> exists us, added st st' us.
Proof.
  unfold Collector.process_comment. destruct node as [|c].
  { intros [= <- <-]. exists []. apply added_refl. }
  destruct (safe_author (Comment.author c)) as [ca_id ca_name].
  destruct (iso_day (Comment.created_utc c)) as [day|e].
  2:{ intros [= <- <-]. exists []. apply added_refl. }
  set (st1 := {| now_world := _; seen_users := seen_users st |}).
  destruct (String.eqb_spec ca_name "") as [->|Hne]; cbn [negb andb].
  { intros [= <- <-]. exists []. now apply added_none. }
  destruct (negb (bool_decide (ca_name ∈ seen_users st))
            && negb (String.eqb ca_name "[deleted]"))%bool;
    intros [= <- <-].
  - destruct (emit_user_added ca_id ca_name st1 Hne) as [u Hu].
    exists [u]. now apply (added_from st st1).
  - exists []. now apply added_none.
Qed.

Lemma process_comments_added post_id nodes : forall st st' o,
  process_comments post_id nodes st = (st', o) -> exists us, added st st' us.
Proof.
  induction nodes as [|node rest IH]; intros st st' o;
    cbn [Collector.process_comments].
  - intros [= <- <-]. exists []. apply added_refl.
  - destruct (process_comment post_id node st) as [st1 o1] eqn:E.
    apply process_comment_added in E as (us1 & A1).
    destruct o1 as [|e].
    + intros H. apply IH in H as (us2 & A2).
      exists (us1 ++ us2). exact (added_trans _ _ _ _ _ A1 A2).
    + intros [= <- <-]. eauto.
Qed.

Lemma process_submission_added s st st' o :
  process_submission s st = (st', o) -> exists us, added st st' us.
Proof.
  unfold Collector.process_submission.
  destruct (safe_author (Submission.author s)) as [a_id a_name].
  destruct (iso_day (Submission.created_utc s)) as [day|e].
  2:{ intros [= <- <-]. exists []. apply added_refl. }
  cbv zeta.
  set (st1 := {| now_world := _; seen_users := seen_users st |}).
  set (st2 := if (_ && _)%bool then _ else st1).
  assert (A2 : exists us, added st st2 us).
  { unfold st2. destruct (String.eqb_spec a_name "") as [->|Hne];
      cbn [negb andb].
    - exists []. now apply added_none.
    - destruct (negb (bool_decide (a_name ∈ seen_users st))).
      + destruct (emit_user_added a_id a_name st1 Hne) as [u Hu].
        exists [u]. now apply (added_from st st1).
      + exists []. now apply added_none. }
  destruct A2 as (us1 & A2). intros H.
  apply process_comments_added in H as (us2 & A3).
  exists (us1 ++ us2). exact (added_trans _ _ _ _ _ A2 A3).
Qed.

Lemma process_submissions_added subs : forall st st' o,
  process_submissions subs st = (st', o) -> exists us, added st st' us.
Proof.
  induction subs as [|s rest IH]; intros st st' o;
    cbn [Collector.process_submissions].
  - intros [= <- <-]. exists []. apply added_refl.
  - destruct (process_submission s st) as [st1 o1] eqn:E.
    apply process_submission_added in E as (us1 & A1).
    destruct o1 as [|e].
    + intros H. apply IH in H as (us2 & A2).
      exists (us1 ++ us2). exact (added_trans _ _ _ _ _ A1 A2).
    + intros [= <- <-]. eauto.
Qed.

(** X22.  Every User record a run writes, however the run ends, carries
    the meta data of its name: null karma and null creation time for
    "[deleted]", for a name whose lookup fails and for a creation time
    that cannot be read; otherwise the sum of the karma counters (null
    when both are missing) and the creation time. *)
Theorem X22_user_records_carry_meta sr fetched_at w w' o :
  main sr fetched_at w = (w', o) ->
  exists us,
    users_file w' = users_file w ++ us /\
    Forall (carries_meta redditor) us.
Proof.
  unfold Collector.main.
  destruct (created_or_none (Subreddit.created_utc sr)) as [created|e].
  2:{ intros [= <- <-]. exists []. split; [now rewrite app_nil_r|constructor]. }
  cbv zeta.
  destruct (process_submissions _ _) as [st o1] eqn:E.
  apply process_submissions_added in E as (us & Eu & Fu).
  cbn [now_world users_file] in Eu.
  intros [= <- <-]. exists us. split; [exact Eu|exact Fu].
Qed.

End WithSource.

Lemma X22_user_records_carry_meta_witness :
  exists us,
    users_file sample_run_world = users_file empty_world ++ us /\
    Forall (carries_meta sample_redditor) us.
Proof.
  apply (X22_user_records_carry_meta sample_redditor sample_sr
           "2023-11-16T00:00:00+00:00" empty_world sample_run_world
           Returned).
  vm_compute. reflexivity.
Defined.

End CollectorUsers.

(** ** The schema initializer *)

Module SchemaInitSpec.
Import SchemaInit.

Lemma node_eta (n : node) : {| labels := labels n; props := props n |} = n.
Proof. destruct n; reflexivity. Qed.

(** [ON MATCH] changes neither the labels nor the name. *)
Lemma is_category_on_match name name' desc n :
  is_category name (on_match name' desc n) = is_category name n.
Proof.
  unfold on_match. destruct (is_category name' n); [|reflexivity].
  unfold is_category; cbn [labels props].
  now rewrite lookup_insert_ne by discriminate.
Qed.

(** It leaves a node that has a description as it is. *)
Lemma on_match_described name desc n :
  props n !! "description" <> None -> on_match name desc n = n.
Proof.
  intros H. unfold on_match. destruct (is_category name n); [|reflexivity].
  destruct (props n !! "description") as [v|] eqn:E; [|contradiction].
  cbn [coalesce]. rewrite (insert_id _ _ _ E). apply node_eta.
Qed.

Lemma on_match_unmatched name desc n :
  is_category name n = false -> on_match name desc n = n.
Proof. intros H. unfold on_match. now rewrite H. Qed.

(** After it, a matched node has a description. *)
Lemma on_match_gives_description name desc n :
  is_category name n = true ->
  props (on_match name desc n) !! "description" <> None.
Proof.
  intros H. unfold on_match. rewrite H. cbn [props].
  now rewrite lookup_insert_eq.
Qed.

Lemma is_category_created name name' desc :
  is_category name (created name' desc) = bool_decide (name' = name).
Proof.
  unfold is_category, created; cbn [labels props].
  rewrite lookup_insert_eq.
  rewrite (bool_decide_eq_true_2 ("Category" ∈ ["Category"]))
    by apply list_elem_of_here.
  cbn [andb]. apply bool_decide_ext. split; congruence.
Qed.

Lemma created_described name desc :
  props (created name desc) !! "description" <> None.
Proof.
  unfold created; cbn [props].
  rewrite lookup_insert_ne by discriminate.
  now rewrite lookup_singleton_eq.
Qed.

Lemma existsb_on_match name name' desc db :
  existsb (is_category name) (map (on_match name' desc) db)
  = existsb (is_category name) db.
Proof.
  induction db as [|n r IH]; simpl; [reflexivity|].
  now rewrite is_category_on_match, IH.
Qed.

Lemma existsb_false_Forall name db :
  existsb (is_category name) db = false ->
  Forall (fun n => is_category name n = false) db.
Proof.
  induction db as [|n r IH]; simpl; [constructor|].
  intros [H1 H2]%Bool.orb_false_iff. constructor; auto.
Qed.

(** *** A statement that has settled is a no-op *)

Lemma merge_settled name desc db :
  settled name db -> merge_category name desc db = db.
Proof.
  intros [He Hf]. unfold merge_category. rewrite He. clear He.
  induction Hf as [|n r Hn Hr IH]; [reflexivity|]. simpl. f_equal.
  - destruct (is_category name n) eqn:E.
    + apply on_match_described. now apply Hn.
    + now apply on_match_unmatched.
  - exact IH.
Qed.

Lemma merge_settles name desc db :
  settled name (merge_category name desc db).
Proof.
  unfold merge_category, settled.
  destruct (existsb (is_category name) db) eqn:He.
  - rewrite existsb_on_match. split; [exact He|].
    apply Forall_forall. intros n' Hin.
    apply list_elem_of_In, in_map_iff in Hin as (n & <- & _).
    rewrite is_category_on_match. apply on_match_gives_description.
  - rewrite existsb_app. simpl. rewrite is_category_created.
    rewrite bool_decide_eq_true_2 by reflexivity.
    split; [now rewrite !Bool.orb_true_r|].
    apply Forall_app. split.
    + eapply Forall_impl; [exact (existsb_false_Forall _ _ He)|].
      simpl. intros n Hn Hc. congruence.
    + constructor; [|constructor]. intros _. apply created_described.
Qed.

Lemma merge_keeps_settled name name' desc' db :
  settled name db -> settled name (merge_category name' desc' db).
Proof.
  intros [He Hf]. unfold merge_category, settled.
  destruct (existsb (is_category name') db) eqn:He'.
  - rewrite existsb_on_match. split; [exact He|].
    apply Forall_forall. intros n' Hin.
    apply list_elem_of_In, in_map_iff in Hin as (n & <- & Hin).
    rewrite is_category_on_match. intros Hc.
    rewrite Forall_forall in Hf.
    specialize (Hf n (proj2 (list_elem_of_In _ _) Hin) Hc).
    now rewrite (on_match_described _ _ _ Hf).
  - rewrite existsb_app, He. split; [reflexivity|].
    apply Forall_app. split; [exact Hf|].
    constructor; [|constructor]. intros _. apply created_described.
Qed.

Lemma seed_settles name desc db :
  In (name, desc) CATEGORIES -> settled name (seed_categories db).
Proof.
  unfold seed_categories, CATEGORIES. cbn [fold_left].
  intros [[= <- <-]|[[= <- <-]|[[= <- <-]|[]]]].
  - do 2 apply merge_keeps_settled. apply merge_settles.
  - apply merge_keeps_settled. apply merge_settles.
  - apply merge_settles.
Qed.

(** *** The exact effect of seeding *)

Lemma filled_with_created cats name desc :
  ~ In name (map fst cats) ->
  filled_with cats (created name desc) = created name desc.
Proof.
  unfold filled_with.
  induction cats as [|[n d] rest IH]; intros Hnot; [reflexivity|].
  cbn [fold_left]. rewrite on_match_unmatched.
  - apply IH. intros Hin. apply Hnot. now right.
  - rewrite is_category_created. apply bool_decide_eq_false_2.
    intros ->. apply Hnot. now left.
Qed.

Lemma missing_with_on_match cats name desc db :
  missing_with cats (map (on_match name desc) db) = missing_with cats db.
Proof.
  unfold missing_with. f_equal. apply List.filter_ext.
  intros [n d]. now rewrite existsb_on_match.
Qed.

Lemma missing_with_created cats name desc db :
  ~ In name (map fst cats) ->
  missing_with cats (db ++ [created name desc]) = missing_with cats db.
Proof.
  intros Hnot. unfold missing_with. f_equal.
  apply List.filter_ext_in. intros [n d] Hin.
  rewrite existsb_app. simpl. rewrite is_category_created.
  rewrite bool_decide_eq_false_2; [now rewrite !Bool.orb_false_r|].
  intros ->. apply Hnot. apply in_map_iff. now exists (n, d).
Qed.

Lemma seed_with_effect cats : forall db,
  List.NoDup (map fst cats) ->
  fold_left (fun db '(name, desc) => merge_category name desc db) cats db
  = map (filled_with cats) db ++ missing_with cats db.
Proof.
  induction cats as [|[name desc] rest IH]; intros db Hnd.
  - unfold missing_with, filled_with. simpl.
    now rewrite map_id, app_nil_r.
  - inversion Hnd as [|? ? Hnot Hnd']; subst.
    cbn [fold_left]. rewrite (IH _ Hnd'). unfold merge_category.
    destruct (existsb (is_category name) db) eqn:He.
    + rewrite map_map, missing_with_on_match.
      unfold missing_with at 2. cbn [List.filter]. rewrite He.
      reflexivity.
    + rewrite map_app, (missing_with_created _ _ _ _ Hnot). simpl.
      rewrite (filled_with_created _ _ _ Hnot).
      unfold missing_with at 2. cbn [List.filter]. rewrite He.
      cbn [negb map]. rewrite <- app_assoc. cbn [app]. f_equal.
      apply map_ext_in. intros n Hin. unfold filled_with at 2.
      cbn [fold_left]. rewrite on_match_unmatched; [reflexivity|].
      pose proof (existsb_false_Forall _ _ He) as Hf.
      rewrite Forall_forall in Hf. apply Hf. now apply list_elem_of_In.
Qed.

Lemma filled_described n :
  props n !! "description" <> None -> filled n = n.
Proof.
  intros H. unfold filled, filled_with, CATEGORIES. cbn [fold_left].
  rewrite (on_match_described "campus_life" _ n H).
  rewrite (on_match_described "academics" _ n H).
  apply (on_match_described "admissions" _ n H).
Qed.

(** C8.  Seeding is idempotent; on an empty database it creates exactly
    the three rows of [CATEGORIES]; on any database it keeps every node
    in place, changing at most the null description of a node that one of
    the three patterns matches, and creates one node for each name that
    no node matched; a node that has a description is left as it is; a
    second run creates nothing, so the number of Category nodes stays the
    same. *)
Theorem C8_seed_categories_idempotent :
  (forall db, seed_categories (seed_categories db) = seed_categories db) /\
  seed_categories []
    = map (fun '(name, desc) => created name desc) CATEGORIES /\
  (forall db, seed_categories db = map filled db ++ missing db) /\
  (forall n, props n !! "description" <> None -> filled n = n) /\
  (forall db, missing (seed_categories db) = []) /\
  (forall db, count_categories (seed_categories (seed_categories db))
              = count_categories (seed_categories db)).
Proof.
  assert (Hidem : forall db,
             seed_categories (seed_categories db) = seed_categories db).
  { intros db. unfold seed_categories at 1. unfold CATEGORIES.
    cbn [fold_left].
    rewrite (merge_settled "campus_life");
      [|eapply seed_settles; simpl; eauto].
    rewrite (merge_settled "academics");
      [|eapply seed_settles; simpl; eauto].
    rewrite (merge_settled "admissions");
      [|eapply seed_settles; simpl; eauto].
    reflexivity. }
  assert (Heff : forall db, seed_categories db = map filled db ++ missing db).
  { intros db. apply seed_with_effect. unfold CATEGORIES. simpl.
    repeat constructor; simpl; intuition discriminate. }
  split; [exact Hidem|]. split; [reflexivity|]. split; [exact Heff|].
  split; [exact filled_described|]. split.
  - intros db. unfold missing, missing_with, CATEGORIES.
    cbn [List.filter].
    rewrite (proj1 (seed_settles "campus_life" _ db ltac:(simpl; eauto))).
    rewrite (proj1 (seed_settles "academics" _ db ltac:(simpl; eauto))).
    rewrite (proj1 (seed_settles "admissions" _ db ltac:(simpl; eauto))).
    reflexivity.
  - intros db. now rewrite Hidem.
Qed.

Lemma C8_seed_categories_idempotent_witness :
  seed_categories (seed_categories sample_db) = seed_categories sample_db /\
  filled {| labels := ["Category"];
            props := {[ "name" := PStr "academics";
                        "description" := PStr "my own words" ]} |}
  = {| labels := ["Category"];
       props := {[ "name" := PStr "academics";
                   "description" := PStr "my own words" ]} |} /\
  length (seed_categories sample_db) = 4%nat.
Proof.
  destruct C8_seed_categories_idempotent as (Hidem & _ & _ & Hfill & _).
  split; [apply Hidem|]. split; [|reflexivity].
  apply Hfill. vm_compute. discriminate.
Defined.

End SchemaInitSpec.

(** ** Seeding, node by node *)

Module SchemaSeeding.
Import SchemaInit SchemaInitSpec.

Lemma on_match_labels name desc n : labels (on_match name desc n) = labels n.
Proof. unfold on_match. now destruct (is_category name n). Qed.

Lemma on_match_other name desc n k :
  k <> "description" -> props (on_match name desc n) !! k = props n !! k.
Proof.
  intros Hk. unfold on_match. destruct (is_category name n); [|reflexivity].
  cbn [props]. now rewrite lookup_insert_ne by congruence.
Qed.

Lemma on_match_description name desc n :
  props (on_match name desc n) !! "description"
  = match props n !! "description" with
    | Some v => Some v
    | None => if is_category name n then Some (PStr desc) else None
    end.
Proof.
  unfold on_match. destruct (is_category name n) eqn:E.
  - cbn [props]. rewrite lookup_insert_eq.
    now destruct (props n !! "description").
  - now destruct (props n !! "description").
Qed.

Lemma filled_with_labels cats : forall n,
  labels (filled_with cats n) = labels n.
Proof.
  unfold filled_with. induction cats as [|[name desc] rest IH]; intros n.
  - reflexivity.
  - cbn [fold_left]. rewrite IH. apply on_match_labels.
Qed.

Lemma filled_with_other cats k : forall n,
  k <> "description" -> props (filled_with cats n) !! k = props n !! k.
Proof.
  unfold filled_with. induction cats as [|[name desc] rest IH]; intros n Hk.
  - reflexivity.
  - cbn [fold_left]. rewrite (IH _ Hk). now apply on_match_other.
Qed.

Lemma filled_with_description cats : forall n,
  props (filled_with cats n) !! "description"
  = match props n !! "description" with
    | Some v => Some v
    | None => row_description cats n
    end.
Proof.
  unfold filled_with, row_description.
  induction cats as [|[name desc] rest IH]; intros n.
  - cbn [fold_left List.find]. now destruct (props n !! "description").
  - cbn [fold_left List.find]. rewrite IH, on_match_description.
    destruct (props n !! "description") as [v|] eqn:Ed; [reflexivity|].
    destruct (is_category name n) eqn:Ec; [reflexivity|].
    now rewrite (on_match_unmatched _ _ _ Ec).
Qed.

Lemma filled_with_described cats : forall n,
  props n !! "description" <> None -> filled_with cats n = n.
Proof.
  unfold filled_with. induction cats as [|[name desc] rest IH]; intros n H.
  - reflexivity.
  - cbn [fold_left]. rewrite (on_match_described _ _ _ H). now apply IH.
Qed.

Lemma is_category_filled_with cats name : forall n,
  is_category name (filled_with cats n) = is_category name n.
Proof.
  unfold filled_with. induction cats as [|[name' desc] rest IH]; intros n.
  - reflexivity.
  - cbn [fold_left]. rewrite IH. apply is_category_on_match.
Qed.

Lemma categories_distinct : List.NoDup (map fst CATEGORIES).
Proof.
  unfold CATEGORIES. simpl.
  repeat constructor; simpl; intuition discriminate.
Qed.

Lemma seed_effect db : seed_categories db = map filled db ++ missing db.
Proof. apply seed_with_effect, categories_distinct. Qed.

Lemma missing_length cats db : length (missing_with cats db) <= length cats.
Proof.
  unfold missing_with. rewrite length_map. apply List.filter_length_le.
Qed.

(** X15.  Seeding keeps every node in its place with its labels and all
    its properties other than [description]; the description stays when
    there is one, and otherwise becomes that of the row whose pattern
    matches the node, if there is such a row. *)
Theorem X15_seeding_keeps_nodes (db : list node) (i : nat) (n : node) :
  db !! i = Some n ->
  exists n',
    seed_categories db !! i = Some n' /\
    labels n' = labels n /\
    (forall k, k <> "description" -> props n' !! k = props n !! k) /\
    props n' !! "description"
    = match props n !! "description" with
      | Some v => Some v
      | None => row_description CATEGORIES n
      end.
Proof.
  intros Hi. exists (filled n). split; [|split; [|split]].
  - rewrite seed_effect. apply lookup_app_l_Some.
    rewrite list_lookup_fmap, Hi. reflexivity.
  - apply filled_with_labels.
  - intros k Hk. now apply filled_with_other.
  - apply filled_with_description.
Qed.

Lemma created_matches name desc db :
  In (name, desc) CATEGORIES ->
  existsb (is_category name) db = false ->
  List.filter (is_category name) (missing db) = [created name desc].
Proof.
  intros Hin Hno. unfold missing, missing_with, CATEGORIES in *.
  cbn [List.filter fst].
  destruct Hin as [[= <- <-]|[[= <- <-]|[[= <- <-]|[]]]]; rewrite Hno;
    cbn [negb];
    repeat match goal with
           | |- context [existsb ?f db] => destruct (existsb f db)
           end;
    cbn [negb map List.filter]; rewrite ?is_category_created;
    reflexivity.
Qed.

Lemma filter_unmatched name db :
  existsb (is_category name) db = false ->
  List.filter (is_category name) (map filled db) = [].
Proof.
  intros H. apply existsb_false_Forall in H.
  induction H as [|n r Hn Hr IH]; [reflexivity|].
  cbn [map List.filter]. unfold filled at 1.
  now rewrite is_category_filled_with, Hn.
Qed.

(** X16.  After seeding, each of the three names has a Category node, and
    every node of that name has a description; when the name had no node
    before, the one node of that name is the row of [CATEGORIES]; at most
    three nodes are added. *)
Theorem X16_seeding_postcondition (db : list node) (name desc : string) :
  In (name, desc) CATEGORIES ->
  (exists n, n ∈ seed_categories db /\ is_category name n = true) /\
  (forall n, n ∈ seed_categories db -> is_category name n = true ->
             exists v, props n !! "description" = Some v) /\
  (existsb (is_category name) db = false ->
   List.filter (is_category name) (seed_categories db)
   = [created name desc]) /\
  (length db <= length (seed_categories db) <= length db + 3)%nat.
Proof.
  intros Hin. destruct (seed_settles name desc db Hin) as [He Hf].
  split; [|split; [|split]].
  - apply existsb_exists in He as (n & Hn & Hc). exists n.
    split; [now apply list_elem_of_In|exact Hc].
  - intros n Hn Hc. rewrite Forall_forall in Hf.
    specialize (Hf n Hn Hc).
    destruct (props n !! "description") as [v|]; [now exists v|congruence].
  - intros Hno. rewrite seed_effect, List.filter_app.
    rewrite (filter_unmatched _ _ Hno). now apply created_matches.
  - rewrite seed_effect, length_app, length_map.
    pose proof (missing_length CATEGORIES db) as Hm.
    unfold missing. change (length CATEGORIES) with 3%nat in Hm. lia.
Qed.

Lemma X15_seeding_keeps_nodes_witness :
  exists n',
    seed_categories sample_db !! 1%nat = Some n' /\
    labels n' = ["Category"] /\
    (forall k, k <> "description" ->
               props n' !! k
               = ({[ "name" := PStr "admissions" ]} : gmap string pvalue)
                   !! k) /\
    props n' !! "description"
    = Some (PStr "Applications, entrance tests, merit lists, scholarships, program selection").
Proof.
  pose proof (X15_seeding_keeps_nodes sample_db 1
           {| labels := ["Category"];
              props := {[ "name" := PStr "admissions" ]} |} eq_refl)
    as (n' & H1 & H2 & H3 & H4).
  exists n'. split; [exact H1|]. split; [exact H2|]. split; [exact H3|].
  rewrite H4. vm_compute. reflexivity.
Defined.

Lemma X16_seeding_postcondition_witness :
  (exists n, n ∈ seed_categories sample_db
             /\ is_category "campus_life" n = true) /\
  (forall n, n ∈ seed_categories sample_db ->
             is_category "campus_life" n = true ->
             exists v, props n !! "description" = Some v) /\
  (existsb (is_category "campus_life") sample_db = false ->
   List.filter (is_category "campus_life") (seed_categories sample_db)
   = [created "campus_life"
        "Student life, events, hostel/food, facilities, clubs, sports, social activities"]) /\
  (length sample_db <= length (seed_categories sample_db)
   <= length sample_db + 3)%nat.
Proof.
  apply (X16_seeding_postcondition sample_db "campus_life").
  left. reflexivity.
Defined.

End SchemaSeeding.

(** ** The schema script *)

Module SchemaScriptSpec.
Import SchemaScript.

Lemma effects_app qs rs db :
  effects (qs ++ rs) db = effects rs (effects qs db).
Proof. apply fold_left_app. Qed.

(** Whatever the outcome, the nodes are those the accepted statements of
    the plan leave. *)
Lemma plan_without_wipe (j : nat) (db0 : list SchemaInit.node) :
  exists cats,
    cats `prefix_of` SchemaInit.CATEGORIES /\
    effects (take j (plan false)) db0
    = fold_left (fun db '(name, desc) => SchemaInit.merge_category name desc db)
        cats db0.
Proof.
  do 13 (destruct j as [|j];
         [exists []; split; [apply prefix_nil|reflexivity]|]).
  destruct j as [|j].
  { exists (take 1 SchemaInit.CATEGORIES).
    split; [apply prefix_take|reflexivity]. }
  destruct j as [|j].
  { exists (take 2 SchemaInit.CATEGORIES).
    split; [apply prefix_take|reflexivity]. }
  exists SchemaInit.CATEGORIES. split; [reflexivity|].
  do 5 (destruct j as [|j]; [reflexivity|]). reflexivity.
Qed.

Lemma plan_with_wipe (j : nat) (db0 : list SchemaInit.node) :
  (j <= 1)%nat /\ effects (take j (plan true)) db0 = db0 \/
  exists cats,
    (1 < j)%nat /\
    cats `prefix_of` SchemaInit.CATEGORIES /\
    effects (take j (plan true)) db0
    = map (fun '(name, desc) => SchemaInit.created name desc) cats.
Proof.
  do 2 (destruct j as [|j]; [left; split; [lia|reflexivity]|]).
  right.
  do 12 (destruct j as [|j];
         [exists []; split; [lia|split; [apply prefix_nil|reflexivity]]|]).
  destruct j as [|j].
  { exists (take 1 SchemaInit.CATEGORIES).
    split; [lia|split; [apply prefix_take|reflexivity]]. }
  destruct j as [|j].
  { exists (take 2 SchemaInit.CATEGORIES).
    split; [lia|split; [apply prefix_take|reflexivity]]. }
  exists SchemaInit.CATEGORIES. split; [lia|split; [reflexivity|]].
  do 5 (destruct j as [|j]; [reflexivity|]). reflexivity.
Qed.

Section WithServer.

Variable refuses : list statement -> statement -> bool.
Variable ping : option Z.

#[local] Abbreviation run := (run refuses).
#[local] Abbreviation run_each := (run_each refuses).
#[local] Abbreviation setup := (setup refuses ping).
#[local] Abbreviation main := (main refuses ping).

(** How far a sequence of statements gets: [j] statements are accepted,
    and either that is all of them or the next one is refused and ends the
    sequence. *)
Lemma run_each_spec qs : forall s s' ok,
  run_each qs s = (s', ok) ->
  exists j,
    (j <= length qs)%nat /\
    db s' = effects (take j qs) (db s) /\
    (forall i q, (i < j)%nat -> qs !! i = Some q ->
                 refuses (sent s ++ take i qs) q = false) /\
    if ok
    then j = length qs /\ sent s' = sent s ++ qs
    else exists q, qs !! j = Some q /\
                   refuses (sent s ++ take j qs) q = true /\
                   sent s' = sent s ++ take (S j) qs.
Proof.
  induction qs as [|q rest IH]; intros s s' ok H.
  - injection H as <- <-. exists 0%nat.
    split; [reflexivity|]. split; [reflexivity|].
    split; [intros i q Hi; lia|]. split; [reflexivity|].
    now rewrite app_nil_r.
  - cbn [SchemaScript.run_each] in H. unfold SchemaScript.run in H.
    destruct (refuses (sent s) q) eqn:Hq; unfold and_then in H;
      cbn [fst snd] in H.
    + injection H as <- <-. exists 0%nat. cbn [db sent].
      split; [cbn [length]; lia|]. split; [reflexivity|].
      split; [intros i q' Hi; lia|].
      exists q. split; [reflexivity|]. split; [|reflexivity].
      cbn [take]. now rewrite app_nil_r.
    + apply IH in H as (j & Hj & Hdb & Hacc & Hend).
      cbn [db sent] in *. exists (S j).
      split; [cbn [length]; lia|]. split; [exact Hdb|]. split.
      * intros [|i] q' Hi Hlook.
        -- injection Hlook as <-. cbn [take]. now rewrite app_nil_r.
        -- cbn [take]. rewrite (cons_middle q), app_assoc.
           apply Hacc; [lia|exact Hlook].
      * destruct ok.
        -- destruct Hend as [-> ->]. split; [reflexivity|].
           now rewrite <- app_assoc.
        -- destruct Hend as (q' & Hlook & Href & Hsent).
           exists q'. split; [exact Hlook|].
           cbn [take]. rewrite (cons_middle q), !app_assoc.
           split; [exact Href|]. rewrite Hsent.
           now rewrite <- !app_assoc.
Qed.

Lemma run_each_app qs rs s :
  run_each (qs ++ rs) s = and_then (run_each qs s) (run_each rs).
Proof.
  revert s. induction qs as [|q rest IH]; intros s; [reflexivity|].
  cbn [app SchemaScript.run_each]. unfold and_then at 1 3.
  destruct (run q s) as [s1 [|]]; cbn [fst snd]; [apply IH|reflexivity].
Qed.

Lemma and_then_ext r (f g : session -> session * bool) :
  (forall s, f s = g s) -> and_then r f = and_then r g.
Proof. intros H. unfold and_then. destruct (snd r); [apply H|reflexivity]. Qed.

(** When the ping answers 1 the body of [main] sends the plan, one
    statement after the other. *)
Lemma setup_plan wipe s :
  ping = Some 1%Z -> setup wipe s = run_each (plan wipe) s.
Proof.
  intros Hp. unfold SchemaScript.setup, assert_ping, plan.
  rewrite (bool_decide_eq_true_2 _ Hp).
  cbn [app SchemaScript.run_each]. apply and_then_ext. intros s1.
  unfold and_then at 1. cbn [fst snd].
  unfold run_batch, seed_categories, verify, wipe_all.
  destruct wipe.
  - cbn [app SchemaScript.run_each].
    repeat (rewrite ?run_each_app; apply and_then_ext; intros ?).
    reflexivity.
  - cbn [app]. unfold and_then at 1. cbn [fst snd].
    repeat (rewrite ?run_each_app; apply and_then_ext; intros ?).
    reflexivity.
Qed.

(** Otherwise only the ping is sent. *)
Lemma setup_no_ping wipe s :
  ping <> Some 1%Z ->
  setup wipe s = ({| sent := sent s ++ [Ping]; db := db s |}, false).
Proof.
  intros Hp. unfold SchemaScript.setup, assert_ping, SchemaScript.run.
  rewrite (bool_decide_eq_false_2 _ Hp).
  destruct (refuses (sent s) Ping); reflexivity.
Qed.

(** The shape of every run. *)
Lemma main_spec wipe db0 :
  exists j,
    (j <= length (plan wipe))%nat /\
    db (last (main wipe db0)) = effects (take j (plan wipe)) db0 /\
    (forall i q, (i < j)%nat -> plan wipe !! i = Some q ->
                 refuses (take i (plan wipe)) q = false) /\
    ((status (main wipe db0) = 0%Z /\ ping = Some 1%Z /\
      j = length (plan wipe) /\ sent (last (main wipe db0)) = plan wipe) \/
     (status (main wipe db0) = 1%Z /\ (j < length (plan wipe))%nat /\
      sent (last (main wipe db0)) = take (S j) (plan wipe) /\
      (ping <> Some 1%Z /\ j = 0%nat \/
       ping = Some 1%Z /\
       exists q, plan wipe !! j = Some q /\
                 refuses (take j (plan wipe)) q = true))).
Proof.
  unfold SchemaScript.main.
  destruct (decide (ping = Some 1%Z)) as [Hp|Hp].
  - rewrite (setup_plan _ _ Hp).
    destruct (run_each (plan wipe) _) as [s' ok] eqn:H.
    apply run_each_spec in H as (j & Hj & Hdb & Hacc & Hend).
    cbn [sent db app] in *. exists j. cbn [last status].
    split; [exact Hj|]. split; [exact Hdb|]. split; [exact Hacc|].
    destruct ok.
    + left. destruct Hend as [-> ->]. auto.
    + right. destruct Hend as (q & Hlook & Href & Hsent).
      split; [reflexivity|]. split; [now apply lookup_lt_Some in Hlook|].
      split; [exact Hsent|]. right. split; [exact Hp|]. now exists q.
  - rewrite (setup_no_ping _ _ Hp). cbn [last status sent db app].
    exists 0%nat. split; [lia|]. split; [reflexivity|].
    split; [intros i q Hi; lia|]. right.
    split; [reflexivity|]. split; [destruct wipe; cbn; lia|].
    split; [now destruct wipe|]. left. auto.
Qed.

(** X17.  A run sends an initial part of the plan, beginning with the
    ping, and stops at the first statement the server refuses: every
    statement before the last one sent was accepted, and when the run
    fails the last one sent is the ping whose answer was not 1 or the
    statement that was refused.  It exits with status 0 exactly when the
    ping answers 1 and the server refuses no statement of the plan, and
    then it has sent the whole plan; otherwise the status is 1. *)
Theorem X17_run_follows_plan (wipe : bool) (db0 : list SchemaInit.node) :
  (status (main wipe db0) = 0%Z <->
   ping = Some 1%Z /\
   forall i q, plan wipe !! i = Some q ->
               refuses (take i (plan wipe)) q = false) /\
  exists j,
    (j <= length (plan wipe))%nat /\
    (forall i q, (i < j)%nat -> plan wipe !! i = Some q ->
                 refuses (take i (plan wipe)) q = false) /\
    (status (main wipe db0) = 0%Z /\
     j = length (plan wipe) /\
     sent (last (main wipe db0)) = plan wipe
     \/
     status (main wipe db0) = 1%Z /\
     (j < length (plan wipe))%nat /\
     sent (last (main wipe db0)) = take (S j) (plan wipe) /\
     (ping <> Some 1%Z /\ j = 0%nat \/
      ping = Some 1%Z /\
      exists q, plan wipe !! j = Some q /\
                refuses (take j (plan wipe)) q = true)).
Proof.
  destruct (main_spec wipe db0)
    as (j & Hj & Hdb & Hacc &
        [(Hst & Hp & Hlen & Hsent)|(Hst & Hlt & Hsent & Hwhy)]).
  - split.
    + split; [|auto]. intros _. split; [exact Hp|].
      intros i q Hlook. apply Hacc; [|exact Hlook].
      apply lookup_lt_Some in Hlook. lia.
    + exists j. split; [exact Hj|]. split; [exact Hacc|]. left. auto.
  - split.
    + rewrite Hst. split; [discriminate|]. intros [Hp Hall].
      destruct Hwhy as [[Hn _]|(_ & q & Hlook & Href)]; [contradiction|].
      rewrite (Hall _ _ Hlook) in Href. discriminate.
    + exists j. split; [exact Hj|]. split; [exact Hacc|]. right. auto.
Qed.

(** X18.  A run that exits with status 0 has seeded the categories: into
    the emptied database when called with [--wipe], which then holds the
    three rows of [CATEGORIES] and nothing else, and into the database as
    it was otherwise. *)
Theorem X18_completed_run_database (wipe : bool)
    (db0 : list SchemaInit.node) :
  status (main wipe db0) = 0%Z ->
  db (last (main wipe db0))
  = SchemaInit.seed_categories (if wipe then [] else db0) /\
  (wipe = true ->
   db (last (main wipe db0))
   = map (fun '(name, desc) => SchemaInit.created name desc)
       SchemaInit.CATEGORIES).
Proof.
  intros Hst.
  destruct (main_spec wipe db0)
    as (j & Hj & Hdb & Hacc &
        [(_ & Hp & -> & Hsent)|(Hst' & _)]); [|congruence].
  rewrite firstn_all in Hdb. rewrite Hdb.
  destruct wipe; split; try reflexivity. discriminate.
Qed.

(** X19.  A run without [--wipe] never sends the delete statement, and
    whether it succeeds or fails it keeps every node in its place, with
    its labels and all its properties other than [description]; a node
    that has a description is left as it is. *)
Theorem X19_no_wipe_keeps_nodes (db0 : list SchemaInit.node) :
  (DetachDeleteAll ∉ sent (last (main false db0))) /\
  forall i n,
    db0 !! i = Some n ->
    exists n',
      db (last (main false db0)) !! i = Some n' /\
      SchemaInit.labels n' = SchemaInit.labels n /\
      (forall k, k <> "description" ->
                 SchemaInit.props n' !! k = SchemaInit.props n !! k) /\
      (SchemaInit.props n !! "description" <> None -> n' = n).
Proof.
  destruct (main_spec false db0) as (j & Hj & Hdb & Hacc & Hend).
  split.
  - assert (Hpre : exists k, sent (last (main false db0))
                             = take k (plan false)).
    { destruct Hend as [(_ & _ & _ & ->)|(_ & _ & -> & _)].
      - exists (length (plan false)). now rewrite firstn_all.
      - now exists (S j). }
    destruct Hpre as [k ->]. intros Hin.
    apply elem_of_take in Hin as (i & Hin%list_elem_of_lookup_2 & _).
    apply list_elem_of_In in Hin. revert Hin.
    unfold plan, CONSTRAINTS, INDEXES, REPORTS, SchemaInit.CATEGORIES.
    cbn [map app In]. intuition discriminate.
  - intros i n Hi. rewrite Hdb.
    destruct (plan_without_wipe j db0) as (cats & Hpre & ->).
    rewrite SchemaInitSpec.seed_with_effect.
    + exists (SchemaInit.filled_with cats n). split.
      * apply lookup_app_l_Some. now rewrite list_lookup_fmap, Hi.
      * split; [apply SchemaSeeding.filled_with_labels|].
        split; [intros k Hk; now apply SchemaSeeding.filled_with_other|].
        apply SchemaSeeding.filled_with_described.
    + destruct Hpre as [rest Hc].
      pose proof SchemaSeeding.categories_distinct as Hnd.
      rewrite Hc, map_app in Hnd. now apply List.NoDup_app_remove_r in Hnd.
Qed.

(** X20.  A run with [--wipe] leaves the database as it was when it
    ends before the delete statement is accepted; from then on the
    database holds an initial part of the rows of [CATEGORIES] and
    nothing of what was there. *)
Theorem X20_wipe_run_database (db0 : list SchemaInit.node) :
  db (last (main true db0)) = db0 /\ status (main true db0) = 1%Z \/
  exists cats,
    cats `prefix_of` SchemaInit.CATEGORIES /\
    db (last (main true db0))
    = map (fun '(name, desc) => SchemaInit.created name desc) cats.
Proof.
  destruct (main_spec true db0) as (j & Hj & Hdb & Hacc & Hend).
  destruct (plan_with_wipe j db0) as [[Hle He]|(cats & _ & Hpre & He)].
  - left. split; [congruence|].
    destruct Hend as [(_ & _ & -> & _)|(Hst & _)]; [|exact Hst].
    cbn in Hle. lia.
  - right. exists cats. split; [exact Hpre|congruence].
Qed.

End WithServer.

Lemma X17_run_follows_plan_witness :
  status (main accepts_all (Some 1%Z) true SchemaInit.sample_db) = 0%Z /\
  sent (last (main accepts_all (Some 1%Z) true SchemaInit.sample_db))
  = plan true /\
  status (main refuses_category_index (Some 1%Z) false SchemaInit.sample_db)
  = 1%Z /\
  sent (last (main refuses_category_index (Some 1%Z) false
                SchemaInit.sample_db))
  = take 10 (plan false).
Proof.
  destruct (X17_run_follows_plan accepts_all (Some 1%Z) true
              SchemaInit.sample_db)
    as (_ & j & _ & _ & [(H0 & _ & Hall)|(_ & _ & _ & Hwhy)]).
  2:{ destruct Hwhy as [[Hn _]|(_ & q & _ & Href)];
        [now contradiction Hn|discriminate Href]. }
  split; [exact H0|]. split; [exact Hall|].
  destruct (X17_run_follows_plan refuses_category_index (Some 1%Z) false
              SchemaInit.sample_db)
    as (Hiff & k & _ & Hacc & [(H & _ & _)|(H1 & Hlt & Hsent & Hwhy)]).
  { apply Hiff in H as [_ H]. specialize (H 9%nat _ eq_refl).
    discriminate H. }
  split; [exact H1|]. rewrite Hsent.
  destruct Hwhy as [[Hn _]|(_ & q & Hlook & Href)];
    [now contradiction Hn|].
  destruct (Nat.lt_trichotomy k 9) as [Hk|[->|Hk]]; [|reflexivity|].
  - exfalso. do 9 (destruct k as [|k];
      [injection Hlook as <-; discriminate Href|]). lia.
  - exfalso. specialize (Hacc 9%nat _ Hk eq_refl). discriminate Hacc.
Defined.

Lemma X18_completed_run_database_witness :
  db (last (main accepts_all (Some 1%Z) false SchemaInit.sample_db))
  = SchemaInit.seed_categories SchemaInit.sample_db /\
  (false = true ->
   db (last (main accepts_all (Some 1%Z) false SchemaInit.sample_db))
   = map (fun '(name, desc) => SchemaInit.created name desc)
       SchemaInit.CATEGORIES).
Proof.
  apply (X18_completed_run_database accepts_all (Some 1%Z) false
           SchemaInit.sample_db).
  reflexivity.
Defined.

Lemma X19_no_wipe_keeps_nodes_witness :
  exists n',
    db (last (main refuses_category_index (Some 1%Z) false
                SchemaInit.sample_db)) !! 0%nat = Some n' /\
    n' = {| SchemaInit.labels := ["Category"];
            SchemaInit.props :=
              {[ "name" := SchemaInit.PStr "academics";
                 "description" := SchemaInit.PStr "my own words" ]} |}.
Proof.
  destruct (X19_no_wipe_keeps_nodes refuses_category_index (Some 1%Z)
              SchemaInit.sample_db) as [_ H].
  destruct (H 0%nat _ eq_refl) as (n' & H1 & _ & _ & H4).
  exists n'. split; [exact H1|]. apply H4. vm_compute. discriminate.
Defined.

(** A run against a server that refuses the index on [p.category] stops
    there: ten statements sent, no category seeded. *)
Example refused_index_ends_run :
  let r := main refuses_category_index (Some 1%Z) false SchemaInit.sample_db in
  status r = 1%Z /\ length (sent (last r)) = 10%nat /\
  db (last r) = SchemaInit.sample_db.
Proof. vm_compute. repeat split; reflexivity. Qed.

End SchemaScriptSpec.

(** ** From the Collector to the Enricher *)

Module PipelineSpec.
Import Collector Enricher Pipeline.

Section WithServices.

Variable classify : nat -> json * json -> response.
Variable loads : text -> result json.
Variable dumps : json -> text.

(** A post record of the Collector is a post the Enricher can handle. *)
Lemma post_dict_well_formed (r : PostRec.t) :
  well_formed_post (JObj (post_dict r)) = true.
Proof. reflexivity. Qed.

(** Its enriched record is the twelve fields followed by the four
    labels. *)
Lemma enriched_post_dict (n : nat) (r : PostRec.t) :
  enriched classify n (post_dict r)
  = post_dict r
    ++ labels_of (analyze_post classify n (JStr (PostRec.title r))
                    (JStr (PostRec.selftext r))).
Proof. reflexivity. Qed.

Lemma enriched_records_posts (recs : list PostRec.t) : forall n,
  enriched_records classify n (map (fun r => JObj (post_dict r)) recs)
  = imap (fun i r => enriched classify (n + i) (post_dict r)) recs.
Proof.
  induction recs as [|r rest IH]; intros n; [reflexivity|].
  rewrite imap_cons. cbn [map enriched_records]. rewrite IH.
  rewrite Nat.add_0_r. f_equal. apply imap_ext. intros i x _.
  cbn. now rewrite Nat.add_succ_r.
Qed.

(** X21.  Run on the posts file that the Collector wrote, with a JSON
    codec that reads these lines back and a service whose keywords are
    strings, the Enricher comes to its end; line [i] of its output is
    record [i] of the Collector, its twelve fields in their order,
    followed by [category], [sentiment], [keywords] and
    [llm_description]. *)
Theorem X21_collector_posts_enriched (w : world) (recs : list PostRec.t) :
  files w !! INPUT_FILE
  = Some (map (fun r => line_of dumps (post_dict r)) recs) ->
  (forall r, In r recs ->
             nonblank (line_of dumps (post_dict r)) = true /\
             loads (line_of dumps (post_dict r)) = Ok (JObj (post_dict r))) ->
  (forall n c, printable (classify n c) = true) ->
  exists w',
    enrich_posts classify loads dumps w = (w', Returned) /\
    lines_of OUTPUT_FILE (files w')
    = imap (fun i r =>
              line_of dumps
                (post_dict r
                 ++ labels_of
                      (analyze_post classify (calls w + i)
                         (JStr (PostRec.title r))
                         (JStr (PostRec.selftext r)))))
        recs.
Proof.
  intros Hin Hcodec Hp.
  destruct (EnricherRuns.enrich_posts_completes classify loads dumps w _
              (map (fun r => JObj (post_dict r)) recs) Hin)
    as (w' & E & Hf & _).
  - clear Hin. induction recs as [|r rest IH]; [constructor|].
    cbn [map List.filter].
    destruct (Hcodec r (or_introl eq_refl)) as [-> Hl].
    constructor; [exact Hl|]. apply IH. intros r' Hr'. apply Hcodec.
    now right.
  - apply Forall_forall. intros p Hp'.
    apply list_elem_of_In, in_map_iff in Hp' as (r & <- & _).
    apply post_dict_well_formed.
  - exact Hp.
  - exists w'. split; [exact E|].
    rewrite Hf, EnricherSpec.lines_of_rebuilt, enriched_records_posts.
    etrans; [apply (fmap_imap _ (line_of dumps))|].
    apply imap_ext. intros i r _. reflexivity.
Qed.

End WithServices.

Lemma X21_collector_posts_enriched_witness :
  exists w',
    enrich_posts sample_classify
      (table_loads (map post_dict sample_posts)) id_dumps sample_input
    = (w', Returned) /\
    lines_of OUTPUT_FILE (files w')
    = imap (fun i r =>
              line_of id_dumps
                (post_dict r
                 ++ labels_of
                      (analyze_post sample_classify (calls sample_input + i)
                         (JStr (PostRec.title r))
                         (JStr (PostRec.selftext r)))))
        sample_posts.
Proof.
  apply (X21_collector_posts_enriched sample_classify
           (table_loads (map post_dict sample_posts)) id_dumps
           sample_input sample_posts).
  - reflexivity.
  - intros r [<-|[<-|[]]]; split; vm_compute; reflexivity.
  - intros [|[|n]] c; reflexivity.
Defined.

End PipelineSpec.
